(** * CSV attribute import / export of the vector-store file console

    A shallow embedding of [src/app/files/page.tsx] (the files page: CSV
    export, CSV import, attribute editing) and of the attribute route
    [PATCH /api/vector_stores/files/:fileId], together with the part of the
    JavaScript platform these functions rely on (string methods,
    [JSON.parse], [JSON.stringify]).

    Conventions of the model:
    - a JavaScript string is a [string]; each character stands for one
      code unit below 256 (Latin-1), so [length] is [String.prototype.length];
    - a JSON number is an integer ([Z]);
    - an object is the list of its own properties in creation order; the
      keys of a JavaScript object are pairwise distinct ([wf_json]);
    - [throw] is the left injection of a sum, [await fetch] consults an
      oracle and records the request in a trace. *)

From Stdlib Require Import String Ascii List ZArith NArith Lia Bool.
From Stdlib Require Import Decimal DecimalString DecimalZ.
From Stdlib Require DecimalFacts.
Import ListNotations.

Set Warnings "-register-all".

#[local] Open Scope string_scope.
#[local] Open Scope list_scope.

(** ** Characters used by the code *)

Definition dquote : ascii := "034"%char.
Definition backslash : ascii := "092"%char.
Definition comma : ascii := ","%char.
Definition LF : ascii := "010"%char.
Definition CR : ascii := "013"%char.

(** The one-character string holding a double quote. *)
Definition DQ : string := String dquote EmptyString.

(** ** String methods of the platform *)

Module Js.

(** White space and line terminators recognised by [String.prototype.trim],
    among the code units below 256. *)
Definition isWhiteSpace (c : ascii) : bool :=
  let n := N_of_ascii c in
  (((9 <=? n) && (n <=? 13)) || (n =? 32) || (n =? 160))%N.

Fixpoint trimStart (s : string) : string :=
  match s with
  | EmptyString => EmptyString
  | String c r => if isWhiteSpace c then trimStart r else s
  end.

Definition isEmpty (s : string) : bool :=
  match s with EmptyString => true | _ => false end.

Fixpoint trimEnd (s : string) : string :=
  match s with
  | EmptyString => EmptyString
  | String c r =>
      let r' := trimEnd r in
      if isWhiteSpace c && isEmpty r' then EmptyString else String c r'
  end.

Definition trim (s : string) : string := trimEnd (trimStart s).

(** [toLowerCase] on the code units below 256: A-Z and the accented
    capitals of Latin-1 move up by 32. *)
Definition lowerChar (c : ascii) : ascii :=
  let n := N_of_ascii c in
  if (((65 <=? n) && (n <=? 90)) || ((192 <=? n) && (n <=? 214))
      || ((216 <=? n) && (n <=? 222)))%N
  then ascii_of_N (n + 32) else c.

Fixpoint toLowerCase (s : string) : string :=
  match s with
  | EmptyString => EmptyString
  | String c r => String (lowerChar c) (toLowerCase r)
  end.

(** [s.startsWith(p)] *)
Definition startsWith (s p : string) : bool := String.prefix p s.

(** [s.includes(sub)] *)
Fixpoint includes (s sub : string) : bool :=
  String.prefix sub s ||
  match s with
  | EmptyString => false
  | String _ r => includes r sub
  end.

(** [cells.join(sep)] *)
Definition join (sep : string) (cells : list string) : string :=
  String.concat sep cells.

(** [text.split(/\r?\n/)] *)
Fixpoint splitLines (s : string) : list string :=
  match s with
  | EmptyString => [EmptyString]
  | String c r =>
      if Ascii.eqb c LF then EmptyString :: splitLines r
      else
        match r with
        | String c' r' =>
            if Ascii.eqb c CR && Ascii.eqb c' LF
            then EmptyString :: splitLines r'
            else match splitLines r with
                 | [] => [String c EmptyString]
                 | l :: ls => String c l :: ls
                 end
        | EmptyString => [String c EmptyString]
        end
  end.

(** [s.replace(/Q/g, QQ)], writing Q for the double quote character. *)
Fixpoint doubleQuotes (s : string) : string :=
  match s with
  | EmptyString => EmptyString
  | String c r =>
      if Ascii.eqb c dquote
      then String dquote (String dquote (doubleQuotes r))
      else String c (doubleQuotes r)
  end.

(** Removal of a final double quote: the second branch of the pattern
    [/^Q|Q$/g]. *)
Fixpoint dropFinalQuote (s : string) : string :=
  match s with
  | EmptyString => EmptyString
  | String c EmptyString => if Ascii.eqb c dquote then EmptyString else s
  | String c r => String c (dropFinalQuote r)
  end.

(** [s.replace(/^Q|Q$/g, empty)]: a double quote at the very start is
    removed, and so is one at the very end of what follows. *)
Definition stripQuotes (s : string) : string :=
  match s with
  | String c r => if Ascii.eqb c dquote then dropFinalQuote r
                  else dropFinalQuote s
  | EmptyString => EmptyString
  end.

(** [s.replace(/\\Q/g, Q)]: every backslash directly followed by a
    double quote disappears, scanning from the left. *)
Fixpoint unescapeQuotes (s : string) : string :=
  match s with
  | EmptyString => EmptyString
  | String c r =>
      match r with
      | String c' r' =>
          if Ascii.eqb c backslash && Ascii.eqb c' dquote
          then String dquote (unescapeQuotes r')
          else String c (unescapeQuotes r)
      | EmptyString => s
      end
  end.

(** [s.replace(/\\/g, '')] *)
Fixpoint removeBackslashes (s : string) : string :=
  match s with
  | EmptyString => EmptyString
  | String c r =>
      if Ascii.eqb c backslash then removeBackslashes r
      else String c (removeBackslashes r)
  end.

(** [n.toString()] for an integer. *)
Definition numberToString (z : Z) : string :=
  NilZero.string_of_int (Z.to_int z).

End Js.

(** ** The CSV field parser, [parseCSVLine] (page.tsx, lines 314-340)

    The [for] loop over [line] is a recursion over the characters still to
    be read; [cell], [inQuotes] and [result] are the loop's variables.
    The test on [line[i + 1]] looks at the character after the current one and
    [i++] skips it. *)

Fixpoint parseCSVLine_loop (line cell : string) (inQuotes : bool)
    (result : list string) : list string :=
  match line with
  | EmptyString => result ++ [Js.trim cell]
  | String char rest =>
      if Ascii.eqb char dquote then
        match rest with
        | String next rest' =>
            if inQuotes && Ascii.eqb next dquote
            then parseCSVLine_loop rest' (cell ++ DQ) inQuotes result
            else parseCSVLine_loop rest cell (negb inQuotes) result
        | EmptyString => parseCSVLine_loop rest cell (negb inQuotes) result
        end
      else if Ascii.eqb char comma && negb inQuotes then
        parseCSVLine_loop rest EmptyString inQuotes (result ++ [Js.trim cell])
      else
        parseCSVLine_loop rest (cell ++ String char EmptyString) inQuotes result
  end.

Definition parseCSVLine (line : string) : list string :=
  parseCSVLine_loop line EmptyString false [].

(** ** Cell and row encoding shared by the two exports
    (page.tsx, lines 224-226 and 264-266) *)

(** The template literal that doubles the quotes of [String(cell)] and
    puts the result between two double quotes. *)
Definition csvCell (cell : string) : string :=
  DQ ++ Js.doubleQuotes cell ++ DQ.

(** [row.map(cell => ...).join(',')] *)
Definition csvRow (row : list string) : string :=
  Js.join "," (map csvCell row).

(** [csvRows.map(row => ...).join('\n')] *)
Definition csvDocument (rows : list (list string)) : string :=
  Js.join (String LF EmptyString) (map csvRow rows).


(** ** JSON values, [JSON.stringify] and [JSON.parse] *)

Inductive JSON : Type :=
| JNull
| JBool (b : bool)
| JNum (n : Z)
| JStr (s : string)
| JArr (items : list JSON)
| JObj (props : list (string * JSON)).

Module Json.

(** *** Own properties of an object *)

Fixpoint lookup (k : string) (props : list (string * JSON)) : option JSON :=
  match props with
  | [] => None
  | (k', v) :: rest => if String.eqb k k' then Some v else lookup k rest
  end.

(** [obj[k] = v]: an existing property keeps its place, a new one is
    created last. *)
Fixpoint setProp (k : string) (v : JSON) (props : list (string * JSON))
    : list (string * JSON) :=
  match props with
  | [] => [(k, v)]
  | (k', v') :: rest =>
      if String.eqb k k' then (k', v) :: rest
      else (k', v') :: setProp k v rest
  end.

(** *** [JSON.stringify] *)

Definition hexDigit (n : N) : ascii :=
  if (n <? 10)%N then ascii_of_N (48 + n) else ascii_of_N (87 + n).

Definition escapeChar (c : ascii) : string :=
  let n := N_of_ascii c in
  if Ascii.eqb c dquote then String backslash DQ
  else if Ascii.eqb c backslash then String backslash (String backslash EmptyString)
  else if (n =? 8)%N then String backslash "b"
  else if (n =? 9)%N then String backslash "t"
  else if (n =? 10)%N then String backslash "n"
  else if (n =? 12)%N then String backslash "f"
  else if (n =? 13)%N then String backslash "r"
  else if (n <? 32)%N then
    String backslash
      (String "u" (String "0" (String "0"
         (String (hexDigit (n / 16)) (String (hexDigit (n mod 16)) EmptyString)))))
  else String c EmptyString.

Fixpoint escape (s : string) : string :=
  match s with
  | EmptyString => EmptyString
  | String c r => escapeChar c ++ escape r
  end.

Definition quote (s : string) : string := DQ ++ escape s ++ DQ.

Fixpoint stringify (v : JSON) : string :=
  match v with
  | JNull => "null"
  | JBool true => "true"
  | JBool false => "false"
  | JNum n => Js.numberToString n
  | JStr s => quote s
  | JArr items => "[" ++ Js.join "," (map stringify items) ++ "]"
  | JObj props =>
      "{" ++ Js.join ","
               (map (fun kv => match kv with
                               | (k, x) => (quote k ++ ":" ++ stringify x)%string
                               end) props) ++ "}"
  end.

(** *** [JSON.parse]

    A recursive-descent reader of the JSON grammar.  [None] stands for
    the [SyntaxError] the platform throws.  Two kinds of text are outside
    the model and are answered with [None] as well: a number with a
    fraction or an exponent, and a [\u] escape of a code unit above 255. *)

Definition isWs (c : ascii) : bool :=
  let n := N_of_ascii c in
  ((n =? 32) || (n =? 9) || (n =? 10) || (n =? 13))%N.

Fixpoint skipWs (s : string) : string :=
  match s with
  | String c r => if isWs c then skipWs r else s
  | EmptyString => EmptyString
  end.

Definition isDigit (c : ascii) : bool :=
  let n := N_of_ascii c in ((48 <=? n) && (n <=? 57))%N.

Fixpoint spanDigits (s : string) : string * string :=
  match s with
  | String c r =>
      if isDigit c then let (d, rest) := spanDigits r in (String c d, rest)
      else (EmptyString, s)
  | EmptyString => (EmptyString, EmptyString)
  end.

Definition hexValue (c : ascii) : option N :=
  let n := N_of_ascii c in
  if ((48 <=? n) && (n <=? 57))%N then Some (n - 48)%N
  else if ((97 <=? n) && (n <=? 102))%N then Some (n - 87)%N
  else if ((65 <=? n) && (n <=? 70))%N then Some (n - 55)%N
  else None.

Definition unicodeEscape (h1 h2 h3 h4 : ascii) : option ascii :=
  match hexValue h1, hexValue h2, hexValue h3, hexValue h4 with
  | Some a, Some b, Some c, Some d =>
      if ((a =? 0) && (b =? 0))%N then Some (ascii_of_N (16 * c + d)) else None
  | _, _, _, _ => None
  end.

Definition simpleEscape (e : ascii) : option ascii :=
  if Ascii.eqb e dquote then Some dquote
  else if Ascii.eqb e backslash then Some backslash
  else if Ascii.eqb e "/"%char then Some "/"%char
  else if Ascii.eqb e "b"%char then Some "008"%char
  else if Ascii.eqb e "f"%char then Some "012"%char
  else if Ascii.eqb e "n"%char then Some "010"%char
  else if Ascii.eqb e "r"%char then Some "013"%char
  else if Ascii.eqb e "t"%char then Some "009"%char
  else None.

Definition consChar (c : ascii) (r : option (string * string))
    : option (string * string) :=
  match r with
  | Some (str, rest) => Some (String c str, rest)
  | None => None
  end.

(** Reads a string literal whose opening quote has been consumed; returns
    its value and the text after the closing quote. *)
Fixpoint parseStringBody (s : string) : option (string * string) :=
  match s with
  | EmptyString => None
  | String c r =>
      if Ascii.eqb c dquote then Some (EmptyString, r)
      else if Ascii.eqb c backslash then
        match r with
        | String e r1 =>
            if Ascii.eqb e "u"%char then
              match r1 with
              | String h1 (String h2 (String h3 (String h4 r5))) =>
                  match unicodeEscape h1 h2 h3 h4 with
                  | Some u => consChar u (parseStringBody r5)
                  | None => None
                  end
              | _ => None
              end
            else
              match simpleEscape e with
              | Some u => consChar u (parseStringBody r1)
              | None => None
              end
        | EmptyString => None
        end
      else if (N_of_ascii c <? 32)%N then None
      else consChar c (parseStringBody r)
  end.

Definition startsFraction (s : string) : bool :=
  match s with
  | String c _ => Ascii.eqb c "."%char || Ascii.eqb c "e"%char
                  || Ascii.eqb c "E"%char
  | EmptyString => false
  end.

Definition parseDigits (s : string) : option (Z * string) :=
  let (digits, rest) := spanDigits s in
  match digits with
  | EmptyString => None
  | String c (String _ _ as more) =>
      if Ascii.eqb c "0"%char then None
      else if startsFraction rest then None
      else option_map (fun d => (Z.of_uint d, rest))
                      (NilEmpty.uint_of_string digits)
  | _ =>
      if startsFraction rest then None
      else option_map (fun d => (Z.of_uint d, rest))
                      (NilEmpty.uint_of_string digits)
  end.

Definition parseNumber (s : string) : option (Z * string) :=
  match s with
  | String c r =>
      if Ascii.eqb c "-"%char
      then option_map (fun p => (Z.opp (fst p), snd p)) (parseDigits r)
      else parseDigits s
  | EmptyString => None
  end.

(** The text after the word [p], when [s] starts with it. *)
Fixpoint dropPrefix (p s : string) : option string :=
  match p, s with
  | EmptyString, _ => Some s
  | String a p', String b s' =>
      if Ascii.eqb a b then dropPrefix p' s' else None
  | String _ _, EmptyString => None
  end.

Definition parseLiteral (s : string) : option (JSON * string) :=
  match dropPrefix "null" s with
  | Some r => Some (JNull, r)
  | None =>
      match dropPrefix "true" s with
      | Some r => Some (JBool true, r)
      | None =>
          match dropPrefix "false" s with
          | Some r => Some (JBool false, r)
          | None => option_map (fun p => (JNum (fst p), snd p)) (parseNumber s)
          end
      end
  end.

Fixpoint parseValue (fuel : nat) (s : string) : option (JSON * string) :=
  match fuel with
  | O => None
  | S fuel' =>
      match skipWs s with
      | EmptyString => None
      | String c r =>
          if Ascii.eqb c "{"%char then
            match skipWs r with
            | String c' r' =>
                if Ascii.eqb c' "}"%char then Some (JObj [], r')
                else parseMembers fuel' r []
            | EmptyString => None
            end
          else if Ascii.eqb c "["%char then
            match skipWs r with
            | String c' r' =>
                if Ascii.eqb c' "]"%char then Some (JArr [], r')
                else parseElements fuel' r []
            | EmptyString => None
            end
          else if Ascii.eqb c dquote then
            match parseStringBody r with
            | Some (str, rest) => Some (JStr str, rest)
            | None => None
            end
          else parseLiteral (String c r)
      end
  end
with parseElements (fuel : nat) (s : string) (acc : list JSON)
    : option (JSON * string) :=
  match fuel with
  | O => None
  | S fuel' =>
      match parseValue fuel' s with
      | Some (v, rest) =>
          match skipWs rest with
          | String c rest' =>
              if Ascii.eqb c ","%char then parseElements fuel' rest' (acc ++ [v])
              else if Ascii.eqb c "]"%char then Some (JArr (acc ++ [v]), rest')
              else None
          | EmptyString => None
          end
      | None => None
      end
  end
with parseMembers (fuel : nat) (s : string) (acc : list (string * JSON))
    : option (JSON * string) :=
  match fuel with
  | O => None
  | S fuel' =>
      match skipWs s with
      | String q r =>
          if Ascii.eqb q dquote then
            match parseStringBody r with
            | Some (k, rest) =>
                match skipWs rest with
                | String c rest' =>
                    if Ascii.eqb c ":"%char then
                      match parseValue fuel' rest' with
                      | Some (v, rest2) =>
                          match skipWs rest2 with
                          | String c2 rest3 =>
                              if Ascii.eqb c2 ","%char
                              then parseMembers fuel' rest3 (setProp k v acc)
                              else if Ascii.eqb c2 "}"%char
                              then Some (JObj (setProp k v acc), rest3)
                              else None
                          | EmptyString => None
                          end
                      | None => None
                      end
                    else None
                | EmptyString => None
                end
            | None => None
            end
          else None
      | EmptyString => None
      end
  end.

(** [JSON.parse(text)]; the fuel covers two calls for each character,
    which is all a text can need ([parse_fuel_adequate]). *)
Definition parse (text : string) : option JSON :=
  match parseValue (2 * String.length text + 2) text with
  | Some (v, rest) => if Js.isEmpty (skipWs rest) then Some v else None
  | None => None
  end.

End Json.

(** ** Exceptions *)

(** Errors raised by the platform itself; their message text belongs to
    the JavaScript engine. *)
Inductive EngineError : Type :=
| TypeError_undefined (property : string)
    (* a property read on [undefined] *)
| TypeError_in (field : string) (operand : JSON)
    (* [field in operand] with an operand that is not an object *)
| TypeError_toObject
    (* [Object.keys] or a destructuring applied to [null] or [undefined] *)
| SyntaxError_JSON (text : string)
    (* [JSON.parse(text)] on a text that is not JSON *)
| RangeError_time.
    (* [toISOString] on a date whose time value is not valid *)

(** A thrown value: [new Error(message)] or an engine error. *)
Inductive Exn : Type :=
| Error (message : string)
| Engine (e : EngineError).

Definition Throws (A : Type) : Type := (Exn + A)%type.

Definition ret {A : Type} (a : A) : Throws A := inr a.
Definition throw {A : Type} (e : Exn) : Throws A := inl e.
Definition bind {A B : Type} (m : Throws A) (k : A -> Throws B) : Throws B :=
  match m with
  | inl e => inl e
  | inr a => k a
  end.

Notation "x <- m ;; k" := (bind m (fun x => k))
  (at level 61, m at next level, right associativity).

(** [for (const x of xs) body(x)] with a body that may throw. *)
Fixpoint forEach {A : Type} (body : A -> Throws unit) (xs : list A)
    : Throws unit :=
  match xs with
  | [] => ret tt
  | x :: rest => _ <- body x ;; forEach body rest
  end.

(** [xs.filter(p)] with a predicate that may throw. *)
Fixpoint filterT {A : Type} (p : A -> Throws bool) (xs : list A)
    : Throws (list A) :=
  match xs with
  | [] => ret []
  | x :: rest =>
      keep <- p x ;;
      kept <- filterT p rest ;;
      ret (if keep then x :: kept else kept)
  end.

(** ** Records of the page *)

(** [interface File] (page.tsx, lines 25-35). *)
Module File.
Record t : Type := mk {
  id : string;
  name : string;
  attributes : JSON;
  vectorStoreId : string;
  object : string;
  bytes : Z;
  created_at : Z;
  filename : string;
  purpose : string
}.

(** [{ ...file, attributes: a }] *)
Definition withAttributes (file : t) (a : JSON) : t :=
  mk (id file) (name file) a (vectorStoreId file) (object file)
     (bytes file) (created_at file) (filename file) (purpose file).
End File.

(** One element of [updates]: [{ fileName, attributes }]. *)
Module Update.
Record t : Type := mk { fileName : string; attributes : JSON }.
End Update.

(** The [PATCH] request both handlers send: the file id of the URL and the
    two members of the JSON body. *)
Module Patch.
Record t : Type := mk {
  fileId : string;
  attributes : JSON;
  vectorStoreId : string
}.

(** The value whose [JSON.stringify] is the request's body. *)
Definition body (r : t) : JSON :=
  JObj [("attributes", attributes r); ("vectorStoreId", JStr (vectorStoreId r))].
End Patch.

(** What [await fetch(...)] gives: a response with its [ok] flag, or a
    rejection, whose reason carries a message when it is an [Error]. *)
Inductive FetchResult : Type :=
| Response (ok : bool)
| Rejected (reason : option string).

(** The import summary (page.tsx, lines 59-69 and 301-305). *)
Module Summary.
Record tally (A : Type) : Type := mkTally { count : nat; files : list A }.
Arguments mkTally {A} _ _.
Arguments count {A} _.
Arguments files {A} _.

Record entry : Type := mkEntry { name : string; error : string }.

Record t : Type := mk {
  show : bool;
  success : tally string;
  errors : tally entry;
  notFound : tally string
}.

(** [tally.files.push(x); tally.count++] *)
Definition push {A : Type} (x : A) (b : tally A) : tally A :=
  mkTally (S (count b)) (files b ++ [x]).

Definition emptyTally {A : Type} : tally A := mkTally 0 [].

(** The initial [summary] of [handleImportFiles]. *)
Definition initial : t := mk false emptyTally emptyTally emptyTally.

Definition pushSuccess (x : string) (s : t) : t :=
  mk (show s) (push x (success s)) (errors s) (notFound s).
Definition pushError (x : entry) (s : t) : t :=
  mk (show s) (success s) (push x (errors s)) (notFound s).
Definition pushNotFound (x : string) (s : t) : t :=
  mk (show s) (success s) (errors s) (push x (notFound s)).

(** [{ show: true, ...summary }] *)
Definition shown (s : t) : t :=
  mk true (success s) (errors s) (notFound s).

(** The summary set by the [catch] of [handleImportFiles]
    (page.tsx, lines 440-451). *)
Definition failure (message : string) : t :=
  mk true emptyTally (mkTally 1 [mkEntry "Import Process" message]) emptyTally.
End Summary.

(** A [toast] notification. *)
Inductive Toast : Type :=
| ToastSuccess (text : string)
| ToastError (text : string).

(** The state of the page that the handlers read and set. *)
Module Page.
Record t : Type := mk {
  files : list File.t;
  editingFile : option File.t;
  metadataInput : string;
  importSummary : Summary.t
}.
End Page.

(** What a handler leaves behind: the new state, the [PATCH] requests it
    sent, in order, and the notifications it showed. *)
Module Run.
Record t : Type := mk {
  page : Page.t;
  requests : list Patch.t;
  toasts : list Toast
}.
End Run.

(** ** Property access on a parsed JSON value *)

Module Obj.

(** [field in v] for a field name that is not an index, not [length] and
    not a name the prototypes define (the required fields below are such
    names): an own property of an object; arrays have no such property;
    any other operand makes [in] throw. *)
Definition hasField (field : string) (v : JSON) : Throws bool :=
  match v with
  | JObj props =>
      ret (match Json.lookup field props with Some _ => true | None => false end)
  | JArr _ => ret false
  | _ => throw (Engine (TypeError_in field v))
  end.

(** [v.field] for such a field, on a value that is not [null];
    [None] is [undefined]. *)
Definition get (field : string) (v : JSON) : option JSON :=
  match v with
  | JObj props => Json.lookup field props
  | _ => None
  end.

(** The strings [0], [1], ..., [n - 1]. *)
Definition indices (n : nat) : list string :=
  map (fun i => Js.numberToString (Z.of_nat i)) (seq 0 n).

(** [Object.keys(v)], also the keys of [Object.entries(v)]. *)
Definition keys (v : JSON) : Throws (list string) :=
  match v with
  | JObj props => ret (map fst props)
  | JArr items => ret (indices (List.length items))
  | JStr s => ret (indices (String.length s))
  | JNum _ | JBool _ => ret []
  | JNull => throw (Engine TypeError_toObject)
  end.

(** [!v] *)
Definition falsy (v : option JSON) : bool :=
  match v with
  | None | Some JNull | Some (JBool false) => true
  | Some (JNum n) => Z.eqb n 0
  | Some (JStr s) => Js.isEmpty s
  | _ => false
  end.

End Obj.

(** ** Records of the other handlers and routes *)

(** What [handleDeleteFile] leaves behind: the new state, the addresses
    it sent a [DELETE] request to, and the notifications it showed. *)
Module DeleteRun.
Record t : Type := mk {
  page : Page.t;
  requests : list string;
  toasts : list Toast
}.
End DeleteRun.

(** One file of the vector store as the collaborator lists it: the
    fields the route reads.  [attributes] is [None] when the field is
    [undefined]. *)
Module StoreFile.
Record t : Type := mk { id : string; attributes : option JSON }.
End StoreFile.

(** What [openai.files.retrieve] gives: the fields the route reads. *)
Module Details.
Record t : Type := mk {
  filename : string;
  object : string;
  bytes : Z;
  created_at : Z;
  purpose : string
}.
End Details.

(** A width in pixels, or [NaN]. *)
Inductive Width : Type := Px (w : Z) | NaN.

(** The state [resizing]: [column] is [None] for [null], [startWidth]
    is [None] for [undefined]. *)
Module Resizing.
Record t : Type := mk {
  column : option string;
  startX : Z;
  startWidth : option Width
}.
End Resizing.

Section App.

(** The message text of the engine's own errors. *)
Variable engineMessage : EngineError -> string.

(** [new Date(ms).toISOString()] for a time value [ms] that makes a
    valid date: the platform's rendering of the creation times.  What
    happens on the other time values is in [dateToISOString]. *)
Variable toISOString : Z -> string.

(** The answer of [await fetch(url, { method: PATCH, ... })], given the
    requests sent before it by the same handler. *)
Variable fetchPatch : list Patch.t -> Patch.t -> FetchResult.

(** The file list [fetchFiles] obtains after the given requests; [None]
    when the listing fails. *)
Variable fetchList : list Patch.t -> option (list File.t).

(** [error.message] *)
Definition message (e : Exn) : string :=
  match e with
  | Error m => m
  | Engine x => engineMessage x
  end.

(** [JSON.parse(text)] as a computation that may throw. *)
Definition JSON_parse (text : string) : Throws JSON :=
  match Json.parse text with
  | Some v => ret v
  | None => throw (Engine (SyntaxError_JSON text))
  end.

(** ** [validateMetadata] (page.tsx, lines 279-295) *)

Definition requiredFields : list string :=
  ["title"; "documentCategory"; "documentType"; "year"; "version";
   "referenceCode"; "status"; "jurisdiction"].

Definition validStatuses : list string :=
  ["active"; "draft"; "superseded"; "withdrawn"; "legacy"].

(** [typeof v === 'number'] *)
Definition isNumber (v : option JSON) : bool :=
  match v with Some (JNum _) => true | _ => false end.

(** [validStatuses.includes(v)] *)
Definition includesValue (strings : list string) (v : option JSON) : bool :=
  match v with
  | Some (JStr s) => existsb (String.eqb s) strings
  | _ => false
  end.

Definition validateMetadata (attributes : JSON) (fileName : string)
    : Throws unit :=
  missingFields <-
    filterT (fun field => present <- Obj.hasField field attributes ;;
                          ret (negb present)) requiredFields ;;
  if (0 <? List.length missingFields)%nat then
    throw (Error ("File " ++ DQ ++ fileName ++ DQ
                  ++ " is missing required fields: "
                  ++ Js.join ", " missingFields))
  else if negb (isNumber (Obj.get "year" attributes)) then
    throw (Error ("File " ++ DQ ++ fileName ++ DQ ++ ": year must be a number"))
  else if negb (includesValue validStatuses (Obj.get "status" attributes)) then
    throw (Error ("File " ++ DQ ++ fileName ++ DQ
                  ++ ": status must be one of: "
                  ++ Js.join ", " validStatuses))
  else ret tt.

(** ** The parse stage of [handleImportFiles] (page.tsx, lines 308-383) *)

(** The clean-up of the attributes cell (lines 360-367). *)
Definition cleanAttributes (cell : string) : string :=
  let attributesStr := Js.trim (Js.stripQuotes cell) in
  Js.trim (Js.removeBackslashes
             (Js.stripQuotes (Js.unescapeQuotes attributesStr))).

(** The file name of a row (line 357). *)
Definition cleanFileName (cell : string) : string :=
  Js.trim (Js.stripQuotes cell).

(** The body of the inner [try] (lines 362-374). *)
Definition decodeAttributes (cell fileName : string) : Throws JSON :=
  attributes <- JSON_parse (cleanAttributes cell) ;;
  _ <- validateMetadata attributes fileName ;;
  ret attributes.

(** The error rethrown by the inner [catch] (line 377). *)
Definition rowError (fileName : string) (error : Exn) : Exn :=
  Error ("Invalid JSON in attributes for file " ++ DQ ++ fileName ++ DQ
         ++ ": " ++ message error).

(** The loop over the data lines (lines 350-379); [updates] is the array
    filled so far. *)
Fixpoint importRows (lines : list string) (updates : list Update.t)
    : Throws (list Update.t) :=
  match lines with
  | [] => ret updates
  | line :: rest =>
      if Js.isEmpty (Js.trim line) || Js.startsWith line "Instructions:"
      then importRows rest updates
      else
        match parseCSVLine line with
        | cell0 :: cell1 :: _ =>
            let fileName := cleanFileName cell0 in
            if Js.isEmpty fileName then importRows rest updates
            else
              match decodeAttributes cell1 fileName with
              | inr attributes =>
                  importRows rest (updates ++ [Update.mk fileName attributes])
              | inl error => throw (rowError fileName error)
              end
        | _ => importRows rest updates
        end
  end.

(** [text.split(...).filter(line => line.trim() !== '')] (line 311). *)
Definition importLines (text : string) : list string :=
  filter (fun line => negb (Js.isEmpty (Js.trim line))) (Js.splitLines text).

Definition invalidFormat : Exn :=
  Error "Invalid CSV format. Required columns: File Name, Attributes".

Definition noValidRows : Exn :=
  Error "No valid data rows found in the CSV file".

(** The header test (lines 343-346).  [headers[1]] is [undefined] when
    the header has one column, and is read only when the first column is
    the expected one. *)
Definition checkHeader (headers : list string) : Throws unit :=
  match headers with
  | [] => throw (Engine (TypeError_undefined "toLowerCase"))
  | h0 :: more =>
      if negb (String.eqb (Js.toLowerCase h0) "file name")
      then throw invalidFormat
      else
        match more with
        | [] => throw (Engine (TypeError_undefined "toLowerCase"))
        | h1 :: _ =>
            if negb (Js.includes (Js.toLowerCase h1) "attributes")
            then throw invalidFormat
            else ret tt
        end
  end.

(** Lines 308-383: from the text of the file to the array [updates]. *)
Definition parseImport (text : string) : Throws (list Update.t) :=
  match importLines text with
  | [] => throw (Engine (TypeError_undefined "length"))
  | first :: rest =>
      _ <- checkHeader (parseCSVLine first) ;;
      updates <- importRows rest [] ;;
      if (List.length updates =? 0)%nat then throw noValidRows
      else ret updates
  end.

(** ** Reconciliation (page.tsx, lines 386-427) *)

(** The predicate given to [files.find] (lines 387-392). *)
Definition matchesName (fileName : string) (f : File.t) : bool :=
  String.eqb (File.filename f) fileName
  || String.eqb (File.name f) fileName
  || String.eqb (File.filename f) (fileName ++ ".pdf")
  || String.eqb (File.name f) (fileName ++ ".pdf").

Definition findFile (files : list File.t) (fileName : string)
    : option File.t :=
  find (matchesName fileName) files.

Definition patchOf (file : File.t) (attributes : JSON) : Patch.t :=
  Patch.mk (File.id file) attributes (File.vectorStoreId file).

(** The loop over [updates]; [summary] and the requests sent so far are
    carried along. *)
Fixpoint reconcile (files : list File.t) (updates : list Update.t)
    (summary : Summary.t) (sent : list Patch.t)
    : Summary.t * list Patch.t :=
  match updates with
  | [] => (summary, sent)
  | update :: rest =>
      let fileName := Update.fileName update in
      match findFile files fileName with
      | None => reconcile files rest (Summary.pushNotFound fileName summary) sent
      | Some file =>
          let request := patchOf file (Update.attributes update) in
          match fetchPatch sent request with
          | Response true =>
              reconcile files rest
                (Summary.pushSuccess fileName summary) (sent ++ [request])
          | Response false =>
              reconcile files rest
                (Summary.pushError
                   (Summary.mkEntry fileName "Failed to update in database")
                   summary)
                (sent ++ [request])
          | Rejected reason =>
              reconcile files rest
                (Summary.pushError
                   (Summary.mkEntry fileName
                      (match reason with
                       | Some m => m
                       | None => "Unknown error"
                       end))
                   summary)
                (sent ++ [request])
          end
      end
  end.

(** [fetchFiles] (lines 116-130): the list replaces [files] when the
    listing succeeds, and a notification is shown when it fails. *)
Definition fetchFiles (sent : list Patch.t) (p : Page.t)
    : Page.t * list Toast :=
  match fetchList sent with
  | Some listed =>
      (Page.mk listed (Page.editingFile p) (Page.metadataInput p)
         (Page.importSummary p), [])
  | None => (p, [ToastError "Failed to load files"])
  end.

Definition setImportSummary (s : Summary.t) (p : Page.t) : Page.t :=
  Page.mk (Page.files p) (Page.editingFile p) (Page.metadataInput p) s.

(** ** [handleImportFiles] (page.tsx, lines 297-455)

    [chosen] is the text of [event.target.files[0]], if a file was
    chosen. *)
Definition handleImportFiles (p : Page.t) (chosen : option string) : Run.t :=
  match chosen with
  | None => Run.mk p [] []
  | Some text =>
      match parseImport text with
      | inl error =>
          Run.mk (setImportSummary (Summary.failure (message error)) p) [] []
      | inr updates =>
          let (summary, sent) :=
            reconcile (Page.files p) updates Summary.initial [] in
          let (p', toasts) := fetchFiles sent p in
          Run.mk (setImportSummary (Summary.shown summary) p') sent toasts
      end
  end.

(** ** [handleSaveMetadata] (page.tsx, lines 137-181) *)

(** The checks of lines 142-153. *)
Definition parseAttributesInput (input : string) : Throws JSON :=
  parsedAttributes <- JSON_parse input ;;
  keys <- Obj.keys parsedAttributes ;;
  if (16 <? List.length keys)%nat
  then throw (Error "Attributes cannot have more than 16 keys")
  else
    _ <- forEach (fun key =>
                    if (256 <? String.length key)%nat
                    then throw (Error "Attribute keys cannot be longer than 256 characters")
                    else ret tt) keys ;;
    ret parsedAttributes.

(** [files.map(file => file.id === editingFile.id ? {...} : file)]. *)
Definition mirrorAttributes (files : list File.t) (editing : File.t)
    (parsedAttributes : JSON) : list File.t :=
  map (fun file =>
         if String.eqb (File.id file) (File.id editing)
         then File.withAttributes file parsedAttributes
         else file) files.

Definition handleSaveMetadata (p : Page.t) : Run.t :=
  match Page.editingFile p with
  | None => Run.mk p [] []
  | Some editingFile =>
      match parseAttributesInput (Page.metadataInput p) with
      | inl error => Run.mk p [] [ToastError (message error)]
      | inr parsedAttributes =>
          let request := patchOf editingFile parsedAttributes in
          match fetchPatch [] request with
          | Response true =>
              Run.mk (Page.mk
                        (mirrorAttributes (Page.files p) editingFile
                           parsedAttributes)
                        None (Page.metadataInput p) (Page.importSummary p))
                [request]
                [ToastSuccess "Attributes updated successfully"]
          | Response false =>
              Run.mk p [request] [ToastError "Failed to update attributes"]
          | Rejected (Some m) => Run.mk p [request] [ToastError m]
          | Rejected None =>
              Run.mk p [request] [ToastError "Failed to update attributes"]
          end
      end
  end.

(** ** [handleExportFiles] (page.tsx, lines 204-237) *)

Definition exportHeaders : list string :=
  ["File Name"; "File ID"; "Size (bytes)"; "Created At"; "Purpose";
   "Vector Store ID"; "Attributes"].

(** [file.filename || file.name] *)
Definition exportName (file : File.t) : string :=
  if Js.isEmpty (File.filename file) then File.name file
  else File.filename file.

(** The largest time value of a [Date], in milliseconds. *)
Definition maxTime : Z := 8640000000000000.

(** [new Date(ms).toISOString()]: a time value beyond [maxTime] on either
    side makes an invalid date, on which [toISOString] throws a
    [RangeError]; [toISOString] is the rendering of the valid ones. *)
Definition dateToISOString (ms : Z) : Throws string :=
  if (Z.abs ms <=? maxTime)%Z then ret (toISOString ms)
  else throw (Engine RangeError_time).

(** The array [row] of lines 211-219; its fourth element can throw. *)
Definition exportRow (file : File.t) : Throws (list string) :=
  createdAt <- dateToISOString (File.created_at file * 1000) ;;
  ret [ exportName file;
        File.id file;
        Js.numberToString (File.bytes file);
        createdAt;
        File.purpose file;
        File.vectorStoreId file;
        Json.stringify (File.attributes file) ].

(** [files.forEach(file => { ...; csvRows.push(row) })] (lines 210-221);
    [csvRows] is the array filled so far. *)
Fixpoint pushRows (files : list File.t) (csvRows : list (list string))
    : Throws (list (list string)) :=
  match files with
  | [] => ret csvRows
  | file :: rest =>
      row <- exportRow file ;;
      pushRows rest (csvRows ++ [row])
  end.

(** [csvRows] after the loop: the header row, then one row for each
    file. *)
Definition exportRows (files : list File.t) : Throws (list (list string)) :=
  pushRows files [exportHeaders].

(** [csvContent], the text that is offered for download.  The handler
    catches nothing: an error thrown on the way ends it before anything
    is offered. *)
Definition handleExportFiles (files : list File.t) : Throws string :=
  csvRows <- exportRows files ;;
  ret (csvDocument csvRows).

(** ** The attribute route, [PATCH] (route of part_001, lines 6-63) *)

(** One call of [openai.vectorStores.files.update]. *)
Record CollaboratorCall : Type := mkCall {
  callVectorStoreId : JSON;
  callFileId : string;
  callAttributes : JSON
}.

(** [NextResponse.json(body, { status })] *)
Record HttpResponse : Type := mkResponse {
  status : nat;
  payload : JSON
}.

(** The collaborator's answer to an update: the updated file, or the
    message of the error it raised. *)
Variable collaboratorUpdate : CollaboratorCall -> string + JSON.

Definition errorResponse (code : nat) (text : string) : HttpResponse :=
  mkResponse code (JObj [("error", JStr text)]).

(** [const { attributes, vectorStoreId } = await request.json()]:
    destructuring throws on [null]. *)
Definition destructure (body : JSON) : Throws (option JSON * option JSON) :=
  match body with
  | JNull => throw (Engine TypeError_toObject)
  | _ => ret (Obj.get "attributes" body, Obj.get "vectorStoreId" body)
  end.

(** [Object.keys(attributes)], where [attributes] may be [undefined]. *)
Definition keysOf (attributes : option JSON) : Throws (list string) :=
  match attributes with
  | Some a => Obj.keys a
  | None => throw (Engine TypeError_toObject)
  end.

(** The first key longer than 256, if any: the [for] loop of lines 29-36
    returns at it. *)
Definition hasLongKey (keys : list string) : bool :=
  existsb (fun key => (256 <? String.length key)%nat) keys.

(** The route handler.  [body] is the parsed request body, [None] when
    [request.json()] rejects.  The result is the response together with
    the calls made to the collaborator. *)
Definition PATCH (fileId : string) (body : option JSON)
    : HttpResponse * list CollaboratorCall :=
  let failed :=
    (errorResponse 500 "Failed to process attributes update request", []) in
  match body with
  | None => failed
  | Some parsed =>
      match destructure parsed with
      | inl _ => failed
      | inr (attributes, vectorStoreId) =>
          if Obj.falsy vectorStoreId
          then (errorResponse 400 "Vector store ID is required", [])
          else
            match keysOf attributes with
            | inl _ => failed
            | inr keys =>
                if (16 <? List.length keys)%nat
                then (errorResponse 400 "Attributes cannot have more than 16 keys", [])
                else if hasLongKey keys
                then (errorResponse 400
                        "Attribute keys cannot be longer than 256 characters", [])
                else
                  match attributes, vectorStoreId with
                  | Some a, Some vs =>
                      let call := mkCall vs fileId a in
                      match collaboratorUpdate call with
                      | inr updatedFile => (mkResponse 200 updatedFile, [call])
                      | inl apiMessage => (errorResponse 500 apiMessage, [call])
                      end
                  | _, _ => failed
                  end
            end
      end
  end.

(** [response.ok]: the status is in the range 200-299. *)
Definition responseOk (response : HttpResponse) : bool :=
  (200 <=? status response)%nat && (status response <=? 299)%nat.

(** A request of the page as the route serves it: what [await fetch]
    gives the page, and the calls the route made to the collaborator. *)
Definition routeFetch (request : Patch.t) : FetchResult * list CollaboratorCall :=
  let (response, calls) :=
    PATCH (Patch.fileId request) (Some (Patch.body request)) in
  (Response (responseOk response), calls).

(** ** Vocabulary of the properties *)

(** The schema of the import, in the words of the specification: a
    required key is missing, or [year] is not a number, or [status] is
    not one of the five values. *)
Definition violatesSchema (attributes : JSON) : bool :=
  existsb (fun field =>
             match Obj.get field attributes with
             | Some _ => false
             | None => true
             end) requiredFields
  || negb (isNumber (Obj.get "year" attributes))
  || negb (includesValue validStatuses (Obj.get "status" attributes)).

(** More than 16 keys, or a key longer than 256 characters. *)
Definition oversized (props : list (string * JSON)) : Prop :=
  16 < List.length props
  \/ exists key, In key (map fst props) /\ 256 < String.length key.

(** The bucket a reconciled row ends in. *)
Inductive Bucket : Type := Succeeded | NotFound | Failed.

Definition sameBucket (a b : Bucket) : bool :=
  match a, b with
  | Succeeded, Succeeded | NotFound, NotFound | Failed, Failed => true
  | _, _ => false
  end.

(** The names of the rows that ended in bucket [b], in row order. *)
Fixpoint pick (b : Bucket) (fates : list Bucket) (names : list string)
    : list string :=
  match fates, names with
  | fate :: fates', n :: names' =>
      if sameBucket b fate then n :: pick b fates' names'
      else pick b fates' names'
  | _, _ => []
  end.


(** The column selection that turns the seven-column export into the
    two-column sheet the importer reads: the first column (File Name) and
    the seventh (Attributes) of every row, the header included, written
    with the same cell encoding.  It is the remapping the round-trip
    property speaks of; the page has no code for it. *)
Definition remapRow (row : list string) : list string :=
  [nth 0 row EmptyString; nth 6 row EmptyString].

Definition remapExport (files : list File.t) : Throws string :=
  csvRows <- exportRows files ;;
  ret (csvDocument (map remapRow csvRows)).

(** [Date] can render the creation time of the record: its time value,
    in milliseconds, is within [maxTime] on either side. *)
Definition renderable (file : File.t) : bool :=
  (Z.abs (File.created_at file * 1000) <=? maxTime)%Z.

(** The cells of the row of a record whose creation time is rendered by
    [toISOString]. *)
Definition rowCells (file : File.t) : list string :=
  [ exportName file;
    File.id file;
    Js.numberToString (File.bytes file);
    toISOString (File.created_at file * 1000);
    File.purpose file;
    File.vectorStoreId file;
    Json.stringify (File.attributes file) ].

(** The rows of the export of records that are all [renderable]. *)
Definition renderedRows (files : list File.t) : list (list string) :=
  exportHeaders :: map rowCells files.

(** A character that [JSON.stringify] writes as it is. *)
Definition plainChar (c : ascii) : bool :=
  (32 <=? N_of_ascii c)%N && negb (Ascii.eqb c dquote)
  && negb (Ascii.eqb c backslash).

(** Every character of the string satisfies [ok]. *)
Fixpoint allChars (ok : ascii -> bool) (s : string) : bool :=
  match s with
  | EmptyString => true
  | String c r => ok c && allChars ok r
  end.

Definition plainString (s : string) : bool := allChars plainChar s.

(** No key and no string of the value needs an escape. *)
Fixpoint plain (v : JSON) : bool :=
  match v with
  | JStr s => plainString s
  | JArr items => forallb plain items
  | JObj props =>
      forallb (fun kv => match kv with
                         | (k, x) => plainString k && plain x
                         end) props
  | _ => true
  end.

Fixpoint distinct (keys : list string) : bool :=
  match keys with
  | [] => true
  | k :: rest => negb (existsb (String.eqb k) rest) && distinct rest
  end.

(** The value is one a JavaScript object graph can hold: the keys of
    every object are pairwise distinct. *)
Fixpoint wf_json (v : JSON) : bool :=
  match v with
  | JArr items => forallb wf_json items
  | JObj props =>
      distinct (map fst props)
      && forallb (fun kv => match kv with (_, x) => wf_json x end) props
  | _ => true
  end.

Definition noLineFeed (s : string) : bool :=
  allChars (fun c => negb (Ascii.eqb c LF)) s.

(** A character that is neither a line feed nor a backslash. *)
Definition textChar (c : ascii) : bool :=
  negb (Ascii.eqb c LF) && negb (Ascii.eqb c backslash).

(** The text that may follow a value inside a JSON text: nothing, or a
    comma, or a closing bracket or brace. *)
Definition delimited (rest : string) : bool :=
  match rest with
  | EmptyString => true
  | String c _ =>
      Ascii.eqb c ","%char || Ascii.eqb c "]"%char || Ascii.eqb c "}"%char
  end.

(** The first character of a JSON value written by [Json.stringify]. *)
Definition valueStart (c : ascii) : bool :=
  negb (Json.isWs c) && negb (Ascii.eqb c "]"%char)
  && negb (Ascii.eqb c "}"%char).

(** A decimal numeral as [Z.to_int] produces them: not empty, and without
    a leading zero unless it is zero itself. *)
Definition canonical (d : uint) : Prop :=
  d = D0 Nil \/ (d <> Nil /\ forall d', d <> D0 d').

(** A numeral starts with a digit or a minus sign. *)
Definition numeralStart (c : ascii) : bool :=
  Json.isDigit c || Ascii.eqb c "-"%char.

Fixpoint lastIsCR (s : string) : bool :=
  match s with
  | EmptyString => false
  | String c EmptyString => Ascii.eqb c CR
  | String _ r => lastIsCR r
  end.

(** A record whose export survives the import: its name is on one line
    and is not emptied by the importer's clean-up, and its attributes
    satisfy the import schema and need no escape in JSON. *)
Definition reimportable (file : File.t) : bool :=
  noLineFeed (exportName file)
  && negb (Js.isEmpty (cleanFileName (Js.trim (exportName file))))
  && wf_json (File.attributes file)
  && plain (File.attributes file)
  && negb (violatesSchema (File.attributes file)).

(** Fuel that [Json.parseValue] needs to read back a value. *)
Fixpoint size (v : JSON) : nat :=
  match v with
  | JArr items => S (list_sum (map (fun x => S (size x)) items))
  | JObj props =>
      S (list_sum (map (fun kv => match kv with (_, x) => S (size x) end) props))
  | _ => 1
  end.

(** The text that may follow the closing quote of a cell written by
    [csvCell]: nothing, or a comma and the rest of the row. *)
Definition afterCell (tail : string) : Prop :=
  match tail with
  | EmptyString => True
  | String c _ => c <> dquote
  end.

(** [Json.parseValue] reads the text of [v] back, whatever follows it. *)
Definition readsBack (v : JSON) : Prop :=
  forall (fuel : nat) (rest : string),
    size v <= fuel -> delimited rest = true ->
    Json.parseValue fuel (Json.stringify v ++ rest) = Some (v, rest).

(** The text of one member of an object. *)
Definition memberText (kv : string * JSON) : string :=
  match kv with
  | (k, x) => Json.quote k ++ ":" ++ Json.stringify x
  end.

(** ** Sample data *)

(** Sample texts write the double quote as an apostrophe. *)
Fixpoint sq (s : string) : string :=
  match s with
  | EmptyString => EmptyString
  | String c r => String (if Ascii.eqb c "'"%char then dquote else c) (sq r)
  end.

Definition newline : string := String LF EmptyString.

Definition sampleAttributesText : string :=
  sq "{'title':'design_for_access','documentCategory':'technical_standards','documentType':'australian_standards','year':2023,'version':'','referenceCode':'as_1428.1_2023','status':'superseded','jurisdiction':'aus'}".

Definition sampleAttributes : JSON :=
  JObj [("title", JStr "design_for_access");
        ("documentCategory", JStr "technical_standards");
        ("documentType", JStr "australian_standards");
        ("year", JNum 2023);
        ("version", JStr EmptyString);
        ("referenceCode", JStr "as_1428.1_2023");
        ("status", JStr "superseded");
        ("jurisdiction", JStr "aus")].

(** The same attributes without [status]. *)
Definition sampleNoStatus : JSON :=
  JObj [("title", JStr "design_for_access");
        ("documentCategory", JStr "technical_standards");
        ("documentType", JStr "australian_standards");
        ("year", JNum 2023);
        ("version", JStr EmptyString);
        ("referenceCode", JStr "as_1428.1_2023");
        ("jurisdiction", JStr "aus")].

Definition reportFile : File.t :=
  File.mk "file-1" "report.pdf" (JObj []) "vs_1" "vector_store.file"
          2048 1700000000 "report.pdf" "assistants".

Definition manualFile : File.t :=
  File.mk "file-2" "manual.pdf" sampleAttributes "vs_1" "vector_store.file"
          4096 1700000500 "manual.pdf" "assistants".

(** A record whose title holds a double quote. *)
Definition quotedTitleFile : File.t :=
  File.mk "file-3" "notes.pdf"
          (JObj [("title", JStr ("a" ++ DQ ++ "b"));
                 ("documentCategory", JStr "technical_standards");
                 ("documentType", JStr "australian_standards");
                 ("year", JNum 2023);
                 ("version", JStr EmptyString);
                 ("referenceCode", JStr "as_1428.1_2023");
                 ("status", JStr "active");
                 ("jurisdiction", JStr "aus")])
          "vs_1" "vector_store.file" 512 1700000900 "notes.pdf" "assistants".


Definition samplePage : Page.t :=
  Page.mk [reportFile; manualFile] None EmptyString Summary.initial.

Definition reportLine : string := "report," ++ csvCell sampleAttributesText.

Definition missingLine : string := "missing," ++ csvCell sampleAttributesText.

Definition noStatusLine : string :=
  "manual," ++ csvCell (Json.stringify sampleNoStatus).

Definition reportRow : Update.t := Update.mk "report" sampleAttributes.

Definition missingRow : Update.t := Update.mk "missing" sampleAttributes.

(** A sheet of two rows: [report] is on the page, [missing] is not. *)
Definition twoRowSheet : string :=
  "File Name,Attributes" ++ newline ++ reportLine ++ newline ++ missingLine.

(** A sheet whose second row has no [status]. *)
Definition noStatusSheet : string :=
  "File Name,Attributes" ++ newline ++ reportLine ++ newline
  ++ noStatusLine ++ newline ++ reportLine.

(** A sheet whose header has a single column. *)
Definition oneColumnSheet : string :=
  "File Name" ++ newline ++ reportLine.

(** An object of seventeen keys. *)
Definition seventeenProps : list (string * JSON) :=
  map (fun i => (Js.numberToString (Z.of_nat i), JNum 0)) (seq 0 17).

Definition seventeenKeys : JSON := JObj seventeenProps.

(** The page while [manualFile] is edited with the given input. *)
Definition editingPage (input : string) : Page.t :=
  Page.mk [reportFile; manualFile] (Some manualFile) input Summary.initial.

Definition sampleEngineMessage (e : EngineError) : string :=
  match e with
  | TypeError_undefined property =>
      "Cannot read properties of undefined (reading '" ++ property ++ "')"
  | TypeError_in field _ =>
      "Cannot use 'in' operator to search for '" ++ field ++ "'"
  | TypeError_toObject => "Cannot convert undefined or null to object"
  | SyntaxError_JSON _ => "Unexpected token in JSON"
  | RangeError_time => "Invalid time value"
  end.

Definition sampleISOString (ms : Z) : string :=
  "2023-11-14T22:13:20.000Z".

Definition alwaysOk (sent : list Patch.t) (request : Patch.t) : FetchResult :=
  Response true.

Definition alwaysRefused (sent : list Patch.t) (request : Patch.t)
    : FetchResult :=
  Response false.

Definition noListing (sent : list Patch.t) : option (list File.t) := None.

Definition acceptingCollaborator (call : CollaboratorCall) : string + JSON :=
  inr (JObj [("id", JStr (callFileId call))]).

(** ** [handleDownloadTemplate] (page.tsx, lines 239-277) *)

Definition template : list (list string) :=
  [ ["File Name"; "Attributes"];
    ["AS_3740-2.pdf";
     sq "{'title':'australian_standard_waterproofing_of_domestic_wet_areas','documentCategory':'technical_standards','documentType':'australian_standards','year':2021,'version':'','referenceCode':'as_3740_2021','status':'active','jurisdiction':'aus'}"];
    ["AS_1428.1.pdf";
     sq "{'title':'australian_standard_design_for_access_mobility','documentCategory':'technical_standards','documentType':'australian_standards','year':2023,'version':'','referenceCode':'as_1428.1_2023','status':'superseded','jurisdiction':'aus'}"];
    [EmptyString; EmptyString];
    ["Instructions:"; EmptyString];
    ["1. File Name must match exactly with the file in the database"; EmptyString];
    ["2. Attributes must be valid JSON with the following fields:"; EmptyString];
    ["   - title: descriptive name of the document"; EmptyString];
    ["   - documentCategory: e.g., technical_standards"; EmptyString];
    ["   - documentType: e.g., australian_standards"; EmptyString];
    ["   - year: publication year"; EmptyString];
    ["   - version: version number if applicable"; EmptyString];
    ["   - referenceCode: standard reference code"; EmptyString];
    ["   - status: must be one of: active, draft, superseded, withdrawn, legacy";
     EmptyString];
    ["   - jurisdiction: e.g., aus"; EmptyString];
    ["3. Maximum 16 attribute keys allowed"; EmptyString];
    ["4. Attribute keys cannot be longer than 256 characters"; EmptyString];
    ["5. Do not modify the column headers"; EmptyString];
    ["6. Remove example rows before uploading"; EmptyString] ].

(** [csvContent], the text of the template that is offered for download. *)
Definition handleDownloadTemplate : string := csvDocument template.

(** ** Vocabulary of the further properties *)

(** The pieces of a text between its commas. *)
Fixpoint splitCommas (s : string) : list string :=
  match s with
  | EmptyString => [EmptyString]
  | String c r =>
      if Ascii.eqb c comma then EmptyString :: splitCommas r
      else match splitCommas r with
           | [] => [String c EmptyString]
           | piece :: pieces => String c piece :: pieces
           end
  end.

Definition noQuote (s : string) : bool :=
  allChars (fun c => negb (Ascii.eqb c dquote)) s.

(** A carriage return followed by a line feed. *)
Definition CRLF : string := String CR (String LF EmptyString).

(** The rows that find a record, each with the record it finds. *)
Fixpoint matchedRows (files : list File.t) (updates : list Update.t)
    : list (File.t * Update.t) :=
  match updates with
  | [] => []
  | update :: rest =>
      match findFile files (Update.fileName update) with
      | Some file => (file, update) :: matchedRows files rest
      | None => matchedRows files rest
      end
  end.

(** The value keeps the two limits of the attribute check: at most 16
    keys, none longer than 256 characters. *)
Definition withinLimits (v : JSON) : Prop :=
  exists keys,
    Obj.keys v = inr keys
    /\ List.length keys <= 16
    /\ Forall (fun key => String.length key <= 256) keys.

(** The cells of a record's export row other than the attributes hold no
    line feed. *)
Definition singleLine (file : File.t) : bool :=
  noLineFeed (exportName file) && noLineFeed (File.id file)
  && noLineFeed (toISOString (File.created_at file * 1000))
  && noLineFeed (File.purpose file) && noLineFeed (File.vectorStoreId file).

(** What every row that the parse stage yields satisfies. *)
Definition goodRow (update : Update.t) : Prop :=
  Js.isEmpty (Update.fileName update) = false
  /\ Js.trim (Update.fileName update) = Update.fileName update
  /\ violatesSchema (Update.attributes update) = false
  /\ exists props, Update.attributes update = JObj props.

(** ** [handleEditClick] (page.tsx, lines 132-135) *)

(** [JSON.stringify(v, null, space)]: the serialization with a gap.
    [gap] is the text of one level of indentation and [indent] the
    indentation reached; with an empty gap the text is the compact one. *)
Fixpoint stringifyGap (gap indent : string) (v : JSON) : string :=
  match v with
  | JArr items =>
      match items with
      | [] => "[]"
      | _ :: _ =>
          let stepback := indent in
          let inner := (indent ++ gap)%string in
          let partial := map (stringifyGap gap inner) items in
          if Js.isEmpty gap
          then "[" ++ Js.join "," partial ++ "]"
          else "[" ++ newline ++ inner
               ++ Js.join ("," ++ newline ++ inner) partial
               ++ newline ++ stepback ++ "]"
      end
  | JObj props =>
      match props with
      | [] => "{}"
      | _ :: _ =>
          let stepback := indent in
          let inner := (indent ++ gap)%string in
          let partial :=
            map (fun kv => match kv with
                           | (k, x) =>
                               (Json.quote k ++ ":"
                                ++ (if Js.isEmpty gap then EmptyString else " ")
                                ++ stringifyGap gap inner x)%string
                           end) props in
          if Js.isEmpty gap
          then "{" ++ Js.join "," partial ++ "}"
          else "{" ++ newline ++ inner
               ++ Js.join ("," ++ newline ++ inner) partial
               ++ newline ++ stepback ++ "}"
      end
  | other => Json.stringify other
  end.

(** [JSON.stringify(v, null, 2)] *)
Definition stringifyPretty (v : JSON) : string :=
  stringifyGap "  " EmptyString v.

Definition handleEditClick (p : Page.t) (file : File.t) : Page.t :=
  Page.mk (Page.files p) (Some file) (stringifyPretty (File.attributes file))
    (Page.importSummary p).

(** The text is made of JSON white space only. *)
Definition blank (s : string) : bool := allChars Json.isWs s.

(** The text that may follow a value in a JSON text with white space:
    nothing, a comma, a closing bracket or brace, or white space. *)
Definition terminated (rest : string) : bool :=
  match rest with
  | EmptyString => true
  | String c _ =>
      Ascii.eqb c ","%char || Ascii.eqb c "]"%char || Ascii.eqb c "}"%char
      || Json.isWs c
  end.

(** [Json.parseValue] reads the text of [v] back, at every gap and
    indentation made of white space. *)
Definition readsBackGap (v : JSON) : Prop :=
  forall (gap indent : string) (fuel : nat) (rest : string),
    blank gap = true -> blank indent = true ->
    size v <= fuel -> terminated rest = true ->
    Json.parseValue fuel (stringifyGap gap indent v ++ rest) = Some (v, rest).

(** The white space that [stringifyGap] writes after an opening bracket
    and after each comma, and before the closing bracket. *)
Definition lead (gap indent : string) : string :=
  if Js.isEmpty gap then EmptyString else (newline ++ indent)%string.

(** The text of one member of an object, with its gap after the colon. *)
Definition memberGap (gap : string) (text : JSON -> string)
    (kv : string * JSON) : string :=
  match kv with
  | (k, x) =>
      Json.quote k ++ ":" ++ (if Js.isEmpty gap then EmptyString else " ")
      ++ text x
  end.

(** [Json.parseValue] reads back the text that [text] gives to [v]. *)
Definition readsText (text : JSON -> string) (v : JSON) : Prop :=
  forall (fuel : nat) (rest : string),
    size v <= fuel -> terminated rest = true ->
    Json.parseValue fuel (text v ++ rest) = Some (v, rest).

(** ** The request on the wire *)

(** [await request.json()] at the route, of the body
    [JSON.stringify({ attributes, vectorStoreId })] that the page sends. *)
Definition requestJson (request : Patch.t) : option JSON :=
  Json.parse (Json.stringify (Patch.body request)).

(** The text holds no backslash. *)
Definition noBackslash (s : string) : bool :=
  allChars (fun c => negb (Ascii.eqb c backslash)) s.

(** * The other handlers and routes *)

Section Handlers.

(** ** [handleDeleteFile] (page.tsx, lines 183-202) *)

(** [vectorStore?.id] inside a template literal: the text [undefined]
    when no vector store is selected. *)
Definition storeIdText (vectorStoreId : option string) : string :=
  match vectorStoreId with
  | Some id => id
  | None => "undefined"
  end.

(** The address of the [DELETE] request (line 187). *)
Definition deleteUrl (fileId : string) (vectorStoreId : option string)
    : string :=
  "/api/vector_stores/files/" ++ fileId ++ "?vector_store_id="
  ++ storeIdText vectorStoreId.

(** The answer of [await fetch(url, { method: DELETE })]. *)
Variable fetchDelete : string -> FetchResult.

(** [confirmed] is the answer given to [confirm(...)]; [vectorStoreId]
    is [vectorStore?.id], [None] when it is [undefined]. *)
Definition handleDeleteFile (p : Page.t) (vectorStoreId : option string)
    (confirmed : bool) (fileId : string) : DeleteRun.t :=
  if negb confirmed then DeleteRun.mk p [] []
  else
    let url := deleteUrl fileId vectorStoreId in
    match fetchDelete url with
    | Response true =>
        DeleteRun.mk
          (Page.mk
             (filter (fun file => negb (String.eqb (File.id file) fileId))
                (Page.files p))
             (Page.editingFile p) (Page.metadataInput p) (Page.importSummary p))
          [url]
          [ToastSuccess "File deleted successfully"]
    | Response false | Rejected _ =>
        DeleteRun.mk p [url] [ToastError "Failed to delete file"]
    end.

(** ** The file route, [DELETE] (route of part_001, lines 65-110) *)

(** The engine's errors that the reading of the collaborator's answer
    can raise. *)
Inductive RouteError : Type :=
| ReadOfNull (property : string)
    (* a property read on [null] *)
| NotPrimitive (x : JSON).
    (* the conversion to a string of a value whose own [toString] is
       not a function *)

(** The message text of these errors. *)
Variable routeErrorMessage : RouteError -> string.

(** What the collaborator's [DELETE https://api.openai.com/v1/files/id]
    gives: a response with its [ok] flag and what [response.json()]
    gives for it (a value, or a rejection whose reason carries a message
    when it is an [Error]); or a rejection of the [fetch] itself. *)
Inductive DeleteReply : Type :=
| DeleteResolved (ok : bool) (body : option string + JSON)
| DeleteRejected (reason : option string).

Variable collaboratorDelete : string -> DeleteReply.

(** [String(x)] for a value read from JSON; [None] when the conversion
    throws a [TypeError]: an object whose own [toString] is not a
    function cannot be converted.  An array is the texts of its elements
    joined by commas, [null] giving the empty text. *)
Fixpoint toStringJs (x : JSON) : option string :=
  match x with
  | JNull => Some "null"
  | JBool true => Some "true"
  | JBool false => Some "false"
  | JNum n => Some (Js.numberToString n)
  | JStr s => Some s
  | JArr items =>
      option_map (Js.join ",")
        ((fix elements (xs : list JSON) : option (list string) :=
            match xs with
            | [] => Some []
            | y :: rest =>
                match (match y with
                       | JNull => Some EmptyString
                       | _ => toStringJs y
                       end), elements rest with
                | Some a, Some b => Some (a :: b)
                | _, _ => None
                end
            end) items)
  | JObj props =>
      match Json.lookup "toString" props with
      | Some _ => None
      | None => Some "[object Object]"
      end
  end.

(** The message of what line 95 throws:
    [new Error(errorData.error?.message || 'Failed to delete file')],
    or the [TypeError] raised while evaluating it. *)
Definition refusalMessage (errorData : JSON) : string :=
  match errorData with
  | JNull => routeErrorMessage (ReadOfNull "error")
  | _ =>
      let text :=
        match Obj.get "error" errorData with
        | None | Some JNull => None
        | Some e => Obj.get "message" e
        end in
      if Obj.falsy text then "Failed to delete file"
      else
        match text with
        | Some x =>
            match toStringJs x with
            | Some s => s
            | None => routeErrorMessage (NotPrimitive x)
            end
        | None => "Failed to delete file"
        end
  end.

(** The answer of the inner [catch]: [{ error: error.message }] with
    status 500; a reason without a message leaves the object empty. *)
Definition caught (text : option string) : HttpResponse :=
  mkResponse 500
    (match text with
     | Some m => JObj [("error", JStr m)]
     | None => JObj []
     end).

(** The route handler.  [vectorStoreId] is
    [searchParams.get(vector_store_id)], [None] when it is [null].  The
    result is the response together with the file ids whose deletion
    was asked of the collaborator. *)
Definition DELETE (fileId : string) (vectorStoreId : option string)
    : HttpResponse * list string :=
  if match vectorStoreId with
     | Some id => Js.isEmpty id
     | None => true
     end
  then (errorResponse 400 "Vector store ID is required", [])
  else
    match collaboratorDelete fileId with
    | DeleteResolved true _ =>
        (mkResponse 200 (JObj [("success", JBool true)]), [fileId])
    | DeleteResolved false (inr errorData) =>
        (caught (Some (refusalMessage errorData)), [fileId])
    | DeleteResolved false (inl reason) => (caught reason, [fileId])
    | DeleteRejected reason => (caught reason, [fileId])
    end.

(** ** The list route, [GET] (route.ts, lines 8-46) *)

(** The files that the iteration over
    [openai.vectorStores.files.list(id)] delivers, and whether it then
    ends ([true]) or throws ([false]); a listing that throws at once
    delivers nothing. *)
Variable collaboratorList : string -> list StoreFile.t * bool.

(** [openai.files.retrieve(id)]; [None] when it throws. *)
Variable collaboratorRetrieve : string -> option Details.t.

(** The record pushed to [allFiles] (lines 24-34). *)
Definition listedFile (vectorStoreId : string) (file : StoreFile.t)
    (fileDetails : Details.t) : File.t :=
  File.mk (StoreFile.id file)
    (Details.filename fileDetails)
    (match StoreFile.attributes file with
     | Some a => if Obj.falsy (Some a) then JObj [] else a
     | None => JObj []
     end)
    vectorStoreId
    (Details.object fileDetails)
    (Details.bytes fileDetails)
    (Details.created_at fileDetails)
    (Details.filename fileDetails)
    (Details.purpose fileDetails).

(** The loop of lines 22-35 over the delivered files; [allFiles] and
    the ids retrieved so far are carried along.  [None] when a
    retrieval throws. *)
Fixpoint collect (vectorStoreId : string) (delivered : list StoreFile.t)
    (allFiles : list File.t) (retrieved : list string)
    : option (list File.t) * list string :=
  match delivered with
  | [] => (Some allFiles, retrieved)
  | file :: rest =>
      match collaboratorRetrieve (StoreFile.id file) with
      | Some fileDetails =>
          collect vectorStoreId rest
            (allFiles ++ [listedFile vectorStoreId file fileDetails])
            (retrieved ++ [StoreFile.id file])
      | None => (None, retrieved ++ [StoreFile.id file])
      end
  end.

(** The answer of the list route: [{ files }] with status 200, or
    [{ error }] with another status. *)
Inductive ListResponse : Type :=
| Listed (files : list File.t)
| ListFailed (code : nat) (text : string).

(** The route handler.  The result is the response together with the
    ids given to [openai.files.retrieve], in order. *)
Definition GET (vectorStoreId : option string)
    : ListResponse * list string :=
  match vectorStoreId with
  | None => (ListFailed 400 "Vector store ID is required", [])
  | Some id =>
      if Js.isEmpty id
      then (ListFailed 400 "Vector store ID is required", [])
      else
        let (delivered, completed) := collaboratorList id in
        match collect id delivered [] [] with
        | (Some allFiles, retrieved) =>
            if completed then (Listed allFiles, retrieved)
            else (ListFailed 500 "Failed to fetch files", retrieved)
        | (None, retrieved) =>
            (ListFailed 500 "Failed to fetch files", retrieved)
        end
  end.

(** ** The column widths (page.tsx, lines 43-93) *)

(** The initial [columnWidths], in the order of its keys. *)
Definition initialWidths : list (string * Width) :=
  [("File Name", Px 200); ("File ID", Px 150); ("Size", Px 100);
   ("Created", Px 120); ("Purpose", Px 100); ("Vector Store ID", Px 150);
   ("Attributes", Px 200); ("Actions", Px 100)].

(** [columnWidths[column]] *)
Fixpoint widthOf (column : string) (widths : list (string * Width))
    : option Width :=
  match widths with
  | [] => None
  | (k, w) :: rest => if String.eqb column k then Some w else widthOf column rest
  end.

(** [{ ...prev, [column]: w }]: an existing key keeps its place, a new
    one comes last. *)
Fixpoint setWidth (column : string) (w : Width) (prev : list (string * Width))
    : list (string * Width) :=
  match prev with
  | [] => [(column, w)]
  | (k, w') :: rest =>
      if String.eqb column k then (k, w) :: rest
      else (k, w') :: setWidth column w rest
  end.

(** [handleResizeStart] (lines 71-77); [clientX] is [e.clientX]. *)
Definition handleResizeStart (columnWidths : list (string * Width))
    (column : string) (clientX : Z) : Resizing.t :=
  Resizing.mk (Some column) clientX (widthOf column columnWidths).

(** [Math.max(50, startWidth + diff)] *)
Definition newWidth (startWidth : option Width) (diff : Z) : Width :=
  match startWidth with
  | Some (Px w) => Px (Z.max 50 (w + diff)%Z)
  | Some NaN | None => NaN
  end.

(** [handleResizeMove] (lines 79-89): [resizing] is the state the
    handler closed over, [prev] the widths its update is applied to. *)
Definition handleResizeMove (resizing : Resizing.t) (clientX : Z)
    (prev : list (string * Width)) : list (string * Width) :=
  match Resizing.column resizing with
  | None => prev
  | Some column =>
      if Js.isEmpty column then prev
      else
        let diff := (clientX - Resizing.startX resizing)%Z in
        setWidth column (newWidth (Resizing.startWidth resizing) diff) prev
  end.

(** [handleResizeEnd] (lines 91-93) *)
Definition handleResizeEnd : Resizing.t :=
  Resizing.mk None 0 (Some (Px 0)).

End Handlers.

(** * Properties *)

(** ** Strings *)

Lemma append_assoc (a b c : string) : ((a ++ b) ++ c)%string = (a ++ b ++ c)%string.
Proof. induction a as [| x a IH]; simpl; [reflexivity | now rewrite IH]. Qed.

Lemma append_empty_r (a : string) : (a ++ EmptyString)%string = a.
Proof. induction a as [| x a IH]; simpl; [reflexivity | now rewrite IH]. Qed.

Lemma length_append (a b : string) :
  String.length (a ++ b) = String.length a + String.length b.
Proof. induction a as [| x a IH]; simpl; [reflexivity | now rewrite IH]. Qed.

Lemma append_char (a : string) (c : ascii) (b : string) :
  ((a ++ String c EmptyString) ++ b)%string = (a ++ String c b)%string.
Proof. now rewrite append_assoc. Qed.


(** ** The CSV field parser *)

Lemma parse_quoted_body (content tail cell : string) (result : list string) :
  afterCell tail ->
  parseCSVLine_loop (Js.doubleQuotes content ++ String dquote tail) cell true result
  = parseCSVLine_loop tail (cell ++ content) false result.
Proof.
  revert cell.
  induction content as [| c content IH]; intros cell Htail.
  - simpl. rewrite append_empty_r.
    destruct tail as [| t tail']; [reflexivity |].
    simpl in Htail.
    destruct (Ascii.eqb_spec t dquote) as [-> | _]; [contradiction | reflexivity].
  - simpl Js.doubleQuotes. destruct (Ascii.eqb_spec c dquote) as [-> | Hc].
    + simpl. 
      rewrite IH by assumption. unfold DQ. now rewrite append_char.
    + cbn [append parseCSVLine_loop]. destruct (Ascii.eqb_spec c dquote) as [-> | _]; [contradiction |].
      rewrite andb_false_r. rewrite IH by assumption. now rewrite append_char.
Qed.

Lemma parse_cell (content tail : string) (result : list string) :
  afterCell tail ->
  parseCSVLine_loop (csvCell content ++ tail) EmptyString false result
  = parseCSVLine_loop tail content false result.
Proof.
  intros Htail. unfold csvCell, DQ.
  rewrite !append_assoc.
  change (String dquote EmptyString ++ Js.doubleQuotes content ++ String dquote EmptyString ++ tail)%string
    with (String dquote (Js.doubleQuotes content ++ String dquote tail)).
  pose proof (parse_quoted_body content tail EmptyString result Htail) as H.
  simpl append in H at 2.
  cbn [parseCSVLine_loop]. change (Ascii.eqb dquote dquote) with true. cbv iota.
  destruct (Js.doubleQuotes content ++ String dquote tail)%string eqn:E; exact H.
Qed.

Lemma parse_row (cells : list string) (cell : string) (result : list string) :
  parseCSVLine_loop (csvRow (cell :: cells)) EmptyString false result
  = (result ++ map Js.trim (cell :: cells))%list.
Proof.
  revert cell result.
  induction cells as [| next cells IH]; intros cell result.
  - unfold csvRow, Js.join. simpl map. simpl String.concat.
    rewrite <- (append_empty_r (csvCell cell)).
    rewrite parse_cell by exact I. reflexivity.
  - specialize (IH next (result ++ [Js.trim cell])%list).
    unfold csvRow, Js.join in *. simpl map in *.
    change (String.concat "," (csvCell cell :: csvCell next :: map csvCell cells))
      with (csvCell cell ++ String comma (String.concat "," (csvCell next :: map csvCell cells)))%string.
    rewrite parse_cell by (simpl; discriminate).
    cbn [parseCSVLine_loop]. change (Ascii.eqb comma dquote) with false.
    change (Ascii.eqb comma comma && negb false) with true. cbv iota.
    rewrite IH. rewrite <- app_assoc. reflexivity.
Qed.

(** C3 - [parseCSVLine] honours quoted fields: inside quotes a comma is
    kept in the cell and a doubled quote is read as one quote, whatever
    the line; a row of cells written by the export's encoding is read
    back cell by cell (each one trimmed); and the two lines of the
    specification give the fields a,b and c, and the field a-quote-b. *)
Theorem parseCSVLine_quoted_fields :
  (forall rest cell result,
      parseCSVLine_loop (String comma rest) cell true result
      = parseCSVLine_loop rest (cell ++ ",") true result)
  /\ (forall rest cell result,
      parseCSVLine_loop (String dquote (String dquote rest)) cell true result
      = parseCSVLine_loop rest (cell ++ DQ) true result)
  /\ (forall cell cells,
      parseCSVLine (csvRow (cell :: cells)) = map Js.trim (cell :: cells))
  /\ parseCSVLine (DQ ++ "a,b" ++ DQ ++ "," ++ DQ ++ "c" ++ DQ) = ["a,b"; "c"]
  /\ parseCSVLine (DQ ++ "a" ++ DQ ++ DQ ++ "b" ++ DQ) = [("a" ++ DQ ++ "b")%string].
Proof.
  split; [| split; [| split; [| split]]].
  - reflexivity.
  - reflexivity.
  - intros cell cells. unfold parseCSVLine. now rewrite parse_row.
  - reflexivity.
  - reflexivity.
Qed.

(** ** Matching a row to a file *)

Lemma matchesName_spec (fileName : string) (f : File.t) :
  matchesName fileName f = true <->
  (File.filename f = fileName \/ File.name f = fileName
   \/ File.filename f = (fileName ++ ".pdf")%string
   \/ File.name f = (fileName ++ ".pdf")%string).
Proof.
  unfold matchesName.
  rewrite !orb_true_iff, !String.eqb_eq. tauto.
Qed.

(** C8 - a row is matched exactly when some record's [filename] or [name]
    equals the row's file name, or that name followed by [.pdf]; the
    record found is the first such record of the list; a row named
    [report] finds the record named [report.pdf]. *)
Theorem findFile_matches (files : list File.t) (fileName : string) :
  (forall f, matchesName fileName f = true <->
             (File.filename f = fileName \/ File.name f = fileName
              \/ File.filename f = (fileName ++ ".pdf")%string
              \/ File.name f = (fileName ++ ".pdf")%string))
  /\ ((exists f, findFile files fileName = Some f)
      <-> exists f, In f files /\ matchesName fileName f = true)
  /\ (forall f, findFile files fileName = Some f ->
        exists before after,
          files = before ++ f :: after
          /\ matchesName fileName f = true
          /\ forall g, In g before -> matchesName fileName g = false)
  /\ findFile [manualFile; reportFile] "report" = Some reportFile.
Proof.
  split; [exact (matchesName_spec fileName) |].
  split; [| split].
  - unfold findFile. split.
    + intros [f Hf]. exists f. now apply find_some in Hf.
    + intros [f [Hin Hm]].
      destruct (find (matchesName fileName) files) as [g |] eqn:E.
      * now exists g.
      * exfalso. pose proof (find_none _ _ E f Hin) as H. congruence.
  - unfold findFile. induction files as [| g files IH]; intros f Hf; simpl in Hf.
    + discriminate.
    + destruct (matchesName fileName g) eqn:Eg.
      * injection Hf as <-. exists [], files. repeat split; [assumption |].
        intros ? [].
      * destruct (IH f Hf) as (before & after & -> & Hm & Hbefore).
        exists (g :: before), after. repeat split; [assumption |].
        intros h [<- | Hh]; [assumption | now apply Hbefore].
  - reflexivity.
Qed.

(** ** Editing the attributes of one file *)

Lemma handleSaveMetadata_success (p : Page.t) (editing : File.t) (parsed : JSON) :
  Page.editingFile p = Some editing ->
  parseAttributesInput (Page.metadataInput p) = inr parsed ->
  fetchPatch [] (patchOf editing parsed) = Response true ->
  handleSaveMetadata p
  = Run.mk (Page.mk (mirrorAttributes (Page.files p) editing parsed) None
              (Page.metadataInput p) (Page.importSummary p))
      [patchOf editing parsed]
      [ToastSuccess "Attributes updated successfully"].
Proof.
  intros He Hp Hf. unfold handleSaveMetadata. now rewrite He, Hp, Hf.
Qed.

(** C9 - after a successful update the file list has the same records in
    the same places; a record whose id is not the edited file's id is
    unchanged; a record with that id has the new attributes and keeps its
    id, filename, name, bytes, created_at, purpose, vectorStoreId and
    object. *)
Theorem handleSaveMetadata_frame (p : Page.t) (editing : File.t) (parsed : JSON) :
  Page.editingFile p = Some editing ->
  parseAttributesInput (Page.metadataInput p) = inr parsed ->
  fetchPatch [] (patchOf editing parsed) = Response true ->
  let files' := Page.files (Run.page (handleSaveMetadata p)) in
  List.length files' = List.length (Page.files p)
  /\ forall i file,
      nth_error (Page.files p) i = Some file ->
      exists file',
        nth_error files' i = Some file'
        /\ (File.id file <> File.id editing -> file' = file)
        /\ (File.id file = File.id editing -> File.attributes file' = parsed)
        /\ File.id file' = File.id file
        /\ File.filename file' = File.filename file
        /\ File.name file' = File.name file
        /\ File.bytes file' = File.bytes file
        /\ File.created_at file' = File.created_at file
        /\ File.purpose file' = File.purpose file
        /\ File.vectorStoreId file' = File.vectorStoreId file
        /\ File.object file' = File.object file.
Proof.
  intros He Hp Hf files'. subst files'.
  rewrite (handleSaveMetadata_success p editing parsed He Hp Hf). simpl.
  unfold mirrorAttributes. split; [apply length_map |].
  intros i file Hi.
  rewrite nth_error_map, Hi. simpl.
  destruct (String.eqb_spec (File.id file) (File.id editing)) as [E | N].
  - exists (File.withAttributes file parsed).
    split; [reflexivity |]. split; [intros C; contradiction |].
    repeat split.
  - exists file. split; [reflexivity |]. split; [reflexivity |].
    split; [intros C; contradiction |]. repeat split.
Qed.

(** ** Reconciliation *)

Lemma handleImportFiles_parsed (p : Page.t) (text : string)
    (updates : list Update.t) :
  parseImport text = inr updates ->
  Run.requests (handleImportFiles p (Some text))
  = snd (reconcile (Page.files p) updates Summary.initial [])
  /\ Page.importSummary (Run.page (handleImportFiles p (Some text)))
     = Summary.shown (fst (reconcile (Page.files p) updates Summary.initial [])).
Proof.
  intros Hp. unfold handleImportFiles. rewrite Hp.
  destruct (reconcile (Page.files p) updates Summary.initial []) as [summary sent].
  unfold fetchFiles. destruct (fetchList sent); simpl; split; reflexivity.
Qed.

Lemma handleImportFiles_aborted (p : Page.t) (text : string) (error : Exn) :
  parseImport text = inl error ->
  handleImportFiles p (Some text)
  = Run.mk (setImportSummary (Summary.failure (message error)) p) [] [].
Proof. intros Hp. unfold handleImportFiles. now rewrite Hp. Qed.

Lemma pick_length_le (b : Bucket) (fates : list Bucket) (names : list string) :
  List.length (pick b fates names) <= List.length fates.
Proof.
  revert names. induction fates as [| f fates IH]; intros [| n names]; simpl;
    try lia.
  destruct (sameBucket b f); simpl; specialize (IH names); lia.
Qed.

Lemma pick_partition (fates : list Bucket) (names : list string) :
  List.length fates = List.length names ->
  List.length (pick Succeeded fates names)
  + List.length (pick NotFound fates names)
  + List.length (pick Failed fates names) = List.length names.
Proof.
  revert names. induction fates as [| f fates IH]; intros [| n names] H;
    simpl in *; try lia.
  injection H as H. specialize (IH names H).
  destruct f; simpl; lia.
Qed.

(** The invariant of the reconciliation loop: every row adds its name to
    exactly one of the three lists and one to the matching count. *)
Lemma reconcile_fates (files : list File.t) (updates : list Update.t)
    (summary : Summary.t) (sent : list Patch.t) :
  exists fates : list Bucket,
    let result := fst (reconcile files updates summary sent) in
    let names := map Update.fileName updates in
    List.length fates = List.length updates
    /\ Summary.show result = Summary.show summary
    /\ Summary.files (Summary.success result)
       = Summary.files (Summary.success summary) ++ pick Succeeded fates names
    /\ Summary.files (Summary.notFound result)
       = Summary.files (Summary.notFound summary) ++ pick NotFound fates names
    /\ map Summary.name (Summary.files (Summary.errors result))
       = map Summary.name (Summary.files (Summary.errors summary))
         ++ pick Failed fates names
    /\ Summary.count (Summary.success result)
       = Summary.count (Summary.success summary)
         + List.length (pick Succeeded fates names)
    /\ Summary.count (Summary.notFound result)
       = Summary.count (Summary.notFound summary)
         + List.length (pick NotFound fates names)
    /\ Summary.count (Summary.errors result)
       = Summary.count (Summary.errors summary)
         + List.length (pick Failed fates names).
Proof.
  revert summary sent.
  induction updates as [| update updates IH]; intros summary sent.
  - exists []. simpl. rewrite !app_nil_r, !Nat.add_0_r. repeat split.
  - simpl reconcile.
    destruct (findFile files (Update.fileName update)) as [file |].
    + destruct (fetchPatch sent (patchOf file (Update.attributes update)))
        as [[|] | reason].
      * destruct (IH (Summary.pushSuccess (Update.fileName update) summary)
                    (sent ++ [patchOf file (Update.attributes update)]))
          as (fates & Hlen & Hshow & Hs & Hn & He & Cs & Cn & Ce).
        exists (Succeeded :: fates). cbv zeta in *. simpl in *.
        rewrite Hs, Hn, He, Cs, Cn, Ce, Hshow, Hlen, <- !app_assoc. simpl.
        repeat split; lia.
      * destruct (IH (Summary.pushError
                       (Summary.mkEntry (Update.fileName update)
                          "Failed to update in database") summary)
                    (sent ++ [patchOf file (Update.attributes update)]))
          as (fates & Hlen & Hshow & Hs & Hn & He & Cs & Cn & Ce).
        exists (Failed :: fates). cbv zeta in *. simpl in *.
        rewrite Hs, Hn, He, Cs, Cn, Ce, Hshow, Hlen, map_app, <- !app_assoc. simpl.
        repeat split; lia.
      * destruct (IH (Summary.pushError
                       (Summary.mkEntry (Update.fileName update)
                          (match reason with
                           | Some m => m
                           | None => "Unknown error"
                           end)) summary)
                    (sent ++ [patchOf file (Update.attributes update)]))
          as (fates & Hlen & Hshow & Hs & Hn & He & Cs & Cn & Ce).
        exists (Failed :: fates). cbv zeta in *. simpl in *.
        rewrite Hs, Hn, He, Cs, Cn, Ce, Hshow, Hlen, map_app, <- !app_assoc. simpl.
        repeat split; lia.
    + destruct (IH (Summary.pushNotFound (Update.fileName update) summary) sent)
        as (fates & Hlen & Hshow & Hs & Hn & He & Cs & Cn & Ce).
      exists (NotFound :: fates). cbv zeta in *. simpl in *.
      rewrite Hs, Hn, He, Cs, Cn, Ce, Hshow, Hlen, <- !app_assoc. simpl.
      repeat split; lia.
Qed.

(** C10 - when the parse stage yields [n] rows, the summary shown
    distributes them over the three buckets: the counts add up to [n],
    each count is the length of its list, and each list holds, in row
    order, the names of the rows that fell in its bucket. *)
Theorem import_summary_partition (p : Page.t) (text : string)
    (updates : list Update.t) :
  parseImport text = inr updates ->
  let summary := Page.importSummary (Run.page (handleImportFiles p (Some text))) in
  let names := map Update.fileName updates in
  Summary.count (Summary.success summary)
  + Summary.count (Summary.notFound summary)
  + Summary.count (Summary.errors summary) = List.length updates
  /\ Summary.count (Summary.success summary)
     = List.length (Summary.files (Summary.success summary))
  /\ Summary.count (Summary.notFound summary)
     = List.length (Summary.files (Summary.notFound summary))
  /\ Summary.count (Summary.errors summary)
     = List.length (Summary.files (Summary.errors summary))
  /\ exists fates : list Bucket,
      List.length fates = List.length updates
      /\ Summary.files (Summary.success summary) = pick Succeeded fates names
      /\ Summary.files (Summary.notFound summary) = pick NotFound fates names
      /\ map Summary.name (Summary.files (Summary.errors summary))
         = pick Failed fates names.
Proof.
  intros Hp summary names. subst summary names.
  destruct (handleImportFiles_parsed p text updates Hp) as [_ ->].
  destruct (reconcile_fates (Page.files p) updates Summary.initial [])
    as (fates & Hlen & _ & Hs & Hn & He & Cs & Cn & Ce).
  cbv zeta in *. simpl in *.
  assert (Hparts := pick_partition fates (map Update.fileName updates)).
  rewrite length_map in Hparts. specialize (Hparts Hlen).
  assert (HeL : List.length
                  (Summary.files
                     (Summary.errors
                        (fst (reconcile (Page.files p) updates Summary.initial []))))
                = List.length (pick Failed fates (map Update.fileName updates))).
  { rewrite <- He. now rewrite length_map. }
  rewrite Cs, Cn, Ce, Hs, Hn, HeL.
  repeat split; try lia.
  exists fates. repeat split; assumption.
Qed.

(** ** Schema validation *)

Lemma filterT_pure {A : Type} (q : A -> bool) (xs : list A) :
  filterT (fun x => ret (q x)) xs = ret (filter q xs).
Proof.
  induction xs as [| x xs IH]; simpl; [reflexivity |].
  rewrite IH. simpl. reflexivity.
Qed.

Lemma filterT_ext {A : Type} (q q' : A -> Throws bool) (xs : list A) :
  (forall x, q x = q' x) -> filterT q xs = filterT q' xs.
Proof.
  intros H. induction xs as [| x xs IH]; simpl; [reflexivity |].
  now rewrite H, IH.
Qed.

Lemma filter_nonempty {A : Type} (q : A -> bool) (xs : list A) :
  (0 <? List.length (filter q xs))%nat = existsb q xs.
Proof.
  induction xs as [| x xs IH]; simpl; [reflexivity |].
  destruct (q x); simpl; [reflexivity | exact IH].
Qed.

(** On an object, the missing fields are those that have no own property. *)
Lemma missingFields_object (props : list (string * JSON)) :
  filterT (fun field => present <- Obj.hasField field (JObj props) ;;
                        ret (negb present)) requiredFields
  = ret (filter (fun field => match Json.lookup field props with
                              | Some _ => false
                              | None => true
                              end) requiredFields).
Proof.
  rewrite <- filterT_pure. apply filterT_ext.
  intros field. simpl. now destruct (Json.lookup field props).
Qed.

(** A value that violates the schema makes [validateMetadata] throw. *)
Lemma validateMetadata_violation (attributes : JSON) (fileName : string) :
  violatesSchema attributes = true ->
  exists violation, validateMetadata attributes fileName = inl violation.
Proof.
  intros Hv. unfold validateMetadata.
  destruct attributes as [| b | n | s | items | props];
    try (eexists; reflexivity).
  rewrite missingFields_object. cbv beta iota delta [bind ret].
  rewrite filter_nonempty.
  unfold violatesSchema in Hv. simpl Obj.get in Hv.
  destruct (existsb _ requiredFields) eqn:Emiss.
  - eexists; reflexivity.
  - simpl in Hv.
    destruct (negb (isNumber (Json.lookup "year" props))) eqn:Eyear.
    + simpl Obj.get. rewrite Eyear. eexists; reflexivity.
    + simpl in Hv. simpl Obj.get. rewrite Eyear, Hv. eexists; reflexivity.
Qed.

(** A value that satisfies the schema passes [validateMetadata]. *)
Lemma validateMetadata_accepts (attributes : JSON) (fileName : string) :
  violatesSchema attributes = false ->
  validateMetadata attributes fileName = inr tt.
Proof.
  intros Hv. unfold violatesSchema in Hv.
  apply orb_false_iff in Hv as [Hv Hstatus].
  apply orb_false_iff in Hv as [Hmiss Hyear].
  destruct attributes as [| b | n | s | items | props];
    try (simpl in Hmiss; discriminate).
  unfold validateMetadata.
  rewrite missingFields_object. cbv beta iota delta [bind ret].
  rewrite filter_nonempty. simpl Obj.get in *.
  rewrite Hmiss, Hyear, Hstatus. reflexivity.
Qed.

(** ** The parse stage *)

Lemma importRows_app (before after : list string) (updates : list Update.t) :
  importRows (before ++ after) updates
  = (earlier <- importRows before updates ;; importRows after earlier).
Proof.
  revert updates.
  induction before as [| line before IH]; intros updates; simpl; [reflexivity |].
  destruct (Js.isEmpty (Js.trim line) || Js.startsWith line "Instructions:");
    [apply IH |].
  destruct (parseCSVLine line) as [| cell0 [| cell1 more]]; try apply IH.
  destruct (Js.isEmpty (cleanFileName cell0)); [apply IH |].
  destruct (decodeAttributes cell1 (cleanFileName cell0)); [reflexivity | apply IH].
Qed.

(** C1 - when a data row, reached after a valid header and rows that were
    read without error, decodes to attributes that violate the schema (a
    required key is missing, or [year] is not a number, or [status] is
    not one of the five values), [validateMetadata] throws and the whole
    import stops with the failure summary that carries its message: no
    request is sent for any row, the rows before the offending one
    included, and no row is counted as processed. *)
Theorem schema_violation_aborts_import (p : Page.t) (text header line : string)
    (before after : list string) (earlier : list Update.t)
    (cell0 cell1 : string) (more : list string) (attributes : JSON) :
  importLines text = header :: before ++ line :: after ->
  checkHeader (parseCSVLine header) = inr tt ->
  importRows before [] = inr earlier ->
  Js.isEmpty (Js.trim line) || Js.startsWith line "Instructions:" = false ->
  parseCSVLine line = cell0 :: cell1 :: more ->
  Js.isEmpty (cleanFileName cell0) = false ->
  JSON_parse (cleanAttributes cell1) = inr attributes ->
  violatesSchema attributes = true ->
  let run := handleImportFiles p (Some text) in
  exists violation,
    validateMetadata attributes (cleanFileName cell0) = inl violation
    /\ run = Run.mk (setImportSummary
                       (Summary.failure
                          (message (rowError (cleanFileName cell0) violation))) p)
               [] []
    /\ Run.requests run = []
    /\ Summary.success (Page.importSummary (Run.page run)) = Summary.mkTally 0 []
    /\ Summary.notFound (Page.importSummary (Run.page run)) = Summary.mkTally 0 []
    /\ Page.files (Run.page run) = Page.files p.
Proof.
  intros Hlines Hheader Hbefore Hdata Hcells Hname Hjson Hschema run.
  destruct (validateMetadata_violation attributes (cleanFileName cell0) Hschema)
    as [violation Hviolation].
  exists violation. split; [exact Hviolation |].
  assert (Hparse : parseImport text
                   = inl (rowError (cleanFileName cell0) violation)).
  { unfold parseImport. rewrite Hlines, Hheader. simpl bind.
    rewrite importRows_app, Hbefore. simpl bind.
    simpl importRows. rewrite Hdata, Hcells, Hname.
    unfold decodeAttributes. rewrite Hjson. simpl bind.
    rewrite Hviolation. reflexivity. }
  subst run. rewrite (handleImportFiles_aborted p text _ Hparse).
  repeat split.
Qed.

(** ** An import of two rows *)

(** C6 (as amended) - when the parse stage yields exactly two rows, the
    first matching a record and the second matching none, the summary
    reports the second row, and only it, as not found, and the only
    request sent is the one for the first row; when that request is
    answered with success, the summary reports one success, the first
    row, and no error. *)
Theorem import_two_rows (p : Page.t) (text : string) (row1 row2 : Update.t)
    (file : File.t) :
  parseImport text = inr [row1; row2] ->
  findFile (Page.files p) (Update.fileName row1) = Some file ->
  findFile (Page.files p) (Update.fileName row2) = None ->
  let run := handleImportFiles p (Some text) in
  let summary := Page.importSummary (Run.page run) in
  Summary.notFound summary = Summary.mkTally 1 [Update.fileName row2]
  /\ Run.requests run = [patchOf file (Update.attributes row1)]
  /\ (fetchPatch [] (patchOf file (Update.attributes row1)) = Response true ->
      Summary.success summary = Summary.mkTally 1 [Update.fileName row1]
      /\ Summary.errors summary = Summary.mkTally 0 []).
Proof.
  intros Hp H1 H2 run summary. subst summary run.
  destruct (handleImportFiles_parsed p text _ Hp) as [-> ->].
  simpl reconcile. rewrite H1, H2.
  destruct (fetchPatch [] (patchOf file (Update.attributes row1)))
    as [[|] | reason]; simpl; repeat split; intros; discriminate.
Qed.

(** ** The limits on attribute keys *)

Lemma bind_ret {A B : Type} (a : A) (k : A -> Throws B) :
  (x <- ret a ;; k x) = k a.
Proof. reflexivity. Qed.

Lemma forEach_long_key (keys : list string) :
  (exists key, In key keys /\ 256 < String.length key) ->
  forEach (fun key =>
             if (256 <? String.length key)%nat
             then throw (Error "Attribute keys cannot be longer than 256 characters")
             else ret tt) keys
  = inl (Error "Attribute keys cannot be longer than 256 characters").
Proof.
  intros [key [Hin Hlong]].
  induction keys as [| k keys IH]; [destruct Hin |].
  simpl. destruct (Nat.ltb_spec 256 (String.length k)) as [_ | Hk];
    [reflexivity |].
  simpl. destruct Hin as [-> | Hin]; [lia | now apply IH].
Qed.

Lemma hasLongKey_true (keys : list string) :
  (exists key, In key keys /\ 256 < String.length key) ->
  hasLongKey keys = true.
Proof.
  intros [key [Hin Hlong]]. unfold hasLongKey. apply existsb_exists.
  exists key. split; [assumption |]. now apply Nat.ltb_lt.
Qed.

(** C5 - an attribute map with more than 16 keys, or with a key longer
    than 256 characters, is refused before anything is written: saving it
    from the edit dialog sends no request and shows an error; the route
    answers 400 to any request whose body carries it, without calling the
    collaborator; so a request of the page that carries it, the import's
    requests included, comes back not ok and reaches no collaborator. *)
Theorem oversized_attributes_rejected (props : list (string * JSON)) :
  oversized props ->
  (forall p editing,
      Page.editingFile p = Some editing ->
      Json.parse (Page.metadataInput p) = Some (JObj props) ->
      exists text, handleSaveMetadata p = Run.mk p [] [ToastError text])
  /\ (forall fileId body,
      Obj.get "attributes" body = Some (JObj props) ->
      exists text, PATCH fileId (Some body) = (errorResponse 400 text, []))
  /\ (forall request,
      Patch.attributes request = JObj props ->
      routeFetch request = (Response false, [])).
Proof.
  intros Hover.
  assert (Hroute : forall fileId body,
             Obj.get "attributes" body = Some (JObj props) ->
             exists text, PATCH fileId (Some body) = (errorResponse 400 text, [])).
  { intros fileId body Hattr. unfold PATCH.
    destruct body as [| b | n | s | items | body]; try discriminate.
    unfold destructure. rewrite Hattr. cbv beta iota delta [ret].
    destruct (Obj.falsy (Obj.get "vectorStoreId" (JObj body)));
      [eexists; reflexivity |].
    cbv beta iota delta [keysOf Obj.keys ret]. rewrite length_map.
    destruct (Nat.ltb_spec 16 (List.length props)) as [_ | Hshort];
      [eexists; reflexivity |].
    destruct Hover as [Hmany | Hlong]; [lia |].
    rewrite (hasLongKey_true _ Hlong). eexists; reflexivity. }
  split; [| split; [exact Hroute |]].
  - intros p editing He Hparse. unfold handleSaveMetadata. rewrite He.
    unfold parseAttributesInput, JSON_parse. rewrite Hparse.
    cbv iota. rewrite bind_ret. unfold Obj.keys at 1.
    rewrite bind_ret, length_map.
    destruct (Nat.ltb_spec 16 (List.length props)) as [_ | Hshort];
      [eexists; reflexivity |].
    destruct Hover as [Hmany | Hlong]; [lia |].
    rewrite (forEach_long_key _ Hlong). eexists; reflexivity.
  - intros request Hattr. unfold routeFetch.
    destruct (Hroute (Patch.fileId request) (Patch.body request)) as [text ->];
      [simpl; now rewrite Hattr | reflexivity].
Qed.

(** ** The header of the sheet *)

Lemma checkHeader_two_columns (h0 h1 : string) (more : list string) :
  checkHeader (h0 :: h1 :: more)
  = if String.eqb (Js.toLowerCase h0) "file name"
       && Js.includes (Js.toLowerCase h1) "attributes"
    then ret tt else throw invalidFormat.
Proof.
  unfold checkHeader.
  destruct (String.eqb (Js.toLowerCase h0) "file name"); simpl; [| reflexivity].
  now destruct (Js.includes (Js.toLowerCase h1) "attributes").
Qed.

Lemma checkHeader_examples :
  checkHeader (parseCSVLine "File Name,Attributes") = inr tt
  /\ checkHeader (parseCSVLine "Name,Meta") = inl invalidFormat.
Proof. split; reflexivity. Qed.

(** C4 - at a header of the single column [File Name] the header test
    does not reach the InvalidFormat error: reading the second column
    throws the engine's TypeError, and the import stops with that
    error's message. *)
Theorem header_single_column (p : Page.t) :
  parseCSVLine "File Name" = ["File Name"]
  /\ checkHeader (parseCSVLine "File Name")
     = inl (Engine (TypeError_undefined "toLowerCase"))
  /\ parseImport oneColumnSheet = inl (Engine (TypeError_undefined "toLowerCase"))
  /\ handleImportFiles p (Some oneColumnSheet)
     = Run.mk (setImportSummary
                 (Summary.failure
                    (engineMessage (TypeError_undefined "toLowerCase"))) p)
         [] [].
Proof.
  assert (Hparse : parseImport oneColumnSheet
                   = inl (Engine (TypeError_undefined "toLowerCase")))
    by reflexivity.
  split; [reflexivity |]. split; [reflexivity |]. split; [exact Hparse |].
  exact (handleImportFiles_aborted p _ _ Hparse).
Qed.

(** ** The export *)

Lemma renderedRows_nonempty (files : list File.t) (row : list string) :
  In row (renderedRows files) -> exists cell cells, row = cell :: cells.
Proof.
  unfold renderedRows. intros [<- | Hin].
  - now eexists _, _.
  - apply in_map_iff in Hin as [file [<- _]]. now eexists _, _.
Qed.

Lemma exportRow_rendered (file : File.t) :
  exportRow file
  = if renderable file then inr (rowCells file)
    else inl (Engine RangeError_time).
Proof.
  unfold exportRow, dateToISOString, renderable.
  now destruct (Z.abs (File.created_at file * 1000) <=? maxTime)%Z.
Qed.

(** The loop of the export ends with a row for every record exactly when
    every creation time is rendered; it throws otherwise. *)
Lemma pushRows_rendered (files : list File.t) :
  forall csvRows,
    pushRows files csvRows
    = if forallb renderable files then inr (csvRows ++ map rowCells files)
      else inl (Engine RangeError_time).
Proof.
  induction files as [| file files IH]; intros csvRows.
  - simpl. now rewrite List.app_nil_r.
  - cbn [pushRows forallb map]. rewrite exportRow_rendered.
    destruct (renderable file); [| reflexivity].
    rewrite bind_ret, IH. cbn [andb].
    destruct (forallb renderable files); [| reflexivity].
    now rewrite <- app_assoc.
Qed.

Lemma exportRows_rendered (files : list File.t) :
  exportRows files
  = if forallb renderable files then inr (renderedRows files)
    else inl (Engine RangeError_time).
Proof. unfold exportRows. now rewrite pushRows_rendered. Qed.

Lemma handleExportFiles_rendered (files : list File.t) :
  handleExportFiles files
  = if forallb renderable files then inr (csvDocument (renderedRows files))
    else inl (Engine RangeError_time).
Proof.
  unfold handleExportFiles. rewrite exportRows_rendered.
  now destruct (forallb renderable files).
Qed.

Lemma remapExport_rendered (files : list File.t) :
  remapExport files
  = if forallb renderable files
    then inr (csvDocument (map remapRow (renderedRows files)))
    else inl (Engine RangeError_time).
Proof.
  unfold remapExport. rewrite exportRows_rendered.
  now destruct (forallb renderable files).
Qed.

Lemma handleExportFiles_text (files : list File.t) (text : string) :
  handleExportFiles files = inr text ->
  forallb renderable files = true /\ text = csvDocument (renderedRows files).
Proof.
  rewrite handleExportFiles_rendered.
  destruct (forallb renderable files); [| discriminate].
  intros H. now injection H as <-.
Qed.

Lemma remapExport_text (files : list File.t) (text : string) :
  remapExport files = inr text ->
  forallb renderable files = true
  /\ text = csvDocument (map remapRow (renderedRows files)).
Proof.
  rewrite remapExport_rendered.
  destruct (forallb renderable files); [| discriminate].
  intros H. now injection H as <-.
Qed.

(** ** Reading back what [JSON.stringify] writes *)

Lemma to_int_canonical (z : Z) :
  match Z.to_int z with
  | Pos d | Neg d => canonical d
  end.
Proof.
  assert (Hnorm : norm (Z.to_int z) = Z.to_int z).
  { rewrite <- (DecimalZ.to_of (Z.to_int z)). now rewrite DecimalZ.of_to. }
  destruct (Z.to_int z) as [d | d]; simpl in Hnorm.
  - injection Hnorm as Hd. unfold unorm in Hd.
    destruct (nzhead d) eqn:E; try (right; split;
      [ rewrite <- Hd; discriminate
      | intros d' Hd'; rewrite <- Hd in Hd'; discriminate ]).
    + left. now rewrite <- Hd.
    + exfalso. exact (DecimalFacts.nzhead_nonzero d _ E).
  - destruct (nzhead d) eqn:E; try discriminate;
      injection Hnorm as Hd;
      try (right; split;
           [ rewrite <- Hd; discriminate
           | intros d' Hd'; rewrite <- Hd in Hd'; discriminate ]).
    exfalso. exact (DecimalFacts.nzhead_nonzero d _ E).
Qed.

Lemma canonical_string (d : uint) :
  canonical d -> NilZero.string_of_uint d = NilEmpty.string_of_uint d.
Proof.
  intros [-> | [Hnil _]]; [reflexivity |].
  destruct d; try reflexivity. contradiction.
Qed.

Lemma allChars_append (ok : ascii -> bool) (a b : string) :
  allChars ok (a ++ b) = allChars ok a && allChars ok b.
Proof.
  induction a as [| c a IH]; simpl; [reflexivity |].
  now rewrite IH, andb_assoc.
Qed.

Lemma allChars_impl (ok ok' : ascii -> bool) (s : string) :
  (forall c, ok c = true -> ok' c = true) ->
  allChars ok s = true -> allChars ok' s = true.
Proof.
  intros H. induction s as [| c s IH]; simpl; [reflexivity |].
  intros Hs. apply andb_true_iff in Hs as [Hc Hs].
  now rewrite (H c Hc), IH.
Qed.

Lemma digits_allChars (d : uint) :
  allChars Json.isDigit (NilEmpty.string_of_uint d) = true.
Proof. induction d; simpl; auto. Qed.

Lemma spanDigits_digits (digits rest : string) :
  allChars Json.isDigit digits = true ->
  delimited rest = true ->
  Json.spanDigits (digits ++ rest) = (digits, rest).
Proof.
  intros Hd Hrest. induction digits as [| c digits IH]; simpl.
  - destruct rest as [| r rest]; [reflexivity |].
    simpl in *. destruct (Json.isDigit r) eqn:E; [| reflexivity].
    exfalso. apply orb_true_iff in Hrest as [Hrest | Hrest];
      [apply orb_true_iff in Hrest as [Hrest | Hrest] |];
      apply Ascii.eqb_eq in Hrest; subst r; discriminate.
  - simpl in Hd. apply andb_true_iff in Hd as [Hc Hd].
    now rewrite Hc, IH.
Qed.

Lemma delimited_not_fraction (rest : string) :
  delimited rest = true -> Json.startsFraction rest = false.
Proof.
  destruct rest as [| r rest]; [reflexivity |]. simpl. intros H.
  apply orb_true_iff in H as [H | H];
    [apply orb_true_iff in H as [H | H] |];
    apply Ascii.eqb_eq in H; subst r; reflexivity.
Qed.

Lemma parseDigits_canonical (d : uint) (rest : string) :
  canonical d -> delimited rest = true ->
  Json.parseDigits (NilEmpty.string_of_uint d ++ rest) = Some (Z.of_uint d, rest).
Proof.
  intros Hcan Hrest. unfold Json.parseDigits.
  rewrite (spanDigits_digits _ _ (digits_allChars d) Hrest).
  rewrite (delimited_not_fraction _ Hrest).
  assert (Hread := NilEmpty.usu d).
  destruct Hcan as [-> | [Hnil Hzero]]; [reflexivity |].
  destruct d as [| d | d | d | d | d | d | d | d | d | d];
    try contradiction;
    try (exfalso; exact (Hzero d eq_refl));
    (destruct d; simpl NilEmpty.string_of_uint in *; cbv iota;
     try change (Ascii.eqb _ "0"%char) with false; cbv iota;
     rewrite Hread; reflexivity).
Qed.

Lemma parseNumber_numberToString (z : Z) (rest : string) :
  delimited rest = true ->
  Json.parseNumber (Js.numberToString z ++ rest) = Some (z, rest).
Proof.
  intros Hrest. unfold Js.numberToString.
  pose proof (to_int_canonical z) as Hcan.
  pose proof (DecimalZ.of_to z) as Hz.
  destruct (Z.to_int z) as [d | d]; simpl NilZero.string_of_int.
  - rewrite (canonical_string d Hcan).
    assert (Hd := parseDigits_canonical d rest Hcan Hrest).
    simpl in Hz. rewrite Hz in Hd.
    destruct Hcan as [-> | [Hnil _]]; [exact Hd |].
    destruct d; try contradiction; exact Hd.
  - rewrite (canonical_string d Hcan). simpl.
    rewrite (parseDigits_canonical d rest Hcan Hrest). simpl.
    simpl in Hz. now rewrite Hz.
Qed.

Lemma plainChar_escape (c : ascii) :
  plainChar c = true -> Json.escapeChar c = String c EmptyString.
Proof.
  unfold plainChar, Json.escapeChar. intros H.
  apply andb_true_iff in H as [H Hb]. apply andb_true_iff in H as [Hn Hq].
  apply negb_true_iff in Hq, Hb. rewrite Hq, Hb.
  apply N.leb_le in Hn.
  repeat match goal with
         | |- context [N.eqb ?a ?b] =>
             destruct (N.eqb_spec a b); [lia |]
         end.
  destruct (N.ltb_spec (N_of_ascii c) 32); [lia | reflexivity].
Qed.

Lemma plainString_escape (s : string) :
  plainString s = true -> Json.escape s = s.
Proof.
  unfold plainString. induction s as [| c s IH]; simpl; [reflexivity |].
  intros H. apply andb_true_iff in H as [Hc Hs].
  now rewrite (plainChar_escape c Hc), IH.
Qed.

Lemma plainString_quote (s : string) :
  plainString s = true -> Json.quote s = String dquote (s ++ DQ).
Proof. intros H. unfold Json.quote. now rewrite (plainString_escape s H). Qed.

Lemma parseStringBody_plain (s rest : string) :
  plainString s = true ->
  Json.parseStringBody (s ++ String dquote rest) = Some (s, rest).
Proof.
  unfold plainString. induction s as [| c s IH]; simpl; [reflexivity |].
  intros H. apply andb_true_iff in H as [Hc Hs].
  unfold plainChar in Hc.
  apply andb_true_iff in Hc as [Hc Hb]. apply andb_true_iff in Hc as [Hn Hq].
  apply negb_true_iff in Hq, Hb. rewrite Hq, Hb.
  apply N.leb_le in Hn.
  destruct (N.ltb_spec (N_of_ascii c) 32); [lia |].
  now rewrite (IH Hs).
Qed.

Lemma numberToString_start (z : Z) :
  exists c r, Js.numberToString z = String c r /\ numeralStart c = true.
Proof.
  unfold Js.numberToString.
  pose proof (to_int_canonical z) as Hcan.
  destruct (Z.to_int z) as [d | d]; simpl.
  - rewrite (canonical_string d Hcan).
    destruct Hcan as [-> | [Hnil _]]; [now eexists _, _ |].
    destruct d; try contradiction; now eexists _, _.
  - now eexists _, _.
Qed.

Lemma dropPrefix_mismatch (a c : ascii) (p r : string) :
  Ascii.eqb a c = false -> Json.dropPrefix (String a p) (String c r) = None.
Proof.
  intros H.
  change (Json.dropPrefix (String a p) (String c r))
    with (if Ascii.eqb a c then Json.dropPrefix p r else None).
  now rewrite H.
Qed.

Lemma parseLiteral_numeral (c : ascii) (r : string) :
  numeralStart c = true ->
  Json.parseLiteral (String c r)
  = option_map (fun p => (JNum (fst p), snd p)) (Json.parseNumber (String c r)).
Proof.
  intros Hc. unfold Json.parseLiteral.
  rewrite !dropPrefix_mismatch; [reflexivity | | |];
    (destruct (Ascii.eqb_spec c "-") as [-> | Hm]; [reflexivity |]);
    match goal with
    | |- Ascii.eqb ?a c = false =>
        destruct (Ascii.eqb_spec a c) as [<- | _]; [discriminate | reflexivity]
    end.
Qed.

Lemma numeralStart_valueStart (c : ascii) :
  numeralStart c = true ->
  valueStart c = true /\ Ascii.eqb c "{"%char = false
  /\ Ascii.eqb c "["%char = false /\ Ascii.eqb c dquote = false.
Proof.
  unfold numeralStart, Json.isDigit, valueStart, Json.isWs. intros H.
  apply orb_true_iff in H as [H | H].
  - apply andb_true_iff in H as [Hlo Hhi].
    apply N.leb_le in Hlo, Hhi.
    repeat split.
    + repeat match goal with
             | |- context [N.eqb ?a ?b] =>
                 destruct (N.eqb_spec a b); [lia |]
             end.
      simpl.
      destruct (Ascii.eqb_spec c "]") as [-> | _]; [simpl in Hhi; lia |].
      destruct (Ascii.eqb_spec c "}") as [-> | _]; [simpl in Hhi; lia |].
      reflexivity.
    + destruct (Ascii.eqb_spec c "{") as [-> | _]; [simpl in Hhi; lia | reflexivity].
    + destruct (Ascii.eqb_spec c "[") as [-> | _]; [simpl in Hhi; lia | reflexivity].
    + destruct (Ascii.eqb_spec c dquote) as [-> | _]; [simpl in Hlo; lia | reflexivity].
  - apply Ascii.eqb_eq in H. subst c. repeat split.
Qed.

Lemma numberToString_text (z : Z) :
  allChars textChar (Js.numberToString z) = true.
Proof.
  unfold Js.numberToString.
  pose proof (to_int_canonical z) as Hcan.
  assert (Hd : forall d, allChars textChar (NilEmpty.string_of_uint d) = true)
    by (induction d; simpl; auto).
  destruct (Z.to_int z) as [d | d]; simpl;
    rewrite (canonical_string d Hcan); simpl; apply Hd.
Qed.

Lemma skipWs_valueStart (c : ascii) (r : string) :
  valueStart c = true -> Json.skipWs (String c r) = String c r.
Proof.
  unfold valueStart. intros H.
  apply andb_true_iff in H as [H _]. apply andb_true_iff in H as [H _].
  apply negb_true_iff in H. simpl. now rewrite H.
Qed.

(** The first character of a written value. *)
Lemma stringify_start (v : JSON) :
  exists c r, Json.stringify v = String c r /\ valueStart c = true.
Proof.
  destruct v as [| [|] | n | s | items | props]; simpl;
    try (now eexists _, _).
  destruct (numberToString_start n) as (c & r & -> & Hc).
  exists c, r. split; [reflexivity |].
  now apply numeralStart_valueStart.
Qed.

Lemma JSON_nested_ind (P : JSON -> Prop) :
  P JNull -> (forall b, P (JBool b)) -> (forall n, P (JNum n)) ->
  (forall s, P (JStr s)) ->
  (forall items, Forall P items -> P (JArr items)) ->
  (forall props, Forall (fun kv => P (snd kv)) props -> P (JObj props)) ->
  forall v, P v.
Proof.
  intros HN HB HZ HS HA HO. fix IH 1.
  intros [| b | n | s | items | props].
  - exact HN.
  - apply HB.
  - apply HZ.
  - apply HS.
  - apply HA. induction items as [| x items IHitems]; constructor.
    + apply IH.
    + exact IHitems.
  - apply HO. induction props as [| [k x] props IHprops]; constructor.
    + apply IH.
    + exact IHprops.
Qed.

Lemma parseValue_array (fuel : nat) (r : string) :
  Json.parseValue (S fuel) (String "[" r)
  = match Json.skipWs r with
    | String c' r' =>
        if Ascii.eqb c' "]"%char then Some (JArr [], r')
        else Json.parseElements fuel r []
    | EmptyString => None
    end.
Proof. reflexivity. Qed.

Lemma parseValue_object (fuel : nat) (r : string) :
  Json.parseValue (S fuel) (String "{" r)
  = match Json.skipWs r with
    | String c' r' =>
        if Ascii.eqb c' "}"%char then Some (JObj [], r')
        else Json.parseMembers fuel r []
    | EmptyString => None
    end.
Proof. reflexivity. Qed.

Lemma parseValue_string (fuel : nat) (r : string) :
  Json.parseValue (S fuel) (String dquote r)
  = match Json.parseStringBody r with
    | Some (str, rest) => Some (JStr str, rest)
    | None => None
    end.
Proof. reflexivity. Qed.

Lemma parseElements_step (fuel : nat) (s : string) (acc : list JSON) :
  Json.parseElements (S fuel) s acc
  = match Json.parseValue fuel s with
    | Some (v, rest) =>
        match Json.skipWs rest with
        | String c rest' =>
            if Ascii.eqb c ","%char
            then Json.parseElements fuel rest' (acc ++ [v])
            else if Ascii.eqb c "]"%char then Some (JArr (acc ++ [v]), rest')
            else None
        | EmptyString => None
        end
    | None => None
    end.
Proof. reflexivity. Qed.

Lemma parseMembers_step (fuel : nat) (r : string) (acc : list (string * JSON)) :
  Json.parseMembers (S fuel) (String dquote r) acc
  = match Json.parseStringBody r with
    | Some (k, rest) =>
        match Json.skipWs rest with
        | String c rest' =>
            if Ascii.eqb c ":"%char then
              match Json.parseValue fuel rest' with
              | Some (v, rest2) =>
                  match Json.skipWs rest2 with
                  | String c2 rest3 =>
                      if Ascii.eqb c2 ","%char
                      then Json.parseMembers fuel rest3 (Json.setProp k v acc)
                      else if Ascii.eqb c2 "}"%char
                      then Some (JObj (Json.setProp k v acc), rest3)
                      else None
                  | EmptyString => None
                  end
              | None => None
              end
            else None
        | EmptyString => None
        end
    | None => None
    end.
Proof. reflexivity. Qed.

Lemma parseElements_items (items : list JSON) :
  Forall readsBack items -> items <> [] ->
  forall (fuel : nat) (acc : list JSON) (rest : string),
    list_sum (map (fun x => S (size x)) items) <= fuel ->
    Json.parseElements fuel
      (Js.join "," (map Json.stringify items) ++ String "]" rest) acc
    = Some (JArr (acc ++ items), rest).
Proof.
  intros Hall. induction Hall as [| v items Hv Hitems IH]; [congruence |].
  intros _ fuel acc rest Hfuel. simpl in Hfuel.
  destruct fuel as [| fuel]; [lia |].
  rewrite parseElements_step. unfold Js.join in *.
  destruct items as [| v2 items].
  - change (String.concat "," (map Json.stringify [v])) with (Json.stringify v).
    rewrite (Hv fuel (String "]" rest)) by (simpl; try lia; reflexivity).
    reflexivity.
  - change (String.concat "," (map Json.stringify (v :: v2 :: items)))
      with (Json.stringify v
            ++ String "," (String.concat "," (map Json.stringify (v2 :: items))))%string.
    rewrite append_assoc. cbn [append].
    rewrite (Hv fuel) by (simpl; try lia; reflexivity).
    cbn [Json.skipWs]. change (Json.isWs ",") with false. cbv iota.
    change (Ascii.eqb "," ",") with true. cbv iota.
    rewrite IH by (try discriminate; simpl in *; lia).
    now rewrite <- app_assoc.
Qed.

Lemma distinct_NoDup (keys : list string) :
  distinct keys = true <-> NoDup keys.
Proof.
  induction keys as [| k keys IH]; simpl.
  - split; [constructor | reflexivity].
  - rewrite andb_true_iff, negb_true_iff, IH. split.
    + intros [Hk Hkeys]. constructor; [| assumption].
      intros Hin.
      assert (existsb (String.eqb k) keys = true)
        by (apply existsb_exists; exists k; split;
            [assumption | apply String.eqb_refl]).
      congruence.
    + intros Hnd. inversion Hnd as [| ? ? Hk Hkeys]; subst.
      split; [| assumption].
      destruct (existsb (String.eqb k) keys) eqn:E; [| reflexivity].
      apply existsb_exists in E as [k' [Hin Hk']].
      apply String.eqb_eq in Hk'. subst k'. contradiction.
Qed.

Lemma setProp_fresh (k : string) (v : JSON) (acc : list (string * JSON)) :
  ~ In k (map fst acc) -> Json.setProp k v acc = acc ++ [(k, v)].
Proof.
  induction acc as [| [k' v'] acc IH]; simpl; [reflexivity |].
  intros Hin.
  destruct (String.eqb_spec k k') as [-> | _]; [tauto |].
  rewrite IH; [reflexivity | tauto].
Qed.

Lemma parseMembers_props (props : list (string * JSON)) :
  Forall (fun kv => readsBack (snd kv)) props -> props <> [] ->
  forall (fuel : nat) (acc : list (string * JSON)) (rest : string),
    list_sum (map (fun kv => match kv with (_, x) => S (size x) end) props)
    <= fuel ->
    forallb (fun kv => plainString (fst kv)) props = true ->
    NoDup (map fst (acc ++ props)) ->
    Json.parseMembers fuel
      (Js.join "," (map memberText props) ++ String "}" rest) acc
    = Some (JObj (acc ++ props), rest).
Proof.
  intros Hall. induction Hall as [| [k x] props Hx Hprops IH]; [congruence |].
  intros _ fuel acc rest Hfuel Hplain Hnd. simpl in Hfuel, Hx.
  simpl in Hplain. apply andb_true_iff in Hplain as [Hk Hplain].
  destruct fuel as [| fuel]; [lia |].
  assert (Hfresh : Json.setProp k x acc = acc ++ [(k, x)]).
  { apply setProp_fresh. rewrite map_app in Hnd. simpl in Hnd.
    apply NoDup_remove_2 in Hnd. intros Hin. apply Hnd.
    apply in_or_app. now left. }
  unfold Js.join in *.
  destruct props as [| kv2 props].
  - change (String.concat "," (map memberText [(k, x)])) with (memberText (k, x)).
    unfold memberText.
    rewrite (plainString_quote k Hk). cbn [append].
    rewrite parseMembers_step. rewrite !append_assoc. unfold DQ.
    cbn [append]. rewrite (parseStringBody_plain k _ Hk).
    cbn [Json.skipWs]. change (Json.isWs ":") with false. cbv iota.
    change (Ascii.eqb ":" ":") with true. cbv iota.
    rewrite (Hx fuel (String "}" rest)) by (simpl; try lia; reflexivity).
    rewrite Hfresh. reflexivity.
  - change (String.concat "," (map memberText ((k, x) :: kv2 :: props)))
      with (memberText (k, x)
            ++ String "," (String.concat "," (map memberText (kv2 :: props))))%string.
    unfold memberText at 1.
    rewrite (plainString_quote k Hk). cbn [append].
    rewrite parseMembers_step. rewrite !append_assoc. unfold DQ.
    cbn [append]. rewrite (parseStringBody_plain k _ Hk).
    cbn [Json.skipWs]. change (Json.isWs ":") with false. cbv iota.
    change (Ascii.eqb ":" ":") with true. cbv iota.
    rewrite (Hx fuel) by (simpl; try lia; reflexivity).
    cbn [Json.skipWs]. change (Json.isWs ",") with false. cbv iota.
    change (Ascii.eqb "," ",") with true. cbv iota.
    rewrite Hfresh.
    rewrite IH; try discriminate; try assumption.
    + now rewrite <- app_assoc.
    + simpl in *. lia.
    + now rewrite <- app_assoc.
Qed.

Lemma stringify_object (props : list (string * JSON)) :
  Json.stringify (JObj props)
  = String "{" (Js.join "," (map memberText props) ++ "}").
Proof. reflexivity. Qed.

Lemma stringify_array (items : list JSON) :
  Json.stringify (JArr items)
  = String "[" (Js.join "," (map Json.stringify items) ++ "]").
Proof. reflexivity. Qed.

(** Every well-formed value without escapes is read back by the parser. *)
Lemma stringify_readsBack (v : JSON) :
  wf_json v = true -> plain v = true -> readsBack v.
Proof.
  induction v as [| b | n | s | items IH | props IH] using JSON_nested_ind;
    intros Hwf Hplain fuel rest Hfuel Hrest;
    (destruct fuel as [| fuel]; [simpl in Hfuel; lia |]).
  - reflexivity.
  - destruct b; reflexivity.
  - destruct (numberToString_start n) as (c & r & E & Hc).
    pose proof (parseNumber_numberToString n rest Hrest) as Hnum.
    simpl Json.stringify. rewrite E in *. cbn [append] in *.
    destruct (numeralStart_valueStart c Hc) as (Hv & H1 & H2 & H3).
    cbn [Json.parseValue]. rewrite (skipWs_valueStart c _ Hv), H1, H2, H3.
    rewrite (parseLiteral_numeral c _ Hc), Hnum. reflexivity.
  - simpl in Hplain. simpl Json.stringify.
    rewrite (plainString_quote s Hplain). cbn [append].
    rewrite parseValue_string, append_assoc. unfold DQ. cbn [append].
    now rewrite (parseStringBody_plain s rest Hplain).
  - rewrite stringify_array. cbn [append].
    rewrite parseValue_array, append_assoc. cbn [append].
    destruct items as [| x items].
    + reflexivity.
    + simpl in Hwf, Hplain, Hfuel.
      assert (Hall : Forall readsBack (x :: items)).
      { apply Forall_forall. intros y Hy.
        rewrite Forall_forall in IH. apply IH; [assumption | |].
        - change (forallb wf_json (x :: items) = true) in Hwf.
          rewrite forallb_forall in Hwf. now apply Hwf.
        - change (forallb plain (x :: items) = true) in Hplain.
          rewrite forallb_forall in Hplain. now apply Hplain. }
      destruct (stringify_start x) as (c & r & E & Hc).
      assert (Hskip : exists r',
                 (Js.join "," (map Json.stringify (x :: items))
                  ++ String "]" rest)%string = String c r').
      { unfold Js.join. destruct items; simpl map; simpl String.concat;
          rewrite E; cbn [append]; now eexists. }
      destruct Hskip as [r' Hskip].
      rewrite Hskip at 1. rewrite (skipWs_valueStart c r' Hc).
      unfold valueStart in Hc. apply andb_true_iff in Hc as [Hc _].
      apply andb_true_iff in Hc as [_ Hc]. apply negb_true_iff in Hc.
      rewrite Hc.
      rewrite (parseElements_items (x :: items) Hall); [reflexivity | discriminate |].
      simpl. lia.
  - rewrite stringify_object. cbn [append].
    rewrite parseValue_object, append_assoc. cbn [append].
    destruct props as [| [k x] props].
    + reflexivity.
    + simpl in Hfuel.
      change (distinct (map fst ((k, x) :: props))
              && forallb (fun kv => match kv with (_, y) => wf_json y end)
                   ((k, x) :: props) = true) in Hwf.
      change (forallb (fun kv => match kv with
                                 | (k', y) => plainString k' && plain y
                                 end) ((k, x) :: props) = true) in Hplain.
      apply andb_true_iff in Hwf as [Hdistinct Hwf].
      rewrite forallb_forall in Hwf, Hplain.
      assert (Hall : Forall (fun kv => readsBack (snd kv)) ((k, x) :: props)).
      { apply Forall_forall. intros [k' y] Hy.
        rewrite Forall_forall in IH. apply (IH (k', y) Hy).
        - exact (Hwf (k', y) Hy).
        - specialize (Hplain (k', y) Hy). simpl in Hplain.
          now apply andb_true_iff in Hplain as [_ Hplain]. }
      assert (Hkeys : forallb (fun kv => plainString (fst kv)) ((k, x) :: props)
                      = true).
      { apply forallb_forall. intros [k' y] Hy.
        specialize (Hplain (k', y) Hy). simpl in Hplain.
        now apply andb_true_iff in Hplain as [Hplain _]. }
      assert (Hskip : exists r',
                 (Js.join "," (map memberText ((k, x) :: props))
                  ++ String "}" rest)%string = String dquote r').
      { unfold Js.join. destruct props; simpl map; simpl String.concat;
          unfold Json.quote, DQ; cbn [append]; now eexists. }
      destruct Hskip as [r' Hskip].
      rewrite Hskip at 1. cbn [Json.skipWs].
      change (Json.isWs dquote) with false. cbv iota.
      change (Ascii.eqb dquote "}") with false. cbv iota.
      rewrite (parseMembers_props ((k, x) :: props) Hall);
        [reflexivity | discriminate | simpl; lia | exact Hkeys |].
      simpl app. now apply distinct_NoDup.
Qed.

Lemma join_length_bound {A : Type} (text : A -> string) (cost : A -> nat)
    (xs : list A) :
  Forall (fun x => cost x <= String.length (text x)) xs ->
  list_sum (map (fun x => S (cost x)) xs)
  <= S (String.length (Js.join "," (map text xs))).
Proof.
  unfold Js.join. intros H. induction H as [| x xs Hx Hxs IH]; [simpl; lia |].
  destruct xs as [| y xs].
  - simpl. lia.
  - change (String.concat "," (map text (x :: y :: xs)))
      with (text x ++ String "," (String.concat "," (map text (y :: xs))))%string.
    rewrite length_append.
    change (list_sum (map (fun x0 => S (cost x0)) (x :: y :: xs)))
      with (S (cost x) + list_sum (map (fun x0 => S (cost x0)) (y :: xs))).
    cbn [String.length]. lia.
Qed.

Lemma size_le_length (v : JSON) : size v <= String.length (Json.stringify v).
Proof.
  induction v as [| b | n | s | items IH | props IH] using JSON_nested_ind.
  - simpl. lia.
  - destruct b; simpl; lia.
  - destruct (numberToString_start n) as (c & r & E & _).
    simpl. rewrite E. simpl. lia.
  - simpl. unfold Json.quote. rewrite length_append. simpl. lia.
  - rewrite stringify_array. simpl size. simpl String.length.
    rewrite length_append. simpl String.length.
    pose proof (join_length_bound Json.stringify size items IH) as Hb.
    apply le_n_S. rewrite Nat.add_1_r. exact Hb.
  - rewrite stringify_object. simpl size. simpl String.length.
    rewrite length_append. simpl String.length.
    assert (H : Forall (fun kv => size (snd kv) <= String.length (memberText kv))
                  props).
    { eapply Forall_impl; [| exact IH]. intros [k x] Hx.
      unfold memberText. cbn [snd] in *.
      rewrite !length_append. cbn [String.length]. lia. }
    pose proof (join_length_bound memberText (fun kv => size (snd kv)) props H)
      as Hb.
    assert (E : map (fun kv : string * JSON => let (_, x) := kv in S (size x)) props
                = map (fun kv => S (size (snd kv))) props).
    { apply map_ext. now intros [k x]. }
    rewrite E. apply le_n_S. rewrite Nat.add_1_r. exact Hb.
Qed.

(** [JSON.parse(JSON.stringify(v))] is [v] for every well-formed value
    whose keys and strings need no escape. *)
Lemma parse_stringify (v : JSON) :
  wf_json v = true -> plain v = true ->
  Json.parse (Json.stringify v) = Some v.
Proof.
  intros Hwf Hplain. unfold Json.parse.
  pose proof (stringify_readsBack v Hwf Hplain
                (2 * String.length (Json.stringify v) + 2) EmptyString) as H.
  rewrite append_empty_r in H. rewrite H; [reflexivity | | reflexivity].
  pose proof (size_le_length v). lia.
Qed.

Lemma allChars_join (ok : ascii -> bool) (sep : string) (xs : list string) :
  allChars ok sep = true ->
  Forall (fun x => allChars ok x = true) xs ->
  allChars ok (Js.join sep xs) = true.
Proof.
  unfold Js.join. intros Hsep H. induction H as [| x xs Hx Hxs IH];
    [reflexivity |].
  destruct xs as [| y xs]; [exact Hx |].
  change (String.concat sep (x :: y :: xs))
    with (x ++ sep ++ String.concat sep (y :: xs))%string.
  now rewrite !allChars_append, Hx, Hsep, IH.
Qed.

Lemma plainChar_textChar (c : ascii) : plainChar c = true -> textChar c = true.
Proof.
  unfold plainChar, textChar. intros H.
  apply andb_true_iff in H as [H Hb]. apply andb_true_iff in H as [Hn _].
  rewrite Hb, andb_true_r. apply negb_true_iff.
  destruct (Ascii.eqb_spec c LF) as [-> | _]; [discriminate | reflexivity].
Qed.

Lemma quote_text (s : string) :
  plainString s = true -> allChars textChar (Json.quote s) = true.
Proof.
  intros H. rewrite (plainString_quote s H). simpl.
  rewrite allChars_append. simpl. rewrite andb_true_r.
  exact (allChars_impl _ _ s plainChar_textChar H).
Qed.

(** The text of a value without escapes has no line feed and no
    backslash. *)
Lemma stringify_text (v : JSON) :
  plain v = true -> allChars textChar (Json.stringify v) = true.
Proof.
  induction v as [| b | n | s | items IH | props IH] using JSON_nested_ind;
    intros Hplain.
  - reflexivity.
  - now destruct b.
  - apply numberToString_text.
  - now apply quote_text.
  - rewrite stringify_array. simpl allChars.
    rewrite allChars_append. simpl. rewrite andb_true_r.
    apply allChars_join; [reflexivity |].
    apply Forall_map. apply Forall_forall. intros x Hx.
    rewrite Forall_forall in IH. apply (IH x Hx).
    change (forallb plain items = true) in Hplain.
    rewrite forallb_forall in Hplain. now apply Hplain.
  - rewrite stringify_object. simpl allChars.
    rewrite allChars_append. simpl. rewrite andb_true_r.
    apply allChars_join; [reflexivity |].
    apply Forall_map. apply Forall_forall. intros [k x] Hx.
    change (forallb (fun kv => match kv with
                               | (k', y) => plainString k' && plain y
                               end) props = true) in Hplain.
    rewrite forallb_forall in Hplain. specialize (Hplain (k, x) Hx).
    simpl in Hplain. apply andb_true_iff in Hplain as [Hk Hplain].
    unfold memberText. rewrite !allChars_append, (quote_text k Hk). simpl.
    rewrite Forall_forall in IH. exact (IH (k, x) Hx Hplain).
Qed.

(** ** Texts that the clean-up of the importer leaves as they are *)

Lemma trimEnd_kept (r : string) (d : ascii) :
  Js.isWhiteSpace d = false ->
  Js.trimEnd (r ++ String d EmptyString) = (r ++ String d EmptyString)%string.
Proof.
  intros Hd. induction r as [| c r IH]; simpl.
  - now rewrite Hd.
  - rewrite IH. destruct (r ++ String d EmptyString)%string eqn:E.
    + destruct r; discriminate.
    + now rewrite andb_false_r.
Qed.

Lemma trim_kept (c d : ascii) (body : string) :
  Js.isWhiteSpace c = false -> Js.isWhiteSpace d = false ->
  Js.trim (String c (body ++ String d EmptyString))
  = String c (body ++ String d EmptyString).
Proof.
  intros Hc Hd. unfold Js.trim. simpl Js.trimStart. rewrite Hc.
  exact (trimEnd_kept (String c body) d Hd).
Qed.

Lemma trim_nonblank (c : ascii) (r : string) :
  Js.isWhiteSpace c = false -> Js.isEmpty (Js.trim (String c r)) = false.
Proof.
  intros Hc. unfold Js.trim. simpl Js.trimStart. rewrite Hc.
  simpl. now rewrite Hc.
Qed.

Lemma dropFinalQuote_kept (r : string) (d : ascii) :
  Ascii.eqb d dquote = false ->
  Js.dropFinalQuote (r ++ String d EmptyString)
  = (r ++ String d EmptyString)%string.
Proof.
  intros Hd. induction r as [| c r IH]; simpl.
  - now rewrite Hd.
  - rewrite IH. destruct (r ++ String d EmptyString)%string eqn:E.
    + destruct r; discriminate.
    + reflexivity.
Qed.

Lemma stripQuotes_kept (c d : ascii) (body : string) :
  Ascii.eqb c dquote = false -> Ascii.eqb d dquote = false ->
  Js.stripQuotes (String c (body ++ String d EmptyString))
  = String c (body ++ String d EmptyString).
Proof.
  intros Hc Hd. unfold Js.stripQuotes. rewrite Hc.
  exact (dropFinalQuote_kept (String c body) d Hd).
Qed.

Lemma unescapeQuotes_kept (s : string) :
  allChars textChar s = true -> Js.unescapeQuotes s = s.
Proof.
  induction s as [| c s IH]; [reflexivity |].
  intros H. simpl in H. apply andb_true_iff in H as [Hc Hs].
  unfold textChar in Hc. apply andb_true_iff in Hc as [_ Hc].
  apply negb_true_iff in Hc.
  cbn [Js.unescapeQuotes]. destruct s as [| c' s']; [reflexivity |].
  rewrite Hc. cbn [andb]. now rewrite (IH Hs).
Qed.

Lemma removeBackslashes_kept (s : string) :
  allChars textChar s = true -> Js.removeBackslashes s = s.
Proof.
  induction s as [| c s IH]; [reflexivity |].
  intros H. simpl in H. apply andb_true_iff in H as [Hc Hs].
  unfold textChar in Hc. apply andb_true_iff in Hc as [_ Hc].
  apply negb_true_iff in Hc. simpl. now rewrite Hc, (IH Hs).
Qed.

(** The text of an object without escapes comes out of the importer's
    clean-up unchanged, also after the trimming of [parseCSVLine]. *)
Lemma cleanAttributes_object (props : list (string * JSON)) :
  plain (JObj props) = true ->
  Js.trim (Json.stringify (JObj props)) = Json.stringify (JObj props)
  /\ cleanAttributes (Json.stringify (JObj props)) = Json.stringify (JObj props).
Proof.
  intros Hplain.
  pose proof (stringify_text (JObj props) Hplain) as Htext.
  rewrite stringify_object in *.
  set (body := Js.join "," (map memberText props)) in *.
  assert (Htrim : Js.trim (String "{" (body ++ "}")) = String "{" (body ++ "}"))
    by (apply trim_kept; reflexivity).
  assert (Hstrip : Js.stripQuotes (String "{" (body ++ "}"))
                   = String "{" (body ++ "}"))
    by (apply stripQuotes_kept; reflexivity).
  split; [exact Htrim |].
  unfold cleanAttributes.
  now rewrite Hstrip, Htrim, (unescapeQuotes_kept _ Htext), Hstrip,
    (removeBackslashes_kept _ Htext), Htrim.
Qed.

(** ** Lines of a document *)

Lemma splitLines_line (l rest : string) :
  noLineFeed l = true -> lastIsCR l = false ->
  Js.splitLines (l ++ String LF rest) = l :: Js.splitLines rest.
Proof.
  unfold noLineFeed. induction l as [| c l IH]; intros Hlf Hcr.
  - reflexivity.
  - simpl in Hlf. apply andb_true_iff in Hlf as [Hc Hlf].
    apply negb_true_iff in Hc.
    cbn [append Js.splitLines]. rewrite Hc.
    destruct l as [| c2 l].
    + cbn [append]. simpl in Hcr. rewrite Hcr. cbn [andb].
      change (Js.splitLines (String LF rest)) with (EmptyString :: Js.splitLines rest).
      reflexivity.
    + cbn [append].
      assert (Hc2 : Ascii.eqb c2 LF = false).
      { simpl in Hlf. apply andb_true_iff in Hlf as [Hc2 _].
        now apply negb_true_iff in Hc2. }
      rewrite Hc2, andb_false_r.
      change (String c2 (l ++ String LF rest))
        with (String c2 l ++ String LF rest)%string.
      rewrite (IH Hlf Hcr). reflexivity.
Qed.

Lemma splitLines_last (l : string) :
  noLineFeed l = true -> Js.splitLines l = [l].
Proof.
  unfold noLineFeed. induction l as [| c l IH]; intros Hlf; [reflexivity |].
  simpl in Hlf. apply andb_true_iff in Hlf as [Hc Hlf].
  apply negb_true_iff in Hc. cbn [Js.splitLines]. rewrite Hc.
  destruct l as [| c2 l]; [reflexivity |].
  assert (Hc2 : Ascii.eqb c2 LF = false).
  { simpl in Hlf. apply andb_true_iff in Hlf as [Hc2 _].
    now apply negb_true_iff in Hc2. }
  rewrite Hc2, andb_false_r, (IH Hlf). reflexivity.
Qed.

Lemma splitLines_join (l : string) (ls : list string) :
  Forall (fun x => noLineFeed x = true /\ lastIsCR x = false) (l :: ls) ->
  Js.splitLines (Js.join newline (l :: ls)) = l :: ls.
Proof.
  unfold Js.join. revert l. induction ls as [| l2 ls IH]; intros l H.
  - inversion H as [| ? ? [Hlf _] _]; subst. now apply splitLines_last.
  - inversion H as [| ? ? [Hlf Hcr] Hrest]; subst.
    change (String.concat newline (l :: l2 :: ls))
      with (l ++ String LF (String.concat newline (l2 :: ls)))%string.
    rewrite (splitLines_line l _ Hlf Hcr). now rewrite IH.
Qed.

(** ** Rows written by the export's encoding *)

Lemma doubleQuotes_allChars (ok : ascii -> bool) (s : string) :
  ok dquote = true -> allChars ok s = true ->
  allChars ok (Js.doubleQuotes s) = true.
Proof.
  intros Hq. induction s as [| c s IH]; [reflexivity |].
  simpl. intros H. apply andb_true_iff in H as [Hc Hs].
  destruct (Ascii.eqb c dquote); simpl; now rewrite ?Hq, ?Hc, IH.
Qed.

Lemma csvCell_allChars (ok : ascii -> bool) (s : string) :
  ok dquote = true -> allChars ok s = true -> allChars ok (csvCell s) = true.
Proof.
  intros Hq Hs. unfold csvCell, DQ.
  rewrite !allChars_append. simpl.
  now rewrite Hq, (doubleQuotes_allChars ok s Hq Hs).
Qed.

Lemma csvRow_noLineFeed (row : list string) :
  Forall (fun cell => noLineFeed cell = true) row ->
  noLineFeed (csvRow row) = true.
Proof.
  intros H. unfold noLineFeed, csvRow.
  apply allChars_join; [reflexivity |].
  apply Forall_map. eapply Forall_impl; [| exact H].
  intros cell Hcell. now apply csvCell_allChars.
Qed.

Lemma csvRow_shape (cell : string) (cells : list string) :
  exists body,
    csvRow (cell :: cells) = String dquote (body ++ String dquote EmptyString).
Proof.
  revert cell. induction cells as [| next cells IH]; intros cell.
  - exists (Js.doubleQuotes cell). reflexivity.
  - destruct (IH next) as [body Hbody].
    exists (Js.doubleQuotes cell ++ String dquote (String comma (String dquote body)))%string.
    unfold csvRow, Js.join in *.
    change (String.concat "," (map csvCell (cell :: next :: cells)))
      with (csvCell cell
            ++ String comma (String.concat "," (map csvCell (next :: cells))))%string.
    rewrite Hbody. unfold csvCell, DQ. cbn [append].
    rewrite !append_assoc. reflexivity.
Qed.

Lemma lastIsCR_end (r : string) (d : ascii) :
  lastIsCR (r ++ String d EmptyString) = Ascii.eqb d CR.
Proof.
  induction r as [| c r IH]; [reflexivity |].
  cbn [append lastIsCR]. rewrite IH.
  destruct (r ++ String d EmptyString)%string eqn:E; [| reflexivity].
  destruct r; discriminate.
Qed.

(** A row of cells written by the export is one line that the importer
    keeps: it has no line break of its own, does not end with a carriage
    return, is not blank and does not start with the word Instructions. *)
Lemma csvRow_line (cell : string) (cells : list string) :
  Forall (fun c => noLineFeed c = true) (cell :: cells) ->
  noLineFeed (csvRow (cell :: cells)) = true
  /\ lastIsCR (csvRow (cell :: cells)) = false
  /\ Js.isEmpty (Js.trim (csvRow (cell :: cells))) = false
  /\ Js.startsWith (csvRow (cell :: cells)) "Instructions:" = false.
Proof.
  intros H. split; [now apply csvRow_noLineFeed |].
  destruct (csvRow_shape cell cells) as [body ->].
  split; [| split].
  - exact (lastIsCR_end (String dquote body) dquote).
  - now apply trim_nonblank.
  - reflexivity.
Qed.

(** ** Export, remap, import *)

Lemma violatesSchema_object (attributes : JSON) :
  violatesSchema attributes = false -> exists props, attributes = JObj props.
Proof.
  destruct attributes as [| b | n | s | items | props]; try discriminate.
  intros _. now exists props.
Qed.

Lemma parseCSVLine_row (cell : string) (cells : list string) :
  parseCSVLine (csvRow (cell :: cells)) = map Js.trim (cell :: cells).
Proof. unfold parseCSVLine. now rewrite parse_row. Qed.

(** The row the importer makes of a record. *)
Lemma importRows_exported (file : File.t) (rest : list string)
    (updates : list Update.t) :
  reimportable file = true ->
  importRows (csvRow (remapRow (rowCells file)) :: rest) updates
  = importRows rest
      (updates ++ [Update.mk (cleanFileName (Js.trim (exportName file)))
                     (File.attributes file)]).
Proof.
  unfold reimportable. intros H.
  apply andb_true_iff in H as [H Hschema].
  apply andb_true_iff in H as [H Hplain].
  apply andb_true_iff in H as [H Hwf].
  apply andb_true_iff in H as [Hlf Hname].
  apply negb_true_iff in Hschema, Hname.
  destruct (violatesSchema_object _ Hschema) as [props Hprops].
  change (remapRow (rowCells file))
    with [exportName file; Json.stringify (File.attributes file)].
  assert (Hcells : Forall (fun c => noLineFeed c = true)
                     [exportName file; Json.stringify (File.attributes file)]).
  { repeat constructor; [exact Hlf |].
    unfold noLineFeed.
    apply (allChars_impl textChar); [| now apply stringify_text].
    intros c Hc. unfold textChar in Hc.
    now apply andb_true_iff in Hc as [Hc _]. }
  destruct (csvRow_line _ _ Hcells) as (_ & _ & Hblank & Hinstr).
  cbn [importRows]. rewrite Hblank, Hinstr. cbn [orb].
  rewrite (parseCSVLine_row (exportName file)
             [Json.stringify (File.attributes file)]).
  cbn [map]. rewrite Hname.
  unfold decodeAttributes.
  rewrite Hprops in *.
  destruct (cleanAttributes_object props Hplain) as [Htrim Hclean].
  rewrite Htrim, Hclean. unfold JSON_parse.
  rewrite (parse_stringify _ Hwf Hplain). cbv iota. rewrite bind_ret.
  rewrite (validateMetadata_accepts _ _ Hschema). reflexivity.
Qed.

Lemma importRows_all_exported (files : list File.t) (updates : list Update.t) :
  forallb reimportable files = true ->
  importRows (map (fun file => csvRow (remapRow (rowCells file))) files) updates
  = inr (updates
         ++ map (fun file =>
                   Update.mk (cleanFileName (Js.trim (exportName file)))
                     (File.attributes file)) files).
Proof.
  revert updates. induction files as [| file files IH]; intros updates H.
  - simpl. now rewrite List.app_nil_r.
  - simpl in H. apply andb_true_iff in H as [Hfile Hfiles].
    cbn [map]. rewrite (importRows_exported file _ _ Hfile).
    rewrite (IH _ Hfiles). now rewrite <- app_assoc.
Qed.

Lemma importLines_exported (files : list File.t) :
  forallb reimportable files = true ->
  importLines (csvDocument (map remapRow (renderedRows files)))
  = csvRow ["File Name"; "Attributes"]
    :: map (fun file => csvRow (remapRow (rowCells file))) files.
Proof.
  intros H. unfold importLines, csvDocument, renderedRows.
  cbn [map]. change (remapRow exportHeaders) with ["File Name"; "Attributes"].
  rewrite !map_map.
  assert (Hlines : Forall (fun x => noLineFeed x = true /\ lastIsCR x = false
                                    /\ Js.isEmpty (Js.trim x) = false)
                     (csvRow ["File Name"; "Attributes"]
                      :: map (fun file => csvRow (remapRow (rowCells file))) files)).
  { constructor; [repeat split |].
    apply Forall_map. apply Forall_forall. intros file Hfile.
    rewrite forallb_forall in H. specialize (H file Hfile).
    unfold reimportable in H.
    apply andb_true_iff in H as [H _]. apply andb_true_iff in H as [H Hplain].
    apply andb_true_iff in H as [H _]. apply andb_true_iff in H as [Hlf _].
    change (remapRow (rowCells file))
      with [exportName file; Json.stringify (File.attributes file)].
    assert (Hcells : Forall (fun c => noLineFeed c = true)
                       [exportName file; Json.stringify (File.attributes file)]).
    { repeat constructor; [exact Hlf |].
      unfold noLineFeed.
      apply (allChars_impl textChar); [| now apply stringify_text].
      intros c Hc. unfold textChar in Hc.
      now apply andb_true_iff in Hc as [Hc _]. }
    destruct (csvRow_line _ _ Hcells) as (H1 & H2 & H3 & _). now repeat split. }
  rewrite splitLines_join.
  - apply forallb_filter_id. apply forallb_forall. intros x Hx.
    rewrite Forall_forall in Hlines. destruct (Hlines x Hx) as (_ & _ & Hx3).
    now rewrite Hx3.
  - eapply Forall_impl; [| exact Hlines]. intros x (H1 & H2 & _). now split.
Qed.

(** C2 (as amended) - for a file list that is not empty and whose records
    are all [reimportable] (a name on one line that the importer's
    clean-up does not empty; attributes that satisfy the import schema
    and whose keys and strings need no escape in JSON), exporting,
    keeping the File Name and Attributes columns and importing again is
    accepted by the parser and gives one row for each record, in order,
    with the record's attributes.  The export produces its text whenever
    [Date] renders every creation time, and the statement holds of every
    text it produces. *)
Theorem export_import_roundtrip (files : list File.t) :
  files <> [] ->
  forallb reimportable files = true ->
  (forallb renderable files = true ->
   exists text, remapExport files = inr text)
  /\ forall text,
      remapExport files = inr text ->
      exists updates,
        parseImport text = inr updates
        /\ map Update.attributes updates = map File.attributes files
        /\ map Update.fileName updates
           = map (fun file => cleanFileName (Js.trim (exportName file))) files.
Proof.
  intros Hne H. split.
  { intros Hr. rewrite remapExport_rendered, Hr. now eexists. }
  intros text Htext. apply remapExport_text in Htext as [_ ->].
  exists (map (fun file =>
                 Update.mk (cleanFileName (Js.trim (exportName file)))
                   (File.attributes file)) files).
  split; [| split].
  - unfold parseImport. rewrite (importLines_exported files H).
    change (checkHeader (parseCSVLine (csvRow ["File Name"; "Attributes"])))
      with (@inr Exn unit tt).
    rewrite bind_ret.
    rewrite (importRows_all_exported files [] H). rewrite bind_ret.
    destruct files as [| file files]; [contradiction | reflexivity].
  - rewrite map_map. reflexivity.
  - rewrite map_map. reflexivity.
Qed.

(** ** The fuel of [Json.parse] is never the reason of a failure *)

Lemma parseValue_step (fuel : nat) (s : string) :
  Json.parseValue (S fuel) s
  = match Json.skipWs s with
    | EmptyString => None
    | String c r =>
        if Ascii.eqb c "{"%char then
          match Json.skipWs r with
          | String c' r' =>
              if Ascii.eqb c' "}"%char then Some (JObj [], r')
              else Json.parseMembers fuel r []
          | EmptyString => None
          end
        else if Ascii.eqb c "["%char then
          match Json.skipWs r with
          | String c' r' =>
              if Ascii.eqb c' "]"%char then Some (JArr [], r')
              else Json.parseElements fuel r []
          | EmptyString => None
          end
        else if Ascii.eqb c dquote then
          match Json.parseStringBody r with
          | Some (str, rest) => Some (JStr str, rest)
          | None => None
          end
        else Json.parseLiteral (String c r)
    end.
Proof. reflexivity. Qed.

Lemma parseMembers_unfold (fuel : nat) (s : string) (acc : list (string * JSON)) :
  Json.parseMembers (S fuel) s acc
  = match Json.skipWs s with
    | String q r =>
        if Ascii.eqb q dquote then
          match Json.parseStringBody r with
          | Some (k, rest) =>
              match Json.skipWs rest with
              | String c rest' =>
                  if Ascii.eqb c ":"%char then
                    match Json.parseValue fuel rest' with
                    | Some (v, rest2) =>
                        match Json.skipWs rest2 with
                        | String c2 rest3 =>
                            if Ascii.eqb c2 ","%char
                            then Json.parseMembers fuel rest3 (Json.setProp k v acc)
                            else if Ascii.eqb c2 "}"%char
                            then Some (JObj (Json.setProp k v acc), rest3)
                            else None
                        | EmptyString => None
                        end
                    | None => None
                    end
                  else None
              | EmptyString => None
              end
          | None => None
          end
        else None
    | EmptyString => None
    end.
Proof. reflexivity. Qed.

Lemma skipWs_length (s : string) :
  String.length (Json.skipWs s) <= String.length s.
Proof.
  induction s as [| c s IH]; simpl; [lia |].
  destruct (Json.isWs c); simpl; lia.
Qed.

Lemma consChar_some (c : ascii) (r : option (string * string))
    (str rest : string) :
  Json.consChar c r = Some (str, rest) -> exists str', r = Some (str', rest).
Proof.
  destruct r as [[str' rest'] |]; [| discriminate].
  intros H. injection H as _ <-. now exists str'.
Qed.

Lemma parseStringBody_shorter (n : nat) (s str rest : string) :
  String.length s <= n ->
  Json.parseStringBody s = Some (str, rest) ->
  String.length rest < String.length s.
Proof.
  revert s str rest. induction n as [| n IH]; intros s str rest Hn H.
  - destruct s; [discriminate | simpl in Hn; lia].
  - destruct s as [| c r]; [discriminate |].
    cbn [Json.parseStringBody] in H. simpl String.length in *.
    destruct (Ascii.eqb c dquote).
    { injection H as _ <-. lia. }
    destruct (Ascii.eqb c backslash).
    + destruct r as [| e r1]; [discriminate |].
      destruct (Ascii.eqb e "u").
      * destruct r1 as [| h1 [| h2 [| h3 [| h4 r5]]]]; try discriminate.
        destruct (Json.unicodeEscape h1 h2 h3 h4); [| discriminate].
        apply consChar_some in H as [str' H].
        simpl String.length in *.
        apply IH in H; lia.
      * destruct (Json.simpleEscape e); [| discriminate].
        apply consChar_some in H as [str' H].
        simpl String.length in *.
        apply IH in H; lia.
    + destruct (N.ltb (N_of_ascii c) 32); [discriminate |].
      apply consChar_some in H as [str' H].
      apply IH in H; lia.
Qed.

Lemma spanDigits_length (s digits rest : string) :
  Json.spanDigits s = (digits, rest) ->
  String.length s = String.length digits + String.length rest.
Proof.
  revert digits rest. induction s as [| c s IH]; intros digits rest H; simpl in H.
  - now injection H as <- <-.
  - destruct (Json.isDigit c).
    + destruct (Json.spanDigits s) as [d r]. injection H as <- <-.
      simpl. now rewrite (IH d r eq_refl).
    + now injection H as <- <-.
Qed.

Lemma parseDigits_shorter (s : string) (z : Z) (rest : string) :
  Json.parseDigits s = Some (z, rest) -> String.length rest < String.length s.
Proof.
  unfold Json.parseDigits.
  destruct (Json.spanDigits s) as [digits r] eqn:E.
  apply spanDigits_length in E. intros H.
  destruct digits as [| c [| c2 more]]; [discriminate | |].
  - destruct (Json.startsFraction r); [discriminate |].
    destruct (NilEmpty.uint_of_string _); [| discriminate].
    injection H as _ <-. simpl in E. lia.
  - destruct (Ascii.eqb c "0"); [discriminate |].
    destruct (Json.startsFraction r); [discriminate |].
    destruct (NilEmpty.uint_of_string _); [| discriminate].
    injection H as _ <-. simpl in E. lia.
Qed.

Lemma parseNumber_shorter (s : string) (z : Z) (rest : string) :
  Json.parseNumber s = Some (z, rest) -> String.length rest < String.length s.
Proof.
  unfold Json.parseNumber. destruct s as [| c r]; [discriminate |].
  destruct (Ascii.eqb c "-").
  - destruct (Json.parseDigits r) as [[z' rest'] |] eqn:E; [| discriminate].
    intros H. injection H as _ <-. apply parseDigits_shorter in E. simpl. lia.
  - apply parseDigits_shorter.
Qed.

Lemma dropPrefix_length (p s r : string) :
  Json.dropPrefix p s = Some r ->
  String.length s = String.length p + String.length r.
Proof.
  revert s. induction p as [| a p IH]; intros s H; simpl in H.
  - now injection H as <-.
  - destruct s as [| b s]; [discriminate |].
    destruct (Ascii.eqb a b); [| discriminate].
    simpl. now rewrite (IH s H).
Qed.

Lemma parseLiteral_shorter (s : string) (v : JSON) (rest : string) :
  Json.parseLiteral s = Some (v, rest) -> String.length rest < String.length s.
Proof.
  unfold Json.parseLiteral.
  destruct (Json.dropPrefix "null" s) eqn:E1.
  { intros H. injection H as _ <-. apply dropPrefix_length in E1. simpl in E1. lia. }
  destruct (Json.dropPrefix "true" s) eqn:E2.
  { intros H. injection H as _ <-. apply dropPrefix_length in E2. simpl in E2. lia. }
  destruct (Json.dropPrefix "false" s) eqn:E3.
  { intros H. injection H as _ <-. apply dropPrefix_length in E3. simpl in E3. lia. }
  destruct (Json.parseNumber s) as [[z r] |] eqn:E; [| discriminate].
  intros H. injection H as _ <-. now apply parseNumber_shorter in E.
Qed.

Lemma skipWs_cons (s : string) (c : ascii) (r : string) :
  Json.skipWs s = String c r -> S (String.length r) <= String.length s.
Proof.
  intros H. pose proof (skipWs_length s) as Hl. rewrite H in Hl. exact Hl.
Qed.

(** A successful read consumes at least one character. *)
Lemma parse_shorter (fuel : nat) :
  (forall s v rest,
      Json.parseValue fuel s = Some (v, rest) ->
      String.length rest < String.length s)
  /\ (forall s acc v rest,
      Json.parseElements fuel s acc = Some (v, rest) ->
      String.length rest < String.length s)
  /\ (forall s acc v rest,
      Json.parseMembers fuel s acc = Some (v, rest) ->
      String.length rest < String.length s).
Proof.
  induction fuel as [| fuel (IHv & IHe & IHm)].
  - repeat split; intros; discriminate.
  - split; [| split].
    + intros s v rest H. rewrite parseValue_step in H.
      destruct (Json.skipWs s) as [| c r] eqn:Es; [discriminate |].
      apply skipWs_cons in Es.
      destruct (Ascii.eqb c "{").
      { destruct (Json.skipWs r) as [| c' r'] eqn:Er; [discriminate |].
        apply skipWs_cons in Er.
        destruct (Ascii.eqb c' "}").
        - injection H as _ <-. lia.
        - apply IHm in H. lia. }
      destruct (Ascii.eqb c "[").
      { destruct (Json.skipWs r) as [| c' r'] eqn:Er; [discriminate |].
        apply skipWs_cons in Er.
        destruct (Ascii.eqb c' "]").
        - injection H as _ <-. lia.
        - apply IHe in H. lia. }
      destruct (Ascii.eqb c dquote).
      { destruct (Json.parseStringBody r) as [[str rest'] |] eqn:Eb;
          [| discriminate].
        injection H as _ <-.
        apply (parseStringBody_shorter _ _ _ _ (le_n _)) in Eb. lia. }
      apply parseLiteral_shorter in H. simpl in H. lia.
    + intros s acc v rest H. rewrite parseElements_step in H.
      destruct (Json.parseValue fuel s) as [[v1 r1] |] eqn:Ev; [| discriminate].
      apply IHv in Ev.
      destruct (Json.skipWs r1) as [| c r2] eqn:E1; [discriminate |].
      apply skipWs_cons in E1.
      destruct (Ascii.eqb c ",").
      { apply IHe in H. lia. }
      destruct (Ascii.eqb c "]"); [| discriminate].
      injection H as _ <-. lia.
    + intros s acc v rest H. rewrite parseMembers_unfold in H.
      destruct (Json.skipWs s) as [| q r] eqn:Es; [discriminate |].
      apply skipWs_cons in Es.
      destruct (Ascii.eqb q dquote); [| discriminate].
      destruct (Json.parseStringBody r) as [[k r1] |] eqn:Eb; [| discriminate].
      apply (parseStringBody_shorter _ _ _ _ (le_n _)) in Eb.
      destruct (Json.skipWs r1) as [| c r2] eqn:E1; [discriminate |].
      apply skipWs_cons in E1.
      destruct (Ascii.eqb c ":"); [| discriminate].
      destruct (Json.parseValue fuel r2) as [[x r3] |] eqn:Ev; [| discriminate].
      apply IHv in Ev.
      destruct (Json.skipWs r3) as [| c2 r4] eqn:E3; [discriminate |].
      apply skipWs_cons in E3.
      destruct (Ascii.eqb c2 ",").
      { apply IHm in H. lia. }
      destruct (Ascii.eqb c2 "}"); [| discriminate].
      injection H as _ <-. lia.
Qed.

(** Two units of fuel for each character read are enough. *)
Lemma parse_enough (fuel : nat) :
  (forall s v rest m,
      Json.parseValue fuel s = Some (v, rest) ->
      2 * (String.length s - String.length rest) <= S m ->
      Json.parseValue (S m) s = Some (v, rest))
  /\ (forall s acc v rest m,
      Json.parseElements fuel s acc = Some (v, rest) ->
      2 * (String.length s - String.length rest) <= S m ->
      Json.parseElements (S m) s acc = Some (v, rest))
  /\ (forall s acc v rest m,
      Json.parseMembers fuel s acc = Some (v, rest) ->
      2 * (String.length s - String.length rest) <= S m ->
      Json.parseMembers (S m) s acc = Some (v, rest)).
Proof.
  induction fuel as [| fuel (IHv & IHe & IHm)].
  - repeat split; intros; discriminate.
  - destruct (parse_shorter fuel) as (Sv & Se & Sm).
    split; [| split].
    + intros s v rest m H Hm. rewrite parseValue_step in *.
      destruct (Json.skipWs s) as [| c r] eqn:Es; [discriminate |].
      apply skipWs_cons in Es.
      destruct (Ascii.eqb c "{").
      { destruct (Json.skipWs r) as [| c' r'] eqn:Er; [discriminate |].
        destruct (Ascii.eqb c' "}"); [exact H |].
        pose proof (Sm _ _ _ _ H) as Hs.
        destruct m as [| m]; [lia |].
        apply (IHm _ _ _ _ _ H). lia. }
      destruct (Ascii.eqb c "[").
      { destruct (Json.skipWs r) as [| c' r'] eqn:Er; [discriminate |].
        destruct (Ascii.eqb c' "]"); [exact H |].
        pose proof (Se _ _ _ _ H) as Hs.
        destruct m as [| m]; [lia |].
        apply (IHe _ _ _ _ _ H). lia. }
      exact H.
    + intros s acc v rest m H Hm. rewrite parseElements_step in H.
      destruct (Json.parseValue fuel s) as [[v1 r1] |] eqn:Ev; [| discriminate].
      pose proof (Sv _ _ _ Ev) as Hs1.
      destruct (Json.skipWs r1) as [| c r2] eqn:E1; [discriminate |].
      pose proof (skipWs_cons _ _ _ E1) as Hl1.
      assert (Hrest : String.length rest <= String.length r2).
      { destruct (Ascii.eqb c ",").
        - apply Se in H. lia.
        - destruct (Ascii.eqb c "]"); [| discriminate].
          injection H as _ <-. lia. }
      destruct m as [| m]; [lia |].
      rewrite parseElements_step.
      rewrite (IHv _ _ _ m Ev) by lia. rewrite E1.
      destruct (Ascii.eqb c ","); [| exact H].
      pose proof (Se _ _ _ _ H) as Hs2.
      apply (IHe _ _ _ _ _ H). lia.
    + intros s acc v rest m H Hm. rewrite parseMembers_unfold in H.
      destruct (Json.skipWs s) as [| q r] eqn:Es; [discriminate |].
      pose proof (skipWs_cons _ _ _ Es) as Hl0.
      destruct (Ascii.eqb q dquote) eqn:Eq; [| discriminate].
      destruct (Json.parseStringBody r) as [[k r1] |] eqn:Eb; [| discriminate].
      pose proof (parseStringBody_shorter _ _ _ _ (le_n _) Eb) as Hlb.
      destruct (Json.skipWs r1) as [| c r2] eqn:E1; [discriminate |].
      pose proof (skipWs_cons _ _ _ E1) as Hl1.
      destruct (Ascii.eqb c ":") eqn:Ec; [| discriminate].
      destruct (Json.parseValue fuel r2) as [[x r3] |] eqn:Ev; [| discriminate].
      pose proof (Sv _ _ _ Ev) as Hs3.
      destruct (Json.skipWs r3) as [| c2 r4] eqn:E3; [discriminate |].
      pose proof (skipWs_cons _ _ _ E3) as Hl3.
      assert (Hrest : String.length rest <= String.length r4).
      { destruct (Ascii.eqb c2 ",").
        - apply Sm in H. lia.
        - destruct (Ascii.eqb c2 "}"); [| discriminate].
          injection H as _ <-. lia. }
      destruct m as [| m]; [lia |].
      rewrite parseMembers_unfold, Es, Eq, Eb, E1, Ec.
      rewrite (IHv _ _ _ m Ev) by lia. rewrite E3.
      destruct (Ascii.eqb c2 ","); [| exact H].
      pose proof (Sm _ _ _ _ H) as Hs4.
      apply (IHm _ _ _ _ _ H). lia.
Qed.

(** Whatever [Json.parseValue] reads with some amount of fuel, it reads
    with the fuel that [Json.parse] gives it: a [None] of [Json.parse]
    is never a lack of fuel. *)
Lemma parse_fuel_adequate (fuel : nat) (text : string) (v : JSON)
    (rest : string) :
  Json.parseValue fuel text = Some (v, rest) ->
  Json.parseValue (2 * String.length text + 2) text = Some (v, rest).
Proof.
  intros H.
  replace (2 * String.length text + 2) with (S (2 * String.length text + 1))
    by lia.
  destruct (parse_enough fuel) as (Hv & _ & _).
  apply (Hv _ _ _ _ H). lia.
Qed.

(** * Further properties *)

(** ** Fields of a line *)

Lemma trimEnd_head (c : ascii) (r : string) :
  Js.isWhiteSpace c = false ->
  exists r', Js.trimEnd (String c r) = String c r'.
Proof.
  intros Hc. simpl. rewrite Hc. now eexists.
Qed.

Lemma trimEnd_idempotent (s : string) :
  Js.trimEnd (Js.trimEnd s) = Js.trimEnd s.
Proof.
  induction s as [| c s IH]; [reflexivity |].
  cbn [Js.trimEnd].
  destruct (Js.isWhiteSpace c && Js.isEmpty (Js.trimEnd s)) eqn:E;
    [reflexivity |].
  cbn [Js.trimEnd]. rewrite IH, E. reflexivity.
Qed.

Lemma trimStart_shape (s : string) :
  Js.trimStart s = EmptyString
  \/ exists c r, Js.trimStart s = String c r /\ Js.isWhiteSpace c = false.
Proof.
  induction s as [| c s IH]; [now left |].
  simpl. destruct (Js.isWhiteSpace c) eqn:E; [exact IH |].
  right. now exists c, s.
Qed.

Lemma trim_idempotent (s : string) : Js.trim (Js.trim s) = Js.trim s.
Proof.
  unfold Js.trim.
  destruct (trimStart_shape s) as [-> | (c & r & -> & Hc)]; [reflexivity |].
  destruct (trimEnd_head c r Hc) as [r' E]. rewrite E.
  simpl Js.trimStart. rewrite Hc. rewrite <- E.
  apply trimEnd_idempotent.
Qed.

Lemma parseCSVLine_loop_fields (n : nat) :
  forall text cell inQuotes result,
    String.length text <= n ->
    exists fields,
      parseCSVLine_loop text cell inQuotes result = result ++ fields
      /\ fields <> []
      /\ Forall (fun field => Js.trim field = field) fields.
Proof.
  assert (Hlast : forall cell result,
             exists fields,
               result ++ [Js.trim cell] = result ++ fields
               /\ fields <> []
               /\ Forall (fun field => Js.trim field = field) fields).
  { intros cell result. exists [Js.trim cell].
    repeat split; [discriminate |].
    constructor; [apply trim_idempotent | constructor]. }
  induction n as [| n IH]; intros text cell inQuotes result Hn.
  - destruct text; [apply Hlast | simpl in Hn; lia].
  - destruct text as [| char rest]; [apply Hlast |].
    simpl in Hn. cbn [parseCSVLine_loop].
    destruct (Ascii.eqb char dquote).
    + destruct rest as [| next rest'].
      * apply Hlast.
      * destruct (inQuotes && Ascii.eqb next dquote).
        -- apply IH. simpl in Hn. lia.
        -- apply IH. lia.
    + destruct (Ascii.eqb char comma && negb inQuotes).
      * destruct (IH rest EmptyString inQuotes (result ++ [Js.trim cell])
                    ltac:(lia))
          as (fields & E & _ & Hall).
        exists (Js.trim cell :: fields).
        rewrite E, <- app_assoc. repeat split; [discriminate |].
        constructor; [apply trim_idempotent | exact Hall].
      * apply IH. lia.
Qed.

Lemma splitCommas_nonempty (s : string) : splitCommas s <> [].
Proof.
  induction s as [| c s IH]; simpl; [discriminate |].
  destruct (Ascii.eqb c comma); [discriminate |].
  destruct (splitCommas s); discriminate.
Qed.

Lemma parseCSVLine_loop_unquoted (line cell : string) (result : list string) :
  noQuote line = true ->
  parseCSVLine_loop line cell false result
  = result
    ++ match splitCommas line with
       | [] => []
       | piece :: pieces => Js.trim (cell ++ piece) :: map Js.trim pieces
       end.
Proof.
  unfold noQuote. revert cell result.
  induction line as [| c line IH]; intros cell result H.
  - simpl. now rewrite append_empty_r.
  - simpl in H. apply andb_true_iff in H as [Hc H].
    apply negb_true_iff in Hc.
    cbn [parseCSVLine_loop splitCommas]. rewrite Hc.
    destruct (Ascii.eqb c comma).
    + cbn [andb negb]. rewrite (IH _ _ H), append_empty_r, <- app_assoc.
      pose proof (splitCommas_nonempty line) as Hne.
      destruct (splitCommas line) as [| piece pieces]; [contradiction |].
      reflexivity.
    + cbn [andb]. rewrite (IH _ _ H).
      pose proof (splitCommas_nonempty line) as Hne.
      destruct (splitCommas line) as [| piece pieces]; [contradiction |].
      now rewrite append_char.
Qed.

(** X1 - [parseCSVLine] always gives at least one field, and no field has
    white space at either end; on a line without double quotes the fields
    are the pieces between the commas, each trimmed. *)
Theorem parseCSVLine_fields (line : string) :
  parseCSVLine line <> []
  /\ Forall (fun field => Js.trim field = field) (parseCSVLine line)
  /\ (noQuote line = true -> parseCSVLine line = map Js.trim (splitCommas line)).
Proof.
  unfold parseCSVLine.
  destruct (parseCSVLine_loop_fields _ line EmptyString false [] (le_n _))
    as (fields & E & Hne & Hall).
  simpl in E. split; [now rewrite E |]. split; [now rewrite E |].
  intros Hq. rewrite (parseCSVLine_loop_unquoted _ _ _ Hq). simpl.
  pose proof (splitCommas_nonempty line) as Hs.
  destruct (splitCommas line); [contradiction | reflexivity].
Qed.

(** ** Line endings *)

Lemma splitLines_line_crlf (l rest : string) :
  noLineFeed l = true ->
  Js.splitLines (l ++ String CR (String LF rest)) = l :: Js.splitLines rest.
Proof.
  unfold noLineFeed. induction l as [| c l IH]; intros Hlf.
  - reflexivity.
  - simpl in Hlf. apply andb_true_iff in Hlf as [Hc Hlf].
    apply negb_true_iff in Hc.
    cbn [append Js.splitLines]. rewrite Hc.
    destruct l as [| c2 l].
    + cbn [append]. change (Ascii.eqb CR LF) with false.
      rewrite andb_false_r.
      change (Js.splitLines (String CR (String LF rest)))
        with (EmptyString :: Js.splitLines rest).
      reflexivity.
    + cbn [append].
      assert (Hc2 : Ascii.eqb c2 LF = false).
      { simpl in Hlf. apply andb_true_iff in Hlf as [Hc2 _].
        now apply negb_true_iff in Hc2. }
      rewrite Hc2, andb_false_r.
      change (String c2 (l ++ String CR (String LF rest)))
        with (String c2 l ++ String CR (String LF rest))%string.
      rewrite (IH Hlf). reflexivity.
Qed.

Lemma splitLines_join_crlf (l : string) (ls : list string) :
  Forall (fun x => noLineFeed x = true) (l :: ls) ->
  Js.splitLines (Js.join CRLF (l :: ls)) = l :: ls.
Proof.
  unfold Js.join. revert l. induction ls as [| l2 ls IH]; intros l H.
  - inversion H; subst. now apply splitLines_last.
  - inversion H as [| ? ? Hlf Hrest]; subst.
    change (String.concat CRLF (l :: l2 :: ls))
      with (l ++ String CR (String LF (String.concat CRLF (l2 :: ls))))%string.
    rewrite (splitLines_line_crlf l _ Hlf). now rewrite IH.
Qed.

(** X2 - a sheet whose lines are separated by carriage return and line
    feed is read exactly as the same lines separated by line feeds: the
    lines that are not blank, and the same result of the parse stage. *)
Theorem import_line_endings (l : string) (ls : list string) :
  Forall (fun x => noLineFeed x = true /\ lastIsCR x = false) (l :: ls) ->
  importLines (Js.join CRLF (l :: ls))
  = filter (fun line => negb (Js.isEmpty (Js.trim line))) (l :: ls)
  /\ importLines (Js.join CRLF (l :: ls)) = importLines (Js.join newline (l :: ls))
  /\ parseImport (Js.join CRLF (l :: ls)) = parseImport (Js.join newline (l :: ls)).
Proof.
  intros H.
  assert (Hcrlf : Js.splitLines (Js.join CRLF (l :: ls)) = l :: ls).
  { apply splitLines_join_crlf. eapply Forall_impl; [| exact H].
    now intros x [Hx _]. }
  assert (Hlf : Js.splitLines (Js.join newline (l :: ls)) = l :: ls)
    by now apply splitLines_join.
  unfold parseImport, importLines. rewrite Hcrlf, Hlf. repeat split.
Qed.

(** ** The export as a text *)

Lemma headerLine_first (rows : list (list string)) :
  exists rest,
    importLines (csvDocument (exportHeaders :: rows))
    = csvRow exportHeaders :: rest.
Proof.
  unfold importLines, csvDocument, Js.join.
  destruct rows as [| row rows].
  - exists []. reflexivity.
  - assert (E : String.concat (String LF EmptyString)
                  (map csvRow (exportHeaders :: row :: rows))
                = (csvRow exportHeaders
                   ++ String LF (String.concat (String LF EmptyString)
                                   (map csvRow (row :: rows))))%string)
      by reflexivity.
    rewrite E. rewrite splitLines_line by reflexivity.
    cbn [filter].
    change (negb (Js.isEmpty (Js.trim (csvRow exportHeaders)))) with true.
    cbv iota. now eexists.
Qed.

(** X3 - the text that CSV Export produces is never accepted by the
    import as it is: whatever the file list, the import stops at the
    header with the InvalidFormat error, because the second column of
    the export is the file id.  The export produces its text whenever
    [Date] renders every creation time, and the statement holds of every
    text it produces. *)
Theorem export_not_importable (p : Page.t) (files : list File.t) :
  (forallb renderable files = true ->
   exists text, handleExportFiles files = inr text)
  /\ forall text,
      handleExportFiles files = inr text ->
      parseImport text = inl invalidFormat
      /\ handleImportFiles p (Some text)
         = Run.mk (setImportSummary
                     (Summary.failure
                        "Invalid CSV format. Required columns: File Name, Attributes")
                     p) [] [].
Proof.
  split.
  { intros Hr. rewrite handleExportFiles_rendered, Hr. now eexists. }
  intros text Htext. apply handleExportFiles_text in Htext as [_ ->].
  assert (Hparse : parseImport (csvDocument (renderedRows files))
                   = inl invalidFormat).
  { unfold parseImport, renderedRows.
    destruct (headerLine_first (map rowCells files)) as [rest ->].
    reflexivity. }
  split; [exact Hparse |].
  now rewrite (handleImportFiles_aborted p _ _ Hparse).
Qed.

(** ** Rows of the parse stage *)

(** X4 - a data row that has a file name but whose attributes cell is
    empty after the clean-up stops the whole import: [JSON.parse] of the
    empty text throws, no request is sent, and the summary names the
    row.  The template offered for download has such rows (its
    Instructions block is written between quotes, so the test on the
    word Instructions does not skip it). *)
Theorem blank_attributes_abort (p : Page.t) (text header line : string)
    (before after : list string) (earlier : list Update.t)
    (cell0 cell1 : string) (more : list string) :
  importLines text = header :: before ++ line :: after ->
  checkHeader (parseCSVLine header) = inr tt ->
  importRows before [] = inr earlier ->
  Js.isEmpty (Js.trim line) || Js.startsWith line "Instructions:" = false ->
  parseCSVLine line = cell0 :: cell1 :: more ->
  Js.isEmpty (cleanFileName cell0) = false ->
  cleanAttributes cell1 = EmptyString ->
  handleImportFiles p (Some text)
  = Run.mk (setImportSummary
              (Summary.failure
                 ("Invalid JSON in attributes for file " ++ DQ
                  ++ cleanFileName cell0 ++ DQ ++ ": "
                  ++ engineMessage (SyntaxError_JSON EmptyString))) p)
      [] [].
Proof.
  intros Hlines Hheader Hbefore Hdata Hcells Hname Hblank.
  apply handleImportFiles_aborted with
    (error := rowError (cleanFileName cell0)
                (Engine (SyntaxError_JSON EmptyString))).
  unfold parseImport. rewrite Hlines, Hheader, bind_ret.
  rewrite importRows_app, Hbefore, bind_ret.
  cbn [importRows]. rewrite Hdata, Hcells, Hname.
  unfold decodeAttributes. rewrite Hblank. reflexivity.
Qed.

Lemma validateMetadata_passed (attributes : JSON) (fileName : string) :
  validateMetadata attributes fileName = inr tt ->
  violatesSchema attributes = false.
Proof.
  intros H. destruct (violatesSchema attributes) eqn:E; [| reflexivity].
  destruct (validateMetadata_violation attributes fileName E) as [e He].
  congruence.
Qed.

Lemma importRows_rows (lines : list string) :
  forall acc updates,
    importRows lines acc = inr updates ->
    exists rows,
      updates = acc ++ rows
      /\ List.length rows <= List.length lines
      /\ Forall goodRow rows.
Proof.
  induction lines as [| line lines IH]; intros acc updates H.
  - simpl in H. injection H as <-. exists []. rewrite List.app_nil_r.
    repeat split; [simpl; lia | constructor].
  - assert (Hskip : importRows lines acc = inr updates ->
                    exists rows,
                      updates = acc ++ rows
                      /\ List.length rows <= List.length (line :: lines)
                      /\ Forall goodRow rows).
    { intros H'. destruct (IH _ _ H') as (rows & E & Hlen & Hall).
      exists rows. repeat split; [exact E | simpl; lia | exact Hall]. }
    cbn [importRows] in H.
    destruct (Js.isEmpty (Js.trim line) || Js.startsWith line "Instructions:");
      [now apply Hskip |].
    destruct (parseCSVLine line) as [| cell0 [| cell1 more]];
      try now apply Hskip.
    destruct (Js.isEmpty (cleanFileName cell0)) eqn:Hname; [now apply Hskip |].
    destruct (decodeAttributes cell1 (cleanFileName cell0))
      as [error | attributes] eqn:Hdecode; [discriminate |].
    destruct (IH _ _ H) as (rows & E & Hlen & Hall).
    exists (Update.mk (cleanFileName cell0) attributes :: rows).
    rewrite E, <- app_assoc. repeat split; [simpl; lia |].
    constructor; [| exact Hall].
    unfold decodeAttributes in Hdecode.
    destruct (JSON_parse (cleanAttributes cell1)) as [e | parsed];
      [discriminate |].
    rewrite bind_ret in Hdecode.
    destruct (validateMetadata parsed (cleanFileName cell0)) as [e | []] eqn:Hv;
      [discriminate |].
    rewrite bind_ret in Hdecode. injection Hdecode as <-.
    pose proof (validateMetadata_passed _ _ Hv) as Hschema.
    repeat split; simpl.
    + exact Hname.
    + apply trim_idempotent.
    + exact Hschema.
    + now apply violatesSchema_object.
Qed.

(** X5 - when the parse stage succeeds, it yields at least one row and
    fewer rows than the sheet has lines; every row has a file name that
    is not empty and has no white space at either end, and attributes
    that are an object satisfying the schema. *)
Theorem parseImport_rows (text : string) (updates : list Update.t) :
  parseImport text = inr updates ->
  updates <> []
  /\ List.length updates < List.length (importLines text)
  /\ Forall goodRow updates.
Proof.
  unfold parseImport. intros H.
  destruct (importLines text) as [| first rest]; [discriminate |].
  destruct (checkHeader (parseCSVLine first)) as [e | []]; [discriminate |].
  rewrite bind_ret in H.
  destruct (importRows rest []) as [e | rows] eqn:Hrows; [discriminate |].
  rewrite bind_ret in H.
  destruct (importRows_rows rest [] rows Hrows) as (rows' & E & Hlen & Hall).
  simpl in E. subst rows'.
  destruct rows as [| row rows]; [discriminate |].
  simpl in H. injection H as <-.
  repeat split; [discriminate | simpl in *; lia | exact Hall].
Qed.

(** ** The validator *)

(** X6 - [validateMetadata] accepts a value exactly when it does not
    violate the schema; on an object it reports, in this order, the
    missing required fields (all of them, in the order of the schema),
    then a [year] that is not a number, then a [status] outside the five
    values. *)
Theorem validateMetadata_decides (attributes : JSON) (fileName : string) :
  (validateMetadata attributes fileName = inr tt
   <-> violatesSchema attributes = false)
  /\ forall props,
      attributes = JObj props ->
      let missing :=
        filter (fun field => match Json.lookup field props with
                             | Some _ => false
                             | None => true
                             end) requiredFields in
      validateMetadata attributes fileName
      = match missing with
        | _ :: _ =>
            inl (Error ("File " ++ DQ ++ fileName ++ DQ
                        ++ " is missing required fields: "
                        ++ Js.join ", " missing))
        | [] =>
            if negb (isNumber (Json.lookup "year" props))
            then inl (Error ("File " ++ DQ ++ fileName ++ DQ
                             ++ ": year must be a number"))
            else if negb (includesValue validStatuses (Json.lookup "status" props))
            then inl (Error ("File " ++ DQ ++ fileName ++ DQ
                             ++ ": status must be one of: "
                             ++ "active, draft, superseded, withdrawn, legacy"))
            else inr tt
        end.
Proof.
  split.
  - split; [apply validateMetadata_passed | apply validateMetadata_accepts].
  - intros props -> missing. subst missing.
    unfold validateMetadata. rewrite missingFields_object, bind_ret.
    destruct (filter _ requiredFields) as [| field fields]; reflexivity.
Qed.

(** ** Requests of the reconciliation *)

Lemma reconcile_requests (files : list File.t) (updates : list Update.t) :
  forall summary sent,
    snd (reconcile files updates summary sent)
    = sent ++ map (fun row => patchOf (fst row) (Update.attributes (snd row)))
                (matchedRows files updates)
    /\ Summary.count (Summary.success (fst (reconcile files updates summary sent)))
       + Summary.count (Summary.errors (fst (reconcile files updates summary sent)))
       = Summary.count (Summary.success summary)
         + Summary.count (Summary.errors summary)
         + List.length (matchedRows files updates).
Proof.
  induction updates as [| update updates IH]; intros summary sent.
  - simpl. rewrite List.app_nil_r. split; [reflexivity | lia].
  - cbn [reconcile matchedRows].
    destruct (findFile files (Update.fileName update)) as [file |].
    + destruct (fetchPatch sent (patchOf file (Update.attributes update)))
        as [[|] | reason];
        match goal with
        | |- context [reconcile files updates ?s ?t] =>
            destruct (IH s t) as [Hsnd Hcount]
        end;
        rewrite Hsnd, Hcount, <- app_assoc; simpl; split; try reflexivity; lia.
    + destruct (IH (Summary.pushNotFound (Update.fileName update) summary) sent)
        as [Hsnd Hcount].
      rewrite Hsnd, Hcount. simpl. split; [reflexivity | lia].
Qed.

Lemma matchedRows_found (files : list File.t) (updates : list Update.t) :
  Forall (fun row =>
            In (snd row) updates
            /\ findFile files (Update.fileName (snd row)) = Some (fst row))
    (matchedRows files updates).
Proof.
  induction updates as [| update updates IH]; simpl; [constructor |].
  destruct (findFile files (Update.fileName update)) as [file |] eqn:E.
  - constructor; [simpl; auto |].
    eapply Forall_impl; [| exact IH]. simpl. intros row [H1 H2]. auto.
  - eapply Forall_impl; [| exact IH]. simpl. intros row [H1 H2]. auto.
Qed.

(** X7 - the requests of an import are those of the rows that find a
    record, one for each, in row order; each carries the row's
    attributes and the id and vector store id of the first record that
    matches the row's name; their number is the sum of the success and
    error counts, so a row that finds no record sends nothing. *)
Theorem import_requests (p : Page.t) (text : string) (updates : list Update.t) :
  parseImport text = inr updates ->
  let run := handleImportFiles p (Some text) in
  let summary := Page.importSummary (Run.page run) in
  Run.requests run
  = map (fun row => patchOf (fst row) (Update.attributes (snd row)))
      (matchedRows (Page.files p) updates)
  /\ List.length (Run.requests run)
     = Summary.count (Summary.success summary)
       + Summary.count (Summary.errors summary)
  /\ Forall (fun row =>
               In (snd row) updates
               /\ findFile (Page.files p) (Update.fileName (snd row))
                  = Some (fst row))
       (matchedRows (Page.files p) updates).
Proof.
  intros Hparse run summary. subst summary run.
  destruct (handleImportFiles_parsed p text updates Hparse) as [-> ->].
  destruct (reconcile_requests (Page.files p) updates Summary.initial [])
    as [Hsnd Hcount].
  rewrite Hsnd. simpl in *. rewrite length_map, Hcount.
  repeat split. apply matchedRows_found.
Qed.

(** ** Reading back any text of [JSON.stringify] *)

Lemma parseStringBody_escapeChar (c : ascii) (tail : string) :
  Json.parseStringBody (Json.escapeChar c ++ tail)
  = Json.consChar c (Json.parseStringBody tail).
Proof.
  destruct c as [[|] [|] [|] [|] [|] [|] [|] [|]]; reflexivity.
Qed.

Lemma parseStringBody_escape (s rest : string) :
  Json.parseStringBody (Json.escape s ++ String dquote rest) = Some (s, rest).
Proof.
  induction s as [| c s IH]; [reflexivity |].
  cbn [Json.escape]. rewrite append_assoc, parseStringBody_escapeChar, IH.
  reflexivity.
Qed.

Lemma escapeChar_noLineFeed (c : ascii) :
  noLineFeed (Json.escapeChar c) = true.
Proof.
  destruct c as [[|] [|] [|] [|] [|] [|] [|] [|]]; reflexivity.
Qed.

Lemma quote_noLineFeed (s : string) : noLineFeed (Json.quote s) = true.
Proof.
  unfold noLineFeed, Json.quote, DQ. simpl. rewrite allChars_append. simpl.
  rewrite andb_true_r.
  induction s as [| c s IH]; [reflexivity |].
  cbn [Json.escape]. rewrite allChars_append, IH, andb_true_r.
  apply escapeChar_noLineFeed.
Qed.

Lemma skipWs_blank (w s : string) :
  blank w = true -> Json.skipWs (w ++ s) = Json.skipWs s.
Proof.
  unfold blank. induction w as [| c w IH]; [reflexivity |].
  simpl. intros H. apply andb_true_iff in H as [Hc Hw].
  now rewrite Hc, IH.
Qed.

Lemma parseValue_blank (fuel : nat) (w s : string) :
  blank w = true -> Json.parseValue fuel (w ++ s) = Json.parseValue fuel s.
Proof.
  intros Hw. destruct fuel as [| fuel]; [reflexivity |].
  now rewrite !parseValue_step, (skipWs_blank w s Hw).
Qed.

Lemma parseElements_blank (fuel : nat) (w s : string) (acc : list JSON) :
  blank w = true ->
  Json.parseElements fuel (w ++ s) acc = Json.parseElements fuel s acc.
Proof.
  intros Hw. destruct fuel as [| fuel]; [reflexivity |].
  now rewrite !parseElements_step, (parseValue_blank fuel w s Hw).
Qed.

Lemma parseMembers_blank (fuel : nat) (w s : string)
    (acc : list (string * JSON)) :
  blank w = true ->
  Json.parseMembers fuel (w ++ s) acc = Json.parseMembers fuel s acc.
Proof.
  intros Hw. destruct fuel as [| fuel]; [reflexivity |].
  now rewrite !parseMembers_unfold, (skipWs_blank w s Hw).
Qed.

Lemma terminated_number_end (rest : string) :
  terminated rest = true ->
  Json.startsFraction rest = false
  /\ match rest with
     | EmptyString => True
     | String c _ => Json.isDigit c = false
     end.
Proof.
  destruct rest as [| c rest]; [now split |].
  unfold terminated, Json.startsFraction.
  destruct c as [[|] [|] [|] [|] [|] [|] [|] [|]];
    intros H; try discriminate H; now split.
Qed.

Lemma spanDigits_terminated (digits rest : string) :
  allChars Json.isDigit digits = true ->
  terminated rest = true ->
  Json.spanDigits (digits ++ rest) = (digits, rest).
Proof.
  intros Hd Hrest. induction digits as [| c digits IH]; simpl.
  - destruct (terminated_number_end rest Hrest) as [_ Hdigit].
    destruct rest as [| r rest]; [reflexivity |].
    simpl. now rewrite Hdigit.
  - simpl in Hd. apply andb_true_iff in Hd as [Hc Hd].
    now rewrite Hc, IH.
Qed.

Lemma parseDigits_terminated (d : uint) (rest : string) :
  canonical d -> terminated rest = true ->
  Json.parseDigits (NilEmpty.string_of_uint d ++ rest) = Some (Z.of_uint d, rest).
Proof.
  intros Hcan Hrest. unfold Json.parseDigits.
  rewrite (spanDigits_terminated _ _ (digits_allChars d) Hrest).
  rewrite (proj1 (terminated_number_end _ Hrest)).
  assert (Hread := NilEmpty.usu d).
  destruct Hcan as [-> | [Hnil Hzero]]; [reflexivity |].
  destruct d as [| d | d | d | d | d | d | d | d | d | d];
    try contradiction;
    try (exfalso; exact (Hzero d eq_refl));
    (destruct d; simpl NilEmpty.string_of_uint in *; cbv iota;
     try change (Ascii.eqb _ "0"%char) with false; cbv iota;
     rewrite Hread; reflexivity).
Qed.

Lemma parseNumber_terminated (z : Z) (rest : string) :
  terminated rest = true ->
  Json.parseNumber (Js.numberToString z ++ rest) = Some (z, rest).
Proof.
  intros Hrest. unfold Js.numberToString.
  pose proof (to_int_canonical z) as Hcan.
  pose proof (DecimalZ.of_to z) as Hz.
  destruct (Z.to_int z) as [d | d]; simpl NilZero.string_of_int.
  - rewrite (canonical_string d Hcan).
    assert (Hd := parseDigits_terminated d rest Hcan Hrest).
    simpl in Hz. rewrite Hz in Hd.
    destruct Hcan as [-> | [Hnil _]]; [exact Hd |].
    destruct d; try contradiction; exact Hd.
  - rewrite (canonical_string d Hcan). simpl.
    rewrite (parseDigits_terminated d rest Hcan Hrest). simpl.
    simpl in Hz. now rewrite Hz.
Qed.

Lemma blank_terminated (w : string) (c : ascii) (r : string) :
  blank w = true ->
  Ascii.eqb c ","%char || Ascii.eqb c "]"%char || Ascii.eqb c "}"%char = true ->
  terminated (w ++ String c r) = true.
Proof.
  unfold blank. intros Hw Hc. destruct w as [| x w]; simpl.
  - now rewrite Hc.
  - simpl in Hw. apply andb_true_iff in Hw as [Hx _].
    rewrite Hx. now rewrite !orb_true_r.
Qed.

Lemma stringifyGap_array (gap indent : string) (x : JSON) (items : list JSON) :
  stringifyGap gap indent (JArr (x :: items))
  = String "["
      (lead gap (indent ++ gap)
       ++ Js.join (String "," (lead gap (indent ++ gap)))
            (map (stringifyGap gap (indent ++ gap)) (x :: items))
       ++ lead gap indent ++ "]").
Proof. destruct gap; reflexivity. Qed.

Lemma stringifyGap_object (gap indent : string) (kv : string * JSON)
    (props : list (string * JSON)) :
  stringifyGap gap indent (JObj (kv :: props))
  = String "{"
      (lead gap (indent ++ gap)
       ++ Js.join (String "," (lead gap (indent ++ gap)))
            (map (memberGap gap (stringifyGap gap (indent ++ gap))) (kv :: props))
       ++ lead gap indent ++ "}").
Proof. destruct gap; reflexivity. Qed.

Lemma lead_blank (gap indent : string) :
  blank indent = true -> blank (lead gap indent) = true.
Proof.
  intros H. unfold lead. destruct (Js.isEmpty gap); [reflexivity |].
  unfold blank in *. simpl. exact H.
Qed.

Lemma blank_append (a b : string) :
  blank a = true -> blank b = true -> blank (a ++ b) = true.
Proof. unfold blank. intros Ha Hb. now rewrite allChars_append, Ha, Hb. Qed.

Lemma stringifyGap_start (gap indent : string) (v : JSON) :
  exists c r, stringifyGap gap indent v = String c r /\ valueStart c = true.
Proof.
  destruct v as [| b | n | s | [| x items] | [| kv props]];
    try (destruct (stringify_start JNull) as (c & r & E & Hc);
         simpl; now eexists _, _).
  - exact (stringify_start (JBool b)).
  - exact (stringify_start (JNum n)).
  - rewrite stringifyGap_array. now eexists _, _.
  - rewrite stringifyGap_object. now eexists _, _.
Qed.

Lemma parseElements_text (text : JSON -> string) (pre post : string)
    (items : list JSON) :
  Forall (readsText text) items -> items <> [] ->
  blank pre = true -> blank post = true ->
  forall (fuel : nat) (acc : list JSON) (rest : string),
    list_sum (map (fun x => S (size x)) items) <= fuel ->
    Json.parseElements fuel
      (Js.join (String "," pre) (map text items) ++ post ++ String "]" rest) acc
    = Some (JArr (acc ++ items), rest).
Proof.
  intros Hall. induction Hall as [| v items Hv Hitems IH]; [congruence |].
  intros _ Hpre Hpost fuel acc rest Hfuel. simpl in Hfuel.
  destruct fuel as [| fuel]; [lia |].
  rewrite parseElements_step. unfold Js.join in *.
  destruct items as [| v2 items].
  - change (String.concat (String "," pre) (map text [v])) with (text v).
    rewrite (Hv fuel (post ++ String "]" rest)%string)
      by (try lia; now apply blank_terminated).
    rewrite (skipWs_blank post _ Hpost). reflexivity.
  - change (String.concat (String "," pre) (map text (v :: v2 :: items)))
      with (text v
            ++ String "," (pre ++ String.concat (String "," pre)
                                    (map text (v2 :: items))))%string.
    rewrite append_assoc. cbn [append].
    rewrite (Hv fuel) by (simpl; try lia; reflexivity).
    cbn [Json.skipWs]. change (Json.isWs ",") with false. cbv iota.
    change (Ascii.eqb "," ",") with true. cbv iota.
    rewrite append_assoc, (parseElements_blank fuel pre _ _ Hpre).
    rewrite IH by (try discriminate; try assumption; simpl in *; lia).
    now rewrite <- app_assoc.
Qed.

Lemma quote_shape (k : string) :
  Json.quote k = String dquote (Json.escape k ++ String dquote EmptyString).
Proof. reflexivity. Qed.

Lemma parseMembers_text (gap : string) (text : JSON -> string)
    (pre post : string) (props : list (string * JSON)) :
  Forall (fun kv => readsText text (snd kv)) props -> props <> [] ->
  blank pre = true -> blank post = true ->
  forall (fuel : nat) (acc : list (string * JSON)) (rest : string),
    list_sum (map (fun kv => match kv with (_, x) => S (size x) end) props)
    <= fuel ->
    NoDup (map fst (acc ++ props)) ->
    Json.parseMembers fuel
      (Js.join (String "," pre) (map (memberGap gap text) props)
       ++ post ++ String "}" rest) acc
    = Some (JObj (acc ++ props), rest).
Proof.
  intros Hall. induction Hall as [| [k x] props Hx Hprops IH]; [congruence |].
  intros _ Hpre Hpost fuel acc rest Hfuel Hnd. simpl in Hfuel, Hx.
  destruct fuel as [| fuel]; [lia |].
  assert (Hfresh : Json.setProp k x acc = acc ++ [(k, x)]).
  { apply setProp_fresh. rewrite map_app in Hnd. simpl in Hnd.
    apply NoDup_remove_2 in Hnd. intros Hin. apply Hnd.
    apply in_or_app. now left. }
  assert (Hsp : blank (if Js.isEmpty gap then EmptyString else " ") = true)
    by (destruct (Js.isEmpty gap); reflexivity).
  unfold Js.join in *.
  destruct props as [| kv2 props].
  - change (String.concat (String "," pre) (map (memberGap gap text) [(k, x)]))
      with (memberGap gap text (k, x)).
    unfold memberGap. rewrite quote_shape. cbn [append].
    rewrite parseMembers_step.
    repeat (first [rewrite append_assoc | progress (cbn [append])]).
    rewrite parseStringBody_escape.
    cbn [Json.skipWs]. change (Json.isWs ":") with false. cbv iota.
    change (Ascii.eqb ":" ":") with true. cbv iota.
    rewrite (parseValue_blank fuel _ _ Hsp).
    rewrite (Hx fuel (post ++ String "}" rest)%string)
      by (try lia; now apply blank_terminated).
    rewrite (skipWs_blank post _ Hpost). rewrite Hfresh. reflexivity.
  - change (String.concat (String "," pre)
              (map (memberGap gap text) ((k, x) :: kv2 :: props)))
      with (memberGap gap text (k, x)
            ++ String "," (pre ++ String.concat (String "," pre)
                                    (map (memberGap gap text) (kv2 :: props))))%string.
    unfold memberGap at 1. rewrite quote_shape. cbn [append].
    rewrite parseMembers_step.
    repeat (first [rewrite append_assoc | progress (cbn [append])]).
    rewrite parseStringBody_escape.
    cbn [Json.skipWs]. change (Json.isWs ":") with false. cbv iota.
    change (Ascii.eqb ":" ":") with true. cbv iota.
    rewrite (parseValue_blank fuel _ _ Hsp).
    rewrite (Hx fuel) by (simpl; try lia; reflexivity).
    cbn [Json.skipWs]. change (Json.isWs ",") with false. cbv iota.
    change (Ascii.eqb "," ",") with true. cbv iota.
    rewrite Hfresh.
    rewrite (parseMembers_blank fuel pre _ _ Hpre).
    rewrite IH; try discriminate; try assumption.
    + now rewrite <- app_assoc.
    + simpl in *. lia.
    + now rewrite <- app_assoc.
Qed.

Lemma join_start (sep : string) (text : JSON -> string) (x : JSON)
    (items : list JSON) (c : ascii) (r tail : string) :
  text x = String c r ->
  exists r', (Js.join sep (map text (x :: items)) ++ tail)%string = String c r'.
Proof.
  intros E. unfold Js.join. destruct items; simpl map; simpl String.concat;
    rewrite E; cbn [append]; now eexists.
Qed.

Lemma stringifyGap_readsBack (v : JSON) : wf_json v = true -> readsBackGap v.
Proof.
  induction v as [| b | n | s | items IH | props IH] using JSON_nested_ind;
    intros Hwf gap indent fuel rest Hgap Hindent Hfuel Hrest;
    (destruct fuel as [| fuel]; [simpl in Hfuel; lia |]).
  - reflexivity.
  - destruct b; reflexivity.
  - destruct (numberToString_start n) as (c & r & E & Hc).
    pose proof (parseNumber_terminated n rest Hrest) as Hnum.
    simpl stringifyGap. rewrite E in *. cbn [append] in *.
    destruct (numeralStart_valueStart c Hc) as (Hv & H1 & H2 & H3).
    cbn [Json.parseValue]. rewrite (skipWs_valueStart c _ Hv), H1, H2, H3.
    rewrite (parseLiteral_numeral c _ Hc), Hnum. reflexivity.
  - simpl stringifyGap. rewrite quote_shape. cbn [append].
    rewrite parseValue_string, append_assoc. cbn [append].
    now rewrite parseStringBody_escape.
  - destruct items as [| x items]; [reflexivity |].
    rewrite stringifyGap_array. cbn [append].
    rewrite parseValue_array.
    repeat (first [rewrite append_assoc | progress (cbn [append])]).
    assert (Hinner : blank (indent ++ gap) = true) by now apply blank_append.
    pose proof (lead_blank gap _ Hinner) as Hpre.
    pose proof (lead_blank gap _ Hindent) as Hpost.
    simpl in Hwf, Hfuel.
    assert (Hall : Forall (readsText (stringifyGap gap (indent ++ gap)))
                     (x :: items)).
    { apply Forall_forall. intros y Hy f r Hf Hr.
      rewrite Forall_forall in IH. apply IH; try assumption.
      change (forallb wf_json (x :: items) = true) in Hwf.
      rewrite forallb_forall in Hwf. now apply Hwf. }
    destruct (stringifyGap_start gap (indent ++ gap) x) as (c & r & E & Hc).
    destruct (join_start (String "," (lead gap (indent ++ gap)))
                (stringifyGap gap (indent ++ gap)) x items c r
                (lead gap indent ++ String "]" rest) E) as [r' Hskip].
    rewrite (skipWs_blank _ _ Hpre).
    rewrite Hskip at 1. rewrite (skipWs_valueStart c r' Hc).
    unfold valueStart in Hc. apply andb_true_iff in Hc as [Hc _].
    apply andb_true_iff in Hc as [_ Hc]. apply negb_true_iff in Hc.
    rewrite Hc.
    rewrite (parseElements_blank fuel _ _ _ Hpre).
    rewrite (parseElements_text _ _ _ (x :: items) Hall);
      [reflexivity | discriminate | assumption | assumption |].
    simpl. lia.
  - destruct props as [| [k x] props]; [reflexivity |].
    rewrite stringifyGap_object. cbn [append].
    rewrite parseValue_object.
    repeat (first [rewrite append_assoc | progress (cbn [append])]).
    assert (Hinner : blank (indent ++ gap) = true) by now apply blank_append.
    pose proof (lead_blank gap _ Hinner) as Hpre.
    pose proof (lead_blank gap _ Hindent) as Hpost.
    simpl in Hfuel.
    change (distinct (map fst ((k, x) :: props))
            && forallb (fun kv => match kv with (_, y) => wf_json y end)
                 ((k, x) :: props) = true) in Hwf.
    apply andb_true_iff in Hwf as [Hdistinct Hwf].
    rewrite forallb_forall in Hwf.
    assert (Hall : Forall (fun kv => readsText (stringifyGap gap (indent ++ gap))
                                       (snd kv)) ((k, x) :: props)).
    { apply Forall_forall. intros [k' y] Hy f r Hf Hr.
      rewrite Forall_forall in IH. apply (IH (k', y) Hy); try assumption.
      exact (Hwf (k', y) Hy). }
    assert (Hskip : exists r',
               (Js.join (String "," (lead gap (indent ++ gap)))
                  (map (memberGap gap (stringifyGap gap (indent ++ gap)))
                     ((k, x) :: props))
                ++ lead gap indent ++ String "}" rest)%string = String dquote r').
    { unfold Js.join. destruct props; simpl map; simpl String.concat;
        unfold Json.quote, DQ; cbn [append]; now eexists. }
    destruct Hskip as [r' Hskip].
    rewrite (skipWs_blank _ _ Hpre).
    rewrite Hskip at 1. cbn [Json.skipWs].
    change (Json.isWs dquote) with false. cbv iota.
    change (Ascii.eqb dquote "}") with false. cbv iota.
    rewrite (parseMembers_blank fuel _ _ _ Hpre).
    rewrite (parseMembers_text gap _ _ _ ((k, x) :: props) Hall);
      [reflexivity | discriminate | assumption | assumption | simpl; lia |].
    simpl app. now apply distinct_NoDup.
Qed.

(** [JSON.parse] reads back [JSON.stringify(v, null, space)] at every
    white-space gap, whatever the keys and strings of [v] hold. *)
Lemma parse_stringifyGap (gap : string) (v : JSON) :
  wf_json v = true -> blank gap = true ->
  Json.parse (stringifyGap gap EmptyString v) = Some v.
Proof.
  intros Hwf Hgap. unfold Json.parse.
  pose proof (stringifyGap_readsBack v Hwf gap EmptyString (size v) EmptyString
                Hgap eq_refl (le_n _) eq_refl) as H.
  rewrite append_empty_r in H.
  apply parse_fuel_adequate in H. rewrite H. reflexivity.
Qed.

Lemma stringifyGap_compact (indent : string) (v : JSON) :
  stringifyGap EmptyString indent v = Json.stringify v.
Proof.
  revert indent.
  induction v as [| b | n | s | items IH | props IH] using JSON_nested_ind;
    intros indent; try reflexivity.
  - destruct items as [| x items]; [reflexivity |].
    rewrite stringify_array. cbn [stringifyGap Js.isEmpty append].
    f_equal. f_equal. f_equal. apply map_ext_in. intros y Hy.
    rewrite Forall_forall in IH. now apply IH.
  - destruct props as [| kv props]; [reflexivity |].
    rewrite stringify_object. cbn [stringifyGap Js.isEmpty append].
    f_equal. f_equal. f_equal. apply map_ext_in. intros [k' y] Hy.
    rewrite Forall_forall in IH. unfold memberText.
    now rewrite (IH (k', y) Hy).
Qed.

(** ** The edit dialog *)

Lemma forEach_keys (keys : list string) :
  forEach (fun key =>
             if (256 <? String.length key)%nat
             then throw (Error "Attribute keys cannot be longer than 256 characters")
             else ret tt) keys = inr tt
  <-> Forall (fun key => String.length key <= 256) keys.
Proof.
  induction keys as [| k keys IH]; simpl.
  - split; [constructor | reflexivity].
  - destruct (Nat.ltb_spec 256 (String.length k)) as [Hk | Hk]; simpl.
    + split; [discriminate |]. intros H. inversion H; subst. lia.
    + rewrite IH. split; [now constructor |]. intros H. now inversion H.
Qed.

(** The dialog accepts a text exactly when it is a JSON text whose value
    has keys, at most 16 of them, none longer than 256 characters. *)
Lemma parseAttributesInput_accepts (text : string) (v : JSON) :
  parseAttributesInput text = inr v
  <-> Json.parse text = Some v /\ withinLimits v.
Proof.
  unfold parseAttributesInput, JSON_parse, withinLimits.
  destruct (Json.parse text) as [parsed |]; simpl;
    [| split; [discriminate | intros [H _]; discriminate]].
  destruct (Obj.keys parsed) as [e | keys] eqn:Ekeys; simpl.
  - split; [discriminate |]. intros [H (keys & Hk & _)].
    injection H as <-. rewrite Ekeys in Hk. discriminate.
  - destruct (Nat.ltb_spec 16 (List.length keys)) as [Hmany | Hfew].
    + split; [discriminate |]. intros [H (keys' & Hk & Hlen & _)].
      injection H as <-. rewrite Ekeys in Hk. injection Hk as <-. lia.
    + pose proof (forEach_keys keys) as Hloop.
      destruct (forEach _ keys) as [e | []]; simpl.
      * split; [discriminate |]. intros [H (keys' & Hk & _ & Hall)].
        injection H as <-. rewrite Ekeys in Hk. injection Hk as <-.
        apply Hloop in Hall. discriminate.
      * split.
        -- intros H. injection H as <-. split; [reflexivity |].
           exists keys. split; [assumption | split; [assumption | now apply Hloop]].
        -- intros [H _]. now injection H as <-.
Qed.

(** X8 - saving from the dialog sends at most one request; the request
    is for the file being edited and carries the value of the text in the
    dialog, which has at most 16 keys, none longer than 256 characters;
    the page changes only after a response that is ok; and whenever a
    file is being edited, exactly one notification is shown. *)
Theorem handleSaveMetadata_outcome (p : Page.t) :
  let run := handleSaveMetadata p in
  List.length (Run.requests run) <= 1
  /\ (forall request, In request (Run.requests run) ->
        exists editing,
          Page.editingFile p = Some editing
          /\ request = patchOf editing (Patch.attributes request)
          /\ Json.parse (Page.metadataInput p) = Some (Patch.attributes request)
          /\ withinLimits (Patch.attributes request))
  /\ (Run.page run <> p ->
        exists request,
          Run.requests run = [request]
          /\ fetchPatch [] request = Response true)
  /\ (Page.editingFile p <> None -> List.length (Run.toasts run) = 1)
  /\ (Page.editingFile p = None -> run = Run.mk p [] []).
Proof.
  unfold handleSaveMetadata.
  destruct (Page.editingFile p) as [editing |] eqn:He.
  - destruct (parseAttributesInput (Page.metadataInput p)) as [e | parsed] eqn:Hp.
    + simpl. repeat split; try lia; try tauto; try discriminate.
    + apply parseAttributesInput_accepts in Hp as [Hparse Hlim].
      assert (Hreq : forall request,
                 In request [patchOf editing parsed] ->
                 exists editing0,
                   Some editing = Some editing0
                   /\ request = patchOf editing0 (Patch.attributes request)
                   /\ Json.parse (Page.metadataInput p)
                      = Some (Patch.attributes request)
                   /\ withinLimits (Patch.attributes request)).
      { intros request [<- | []]. exists editing. now repeat split. }
      destruct (fetchPatch [] (patchOf editing parsed)) as [[|] | [m |]] eqn:Hf;
        simpl; (split; [lia |]); (split; [exact Hreq |]);
        (split; [| split; [reflexivity | discriminate]]);
        intros Hne; try tauto.
      exists (patchOf editing parsed). now split.
  - simpl. repeat split; try lia; try tauto.
Qed.

(** X9 - opening the dialog on a record and saving without a change sends
    the record's own attributes back: the text the dialog shows, the
    serialization with two spaces of indentation, reads back as the
    record's attributes, whatever characters its keys and strings hold,
    and the request is for that record with those attributes. *)
Theorem edit_then_save (p : Page.t) (file : File.t) :
  wf_json (File.attributes file) = true ->
  withinLimits (File.attributes file) ->
  parseAttributesInput (Page.metadataInput (handleEditClick p file))
  = inr (File.attributes file)
  /\ Run.requests (handleSaveMetadata (handleEditClick p file))
     = [patchOf file (File.attributes file)]
  /\ (fetchPatch [] (patchOf file (File.attributes file)) = Response true ->
      Forall2 (fun before after =>
                 after = if String.eqb (File.id before) (File.id file)
                         then File.withAttributes before (File.attributes file)
                         else before)
        (Page.files p)
        (Page.files (Run.page (handleSaveMetadata (handleEditClick p file))))).
Proof.
  intros Hwf Hlim.
  assert (Hp : parseAttributesInput (Page.metadataInput (handleEditClick p file))
               = inr (File.attributes file)).
  { apply parseAttributesInput_accepts. split; [| assumption].
    now apply parse_stringifyGap. }
  split; [exact Hp |].
  unfold handleSaveMetadata. cbn [handleEditClick Page.editingFile] in *.
  cbn [Page.metadataInput] in *. rewrite Hp.
  split.
  - now destruct (fetchPatch [] (patchOf file (File.attributes file)))
      as [[|] | [m |]].
  - intros ->. unfold mirrorAttributes, handleEditClick. simpl.
    generalize (Page.files p). intros fs.
    induction fs as [| f fs IH]; simpl; now constructor.
Qed.

(** ** The attribute route *)

Lemma hasLongKey_false (keys : list string) :
  hasLongKey keys = false ->
  Forall (fun key => String.length key <= 256) keys.
Proof.
  unfold hasLongKey. induction keys as [| k keys IH]; simpl; [constructor |].
  intros H. apply orb_false_iff in H as [Hk H].
  constructor; [| now apply IH]. now apply Nat.ltb_ge.
Qed.

(** X10 - the route calls the collaborator at most once, and only with
    what the body holds: the file id of the URL, the body's attributes,
    whose keys are at most 16 and none longer than 256 characters, and
    the body's vector store id, which is not falsy.  The status is 200
    exactly when that call succeeded, and the payload is then the
    collaborator's answer; every other status is 400 or 500, and 400
    comes without a call. *)
Theorem PATCH_outcome (fileId : string) (body : option JSON) :
  let response := fst (PATCH fileId body) in
  let calls := snd (PATCH fileId body) in
  List.length calls <= 1
  /\ (forall call, In call calls ->
        callFileId call = fileId
        /\ withinLimits (callAttributes call)
        /\ Obj.falsy (Some (callVectorStoreId call)) = false
        /\ exists parsed,
             body = Some parsed
             /\ Obj.get "attributes" parsed = Some (callAttributes call)
             /\ Obj.get "vectorStoreId" parsed = Some (callVectorStoreId call))
  /\ (status response = 200
      <-> exists call, calls = [call]
                       /\ collaboratorUpdate call = inr (payload response))
  /\ (status response = 200 \/ status response = 400 \/ status response = 500)
  /\ (status response = 400 -> calls = []).
Proof.
  assert (Hfailed :
            forall text,
              List.length (@nil CollaboratorCall) <= 1
              /\ (forall call, In call (@nil CollaboratorCall) ->
                    callFileId call = fileId
                    /\ withinLimits (callAttributes call)
                    /\ Obj.falsy (Some (callVectorStoreId call)) = false
                    /\ exists parsed,
                         body = Some parsed
                         /\ Obj.get "attributes" parsed = Some (callAttributes call)
                         /\ Obj.get "vectorStoreId" parsed
                            = Some (callVectorStoreId call))
              /\ (500 = 200
                  <-> exists call, [] = [call]
                                   /\ collaboratorUpdate call = inr (JObj [("error", JStr text)]))
              /\ (500 = 200 \/ 500 = 400 \/ 500 = 500)
              /\ (500 = 400 -> @nil CollaboratorCall = [])).
  { intros text. repeat split; try (simpl; lia); try contradiction; try tauto;
      try discriminate.
    intros [call [H _]]. discriminate. }
  assert (Hbad :
            forall text,
              List.length (@nil CollaboratorCall) <= 1
              /\ (forall call, In call (@nil CollaboratorCall) ->
                    callFileId call = fileId
                    /\ withinLimits (callAttributes call)
                    /\ Obj.falsy (Some (callVectorStoreId call)) = false
                    /\ exists parsed,
                         body = Some parsed
                         /\ Obj.get "attributes" parsed = Some (callAttributes call)
                         /\ Obj.get "vectorStoreId" parsed
                            = Some (callVectorStoreId call))
              /\ (400 = 200
                  <-> exists call, [] = [call]
                                   /\ collaboratorUpdate call = inr (JObj [("error", JStr text)]))
              /\ (400 = 200 \/ 400 = 400 \/ 400 = 500)
              /\ (400 = 400 -> @nil CollaboratorCall = [])).
  { intros text. repeat split; try (simpl; lia); try contradiction; try tauto;
      try discriminate.
    intros [call [H _]]. discriminate. }
  cbv zeta. unfold PATCH.
  destruct body as [parsed |]; [| apply Hfailed].
  destruct (destructure parsed) as [e | [attributes vectorStoreId]] eqn:Hd;
    [apply Hfailed |].
  assert (Hget : attributes = Obj.get "attributes" parsed
                 /\ vectorStoreId = Obj.get "vectorStoreId" parsed).
  { unfold destructure in Hd. destruct parsed; try discriminate;
      injection Hd as <- <-; now split. }
  destruct Hget as [Ha Hv].
  destruct (Obj.falsy vectorStoreId) eqn:Hfalsy; [apply Hbad |].
  destruct (keysOf attributes) as [e | keys] eqn:Hkeys; [apply Hfailed |].
  destruct (Nat.ltb_spec 16 (List.length keys)) as [Hmany | Hfew]; [apply Hbad |].
  destruct (hasLongKey keys) eqn:Hlong; [apply Hbad |].
  destruct attributes as [a |]; [| apply Hfailed].
  destruct vectorStoreId as [vs |]; [| apply Hfailed].
  assert (Hcall : forall call,
             In call [mkCall vs fileId a] ->
             callFileId call = fileId
             /\ withinLimits (callAttributes call)
             /\ Obj.falsy (Some (callVectorStoreId call)) = false
             /\ exists parsed0,
                  Some parsed = Some parsed0
                  /\ Obj.get "attributes" parsed0 = Some (callAttributes call)
                  /\ Obj.get "vectorStoreId" parsed0
                     = Some (callVectorStoreId call)).
  { intros call [<- | []]. simpl. repeat split; try assumption.
    - exists keys. repeat split; [assumption | assumption |].
      now apply hasLongKey_false.
    - exists parsed. now repeat split. }
  destruct (collaboratorUpdate (mkCall vs fileId a)) as [m | updated] eqn:Hc;
    simpl; (split; [lia |]); (split; [exact Hcall |]);
    (split; [| split; [tauto | discriminate]]).
  - split; [discriminate |]. intros [call [E Hu]].
    injection E as <-. rewrite Hc in Hu. discriminate.
  - split; [| reflexivity]. intros _. now exists (mkCall vs fileId a).
Qed.

(** X11 - what the route reads is what the page sent: the body of a
    request, written by [JSON.stringify] and read by [request.json()], is
    the object of the request's attributes and vector store id, whatever
    characters they hold; so for attributes within the two limits and a
    vector store id that is not empty the route makes exactly the call
    for the request's file id, attributes and vector store id. *)
Theorem route_reads_request (request : Patch.t) :
  wf_json (Patch.attributes request) = true ->
  requestJson request = Some (Patch.body request)
  /\ (forall parsed, requestJson request = Some parsed ->
        destructure parsed
        = inr (Some (Patch.attributes request),
               Some (JStr (Patch.vectorStoreId request))))
  /\ (withinLimits (Patch.attributes request) ->
      Js.isEmpty (Patch.vectorStoreId request) = false ->
      snd (PATCH (Patch.fileId request) (requestJson request))
      = [mkCall (JStr (Patch.vectorStoreId request)) (Patch.fileId request)
           (Patch.attributes request)]).
Proof.
  intros Hwf.
  assert (Hjson : requestJson request = Some (Patch.body request)).
  { unfold requestJson. rewrite <- (stringifyGap_compact EmptyString).
    apply parse_stringifyGap; [| reflexivity].
    unfold Patch.body. simpl. now rewrite Hwf. }
  split; [exact Hjson |]. split.
  - intros parsed H. rewrite Hjson in H. injection H as <-. reflexivity.
  - intros (keys & Hkeys & Hlen & Hall) Hvs. rewrite Hjson.
    unfold PATCH, Patch.body. cbn [destructure Obj.get Json.lookup ret].
    change (String.eqb "attributes" "attributes") with true.
    change (String.eqb "vectorStoreId" "attributes") with false.
    change (String.eqb "vectorStoreId" "vectorStoreId") with true.
    cbv iota. cbn [Obj.falsy]. rewrite Hvs. cbn [keysOf]. rewrite Hkeys.
    destruct (Nat.ltb_spec 16 (List.length keys)) as [Hmany | _]; [lia |].
    assert (Hlong : hasLongKey keys = false).
    { unfold hasLongKey. apply not_true_is_false. intros H.
      apply existsb_exists in H as (key & Hin & Hkey).
      rewrite Forall_forall in Hall. specialize (Hall key Hin).
      apply Nat.ltb_lt in Hkey. lia. }
    rewrite Hlong.
    now destruct (collaboratorUpdate _).
Qed.

(** ** The export read by the importer's own splitter *)

Lemma stringify_noLineFeed (v : JSON) : noLineFeed (Json.stringify v) = true.
Proof.
  unfold noLineFeed.
  induction v as [| b | n | s | items IH | props IH] using JSON_nested_ind.
  - reflexivity.
  - now destruct b.
  - apply (allChars_impl textChar); [| apply numberToString_text].
    intros c Hc. unfold textChar in Hc.
    now apply andb_true_iff in Hc as [Hc _].
  - apply quote_noLineFeed.
  - rewrite stringify_array. simpl allChars.
    rewrite allChars_append. simpl. rewrite andb_true_r.
    apply allChars_join; [reflexivity |]. now apply Forall_map.
  - rewrite stringify_object. simpl allChars.
    rewrite allChars_append. simpl. rewrite andb_true_r.
    apply allChars_join; [reflexivity |].
    apply Forall_map. eapply Forall_impl; [| exact IH].
    intros [k x] Hx. unfold memberText. rewrite !allChars_append.
    pose proof (quote_noLineFeed k) as Hk. unfold noLineFeed in Hk.
    rewrite Hk. simpl in *. exact Hx.
Qed.

Lemma numberToString_noLineFeed (z : Z) : noLineFeed (Js.numberToString z) = true.
Proof. exact (stringify_noLineFeed (JNum z)). Qed.

Lemma rowCells_noLineFeed (file : File.t) :
  singleLine file = true ->
  Forall (fun cell => noLineFeed cell = true) (rowCells file).
Proof.
  unfold singleLine. intros H.
  apply andb_true_iff in H as [H H5]. apply andb_true_iff in H as [H H4].
  apply andb_true_iff in H as [H H3]. apply andb_true_iff in H as [H1 H2].
  unfold rowCells. repeat constructor; try assumption.
  - apply numberToString_noLineFeed.
  - apply stringify_noLineFeed.
Qed.

Lemma renderedRows_readback (files : list File.t) :
  forallb singleLine files = true ->
  Js.splitLines (csvDocument (renderedRows files))
  = map csvRow (renderedRows files)
  /\ importLines (csvDocument (renderedRows files))
     = map csvRow (renderedRows files)
  /\ map parseCSVLine (Js.splitLines (csvDocument (renderedRows files)))
     = map (map Js.trim) (renderedRows files).
Proof.
  intros H.
  assert (Hlines : Forall (fun x => noLineFeed x = true /\ lastIsCR x = false
                                    /\ Js.isEmpty (Js.trim x) = false)
                     (map csvRow (renderedRows files))).
  { apply Forall_map. apply Forall_forall. intros row Hrow.
    assert (Hcells : Forall (fun cell => noLineFeed cell = true) row).
    { destruct Hrow as [<- | Hrow]; [repeat constructor |].
      apply in_map_iff in Hrow as (file & <- & Hfile).
      rewrite forallb_forall in H. now apply rowCells_noLineFeed, H. }
    destruct (renderedRows_nonempty files row Hrow) as (cell & cells & ->).
    destruct (csvRow_line _ _ Hcells) as (H1 & H2 & H3 & _). now repeat split. }
  assert (Hsplit : Js.splitLines (csvDocument (renderedRows files))
                   = map csvRow (renderedRows files)).
  { unfold csvDocument.
    change (String LF EmptyString) with newline.
    unfold renderedRows in *. cbn [map] in *.
    apply splitLines_join. eapply Forall_impl; [| exact Hlines].
    intros x (H1 & H2 & _). now split. }
  split; [exact Hsplit |]. split.
  - unfold importLines. rewrite Hsplit.
    apply forallb_filter_id. apply forallb_forall. intros x Hx.
    rewrite Forall_forall in Hlines. destruct (Hlines x Hx) as (_ & _ & Hx3).
    now rewrite Hx3.
  - rewrite Hsplit, map_map. apply map_ext_in. intros row Hrow.
    destruct (renderedRows_nonempty files row Hrow) as (cell & cells & ->).
    apply parseCSVLine_row.
Qed.

(** X12 - the importer's line splitter finds in an exported text exactly
    the lines the export wrote, one for the header and one for each
    record, and its field parser reads each of them back as the cells of
    the row without their outer white space; this holds whatever the
    attributes are (a line feed inside them is written as an escape), as
    long as no other cell of a record holds a line feed.  The export
    produces its text whenever [Date] renders every creation time, and
    the statement holds of every text it produces. *)
Theorem export_lines_readback (files : list File.t) :
  forallb singleLine files = true ->
  (forallb renderable files = true ->
   exists text, handleExportFiles files = inr text)
  /\ forall text,
      handleExportFiles files = inr text ->
      exists rows,
        exportRows files = inr rows
        /\ List.length rows = S (List.length files)
        /\ Js.splitLines text = map csvRow rows
        /\ importLines text = map csvRow rows
        /\ map parseCSVLine (Js.splitLines text) = map (map Js.trim) rows.
Proof.
  intros H. split.
  { intros Hr. rewrite handleExportFiles_rendered, Hr. now eexists. }
  intros text Htext. apply handleExportFiles_text in Htext as [Hr ->].
  exists (renderedRows files).
  split; [now rewrite exportRows_rendered, Hr |].
  split; [unfold renderedRows; simpl; now rewrite length_map |].
  now apply renderedRows_readback.
Qed.

(** ** From the export back to the requests *)

Lemma findFile_own (files : list File.t) (file : File.t) :
  In file files ->
  exists found,
    findFile files (exportName file) = Some found
    /\ matchesName (exportName file) found = true.
Proof.
  intros Hin. unfold findFile.
  destruct (find (matchesName (exportName file)) files) as [found |] eqn:E.
  - exists found. split; [reflexivity |]. now apply find_some in E.
  - exfalso. pose proof (find_none _ _ E file Hin) as Hno.
    unfold matchesName, exportName in Hno.
    destruct (Js.isEmpty (File.filename file)).
    + now rewrite String.eqb_refl, !orb_true_r in Hno.
    + now rewrite String.eqb_refl in Hno.
Qed.

Lemma reconcile_all_found (files : list File.t) (updates : list Update.t) :
  Forall (fun update => findFile files (Update.fileName update) <> None)
    updates ->
  forall summary sent,
    Summary.notFound (fst (reconcile files updates summary sent))
    = Summary.notFound summary.
Proof.
  intros H. induction H as [| update updates Hfound _ IH]; intros summary sent;
    [reflexivity |].
  cbn [reconcile].
  destruct (findFile files (Update.fileName update)) as [file |];
    [| contradiction].
  destruct (fetchPatch sent (patchOf file (Update.attributes update)))
    as [[|] | reason]; now rewrite IH.
Qed.

Lemma matchedRows_exported (files records : list File.t) :
  incl records files ->
  Forall2 (fun file row =>
             snd row = Update.mk (exportName file) (File.attributes file)
             /\ findFile files (exportName file) = Some (fst row))
    records
    (matchedRows files
       (map (fun file => Update.mk (exportName file) (File.attributes file))
          records)).
Proof.
  induction records as [| file records IH]; intros Hincl; [constructor |].
  cbn [map matchedRows Update.fileName].
  destruct (findFile_own files file (Hincl file (or_introl eq_refl)))
    as (found & Hfound & _).
  rewrite Hfound. constructor; [now split |].
  apply IH. intros x Hx. apply Hincl. now right.
Qed.

Lemma rows_requests (files records : list File.t)
    (rows : list (File.t * Update.t)) :
  Forall2 (fun file row =>
             snd row = Update.mk (exportName file) (File.attributes file)
             /\ findFile files (exportName file) = Some (fst row))
    records rows ->
  Forall2 (fun file request =>
             exists found,
               findFile files (exportName file) = Some found
               /\ request = patchOf found (File.attributes file))
    records
    (map (fun row => patchOf (fst row) (Update.attributes (snd row))) rows).
Proof.
  intros H. induction H as [| file row records rows [Hrow Hfound] _ IH];
    [constructor |].
  cbn [map]. constructor; [| exact IH].
  exists (fst row). split; [exact Hfound |]. now rewrite Hrow.
Qed.

Lemma rows_own (files records : list File.t)
    (rows : list (File.t * Update.t)) :
  Forall2 (fun file row =>
             snd row = Update.mk (exportName file) (File.attributes file)
             /\ findFile files (exportName file) = Some (fst row))
    records rows ->
  incl records files ->
  (forall file other,
      In file files -> In other files ->
      matchesName (exportName file) other = true -> other = file) ->
  map (fun row => patchOf (fst row) (Update.attributes (snd row))) rows
  = map (fun file => patchOf file (File.attributes file)) records.
Proof.
  intros H. induction H as [| file row records rows [Hrow Hfound] _ IH];
    intros Hincl Hown; [reflexivity |].
  cbn [map]. rewrite IH; [| intros x Hx; apply Hincl; now right | exact Hown].
  f_equal. rewrite Hrow. cbn [Update.attributes]. f_equal.
  assert (Hin : In file files) by (apply Hincl; now left).
  unfold findFile in Hfound. apply find_some in Hfound as [Hin' Hmatch].
  exact (Hown file (fst row) Hin Hin' Hmatch).
Qed.

(** X13 - exporting the records of the page, keeping the File Name and
    Attributes columns and importing the result sends one request for
    each record, in order, with the record's attributes, to the first
    record of the page that matches the record's name; when no record
    matches the name of another, each record is sent its own attributes.
    The records are [reimportable] and their names are left as they are
    by the importer's clean-up.  The export produces its text whenever
    [Date] renders every creation time, and the statement holds of every
    text it produces. *)
Theorem exported_rows_requests (p : Page.t) :
  Page.files p <> [] ->
  forallb reimportable (Page.files p) = true ->
  Forall (fun file =>
            cleanFileName (Js.trim (exportName file)) = exportName file)
    (Page.files p) ->
  (forallb renderable (Page.files p) = true ->
   exists text, remapExport (Page.files p) = inr text)
  /\ forall text,
      remapExport (Page.files p) = inr text ->
      let run := handleImportFiles p (Some text) in
      Forall2 (fun file request =>
                 exists found,
                   findFile (Page.files p) (exportName file) = Some found
                   /\ request = patchOf found (File.attributes file))
        (Page.files p) (Run.requests run)
      /\ Summary.notFound (Page.importSummary (Run.page run))
         = Summary.emptyTally
      /\ ((forall file other,
              In file (Page.files p) -> In other (Page.files p) ->
              matchesName (exportName file) other = true -> other = file) ->
          Run.requests run
          = map (fun file => patchOf file (File.attributes file))
              (Page.files p)).
Proof.
  intros Hne Hre Hnames. split.
  { intros Hr. rewrite remapExport_rendered, Hr. now eexists. }
  intros text Htext run. subst run.
  apply remapExport_text in Htext as [_ ->].
  set (files := Page.files p) in *.
  assert (Hparse : parseImport (csvDocument (map remapRow (renderedRows files)))
                   = inr (map (fun file =>
                                 Update.mk (exportName file) (File.attributes file))
                            files)).
  { unfold parseImport. rewrite (importLines_exported files Hre).
    change (checkHeader (parseCSVLine (csvRow ["File Name"; "Attributes"])))
      with (@inr Exn unit tt).
    rewrite bind_ret.
    rewrite (importRows_all_exported files [] Hre). rewrite bind_ret.
    cbn [app].
    assert (E : map (fun file =>
                       Update.mk (cleanFileName (Js.trim (exportName file)))
                         (File.attributes file)) files
                = map (fun file =>
                         Update.mk (exportName file) (File.attributes file))
                    files).
    { apply map_ext_in. intros file Hfile.
      rewrite Forall_forall in Hnames. now rewrite (Hnames file Hfile). }
    rewrite E. destruct files as [| file files']; [contradiction | reflexivity]. }
  destruct (handleImportFiles_parsed p _ _ Hparse) as [Hreq Hsum].
  fold files in Hreq, Hsum. rewrite Hreq, Hsum.
  destruct (reconcile_requests files
              (map (fun file => Update.mk (exportName file) (File.attributes file))
                 files) Summary.initial []) as [Hsnd _].
  rewrite Hsnd. cbn [app].
  pose proof (matchedRows_exported files files (incl_refl _)) as Hrows.
  split; [| split].
  - now apply rows_requests.
  - cbn [Summary.shown Summary.notFound].
    rewrite reconcile_all_found; [reflexivity |].
    apply Forall_map. apply Forall_forall. intros file Hfile.
    cbn [Update.fileName].
    destruct (findFile_own files file Hfile) as (found & Hfound & _).
    rewrite Hfound. discriminate.
  - intros Hown. apply (rows_own files files); [exact Hrows | apply incl_refl |].
    exact Hown.
Qed.

(** ** What the clean-up of the attributes cell leaves to the parser *)

Lemma trimStart_allChars (ok : ascii -> bool) (s : string) :
  allChars ok s = true -> allChars ok (Js.trimStart s) = true.
Proof.
  induction s as [| c s IH]; [reflexivity |].
  intros H. cbn [Js.trimStart]. destruct (Js.isWhiteSpace c); [| exact H].
  simpl in H. apply andb_true_iff in H as [_ H]. now apply IH.
Qed.

Lemma trimEnd_allChars (ok : ascii -> bool) (s : string) :
  allChars ok s = true -> allChars ok (Js.trimEnd s) = true.
Proof.
  induction s as [| c s IH]; [reflexivity |].
  intros H. simpl in H. apply andb_true_iff in H as [Hc H].
  cbn [Js.trimEnd].
  destruct (Js.isWhiteSpace c && Js.isEmpty (Js.trimEnd s)); [reflexivity |].
  simpl. now rewrite Hc, IH.
Qed.

Lemma trim_allChars (ok : ascii -> bool) (s : string) :
  allChars ok s = true -> allChars ok (Js.trim s) = true.
Proof. intros H. now apply trimEnd_allChars, trimStart_allChars. Qed.

Lemma removeBackslashes_none (s : string) :
  noBackslash (Js.removeBackslashes s) = true.
Proof.
  unfold noBackslash. induction s as [| c s IH]; [reflexivity |].
  cbn [Js.removeBackslashes].
  destruct (Ascii.eqb c backslash) eqn:E; [exact IH |].
  simpl. now rewrite E, IH.
Qed.

Lemma cleanAttributes_noBackslash (cell : string) :
  noBackslash (cleanAttributes cell) = true.
Proof.
  unfold cleanAttributes, noBackslash. apply trim_allChars.
  apply removeBackslashes_none.
Qed.

Lemma skipWs_allChars (ok : ascii -> bool) (s : string) :
  allChars ok s = true -> allChars ok (Json.skipWs s) = true.
Proof.
  induction s as [| c s IH]; [reflexivity |].
  intros H. cbn [Json.skipWs]. destruct (Json.isWs c); [| exact H].
  simpl in H. apply andb_true_iff in H as [_ H]. now apply IH.
Qed.

Lemma spanDigits_allChars (ok : ascii -> bool) (s : string) :
  allChars ok s = true -> allChars ok (snd (Json.spanDigits s)) = true.
Proof.
  induction s as [| c s IH]; [reflexivity |].
  intros H. cbn [Json.spanDigits]. destruct (Json.isDigit c); [| exact H].
  simpl in H. apply andb_true_iff in H as [_ H]. specialize (IH H).
  now destruct (Json.spanDigits s).
Qed.

Lemma parseDigits_allChars (ok : ascii -> bool) (s : string) (z : Z)
    (rest : string) :
  Json.parseDigits s = Some (z, rest) ->
  allChars ok s = true -> allChars ok rest = true.
Proof.
  unfold Json.parseDigits. intros H Hs.
  pose proof (spanDigits_allChars ok s Hs) as Hrest.
  destruct (Json.spanDigits s) as [digits r]. simpl in Hrest.
  destruct digits as [| c [| c2 more]]; [discriminate | |].
  - destruct (Json.startsFraction r); [discriminate |].
    destruct (NilEmpty.uint_of_string _); [| discriminate].
    simpl in H. now injection H as _ <-.
  - destruct (Ascii.eqb c "0"); [discriminate |].
    destruct (Json.startsFraction r); [discriminate |].
    destruct (NilEmpty.uint_of_string _); [| discriminate].
    simpl in H. now injection H as _ <-.
Qed.

Lemma parseNumber_allChars (ok : ascii -> bool) (s : string) (z : Z)
    (rest : string) :
  Json.parseNumber s = Some (z, rest) ->
  allChars ok s = true -> allChars ok rest = true.
Proof.
  unfold Json.parseNumber. destruct s as [| c r]; [discriminate |].
  intros H Hs. destruct (Ascii.eqb c "-").
  - destruct (Json.parseDigits r) as [[z' rest'] |] eqn:E; [| discriminate].
    simpl in H. injection H as _ <-.
    simpl in Hs. apply andb_true_iff in Hs as [_ Hs].
    exact (parseDigits_allChars ok r z' rest' E Hs).
  - exact (parseDigits_allChars ok _ z rest H Hs).
Qed.

Lemma dropPrefix_allChars (ok : ascii -> bool) (p s r : string) :
  Json.dropPrefix p s = Some r ->
  allChars ok s = true -> allChars ok r = true.
Proof.
  revert s. induction p as [| a p IH]; intros s H Hs.
  - simpl in H. now injection H as <-.
  - destruct s as [| b s]; [discriminate |]. simpl in H.
    destruct (Ascii.eqb a b); [| discriminate].
    simpl in Hs. apply andb_true_iff in Hs as [_ Hs]. exact (IH s H Hs).
Qed.

Lemma parseLiteral_plain (s : string) (v : JSON) (rest : string) :
  Json.parseLiteral s = Some (v, rest) ->
  noBackslash s = true -> plain v = true /\ noBackslash rest = true.
Proof.
  unfold Json.parseLiteral, noBackslash. intros H Hs.
  destruct (Json.dropPrefix "null" s) as [r |] eqn:E1.
  { injection H as <- <-. split; [reflexivity |].
    exact (dropPrefix_allChars _ _ _ _ E1 Hs). }
  destruct (Json.dropPrefix "true" s) as [r |] eqn:E2.
  { injection H as <- <-. split; [reflexivity |].
    exact (dropPrefix_allChars _ _ _ _ E2 Hs). }
  destruct (Json.dropPrefix "false" s) as [r |] eqn:E3.
  { injection H as <- <-. split; [reflexivity |].
    exact (dropPrefix_allChars _ _ _ _ E3 Hs). }
  destruct (Json.parseNumber s) as [[z r] |] eqn:E4; [| discriminate].
  simpl in H. injection H as <- <-. split; [reflexivity |].
  exact (parseNumber_allChars _ _ _ _ E4 Hs).
Qed.

Lemma parseStringBody_plain_value (s str rest : string) :
  Json.parseStringBody s = Some (str, rest) ->
  noBackslash s = true ->
  plainString str = true /\ noBackslash rest = true.
Proof.
  unfold noBackslash, plainString. revert str.
  induction s as [| c s IH]; intros str H Hs; [discriminate |].
  simpl in Hs. apply andb_true_iff in Hs as [Hc Hs].
  apply negb_true_iff in Hc. cbn [Json.parseStringBody] in H.
  destruct (Ascii.eqb c dquote) eqn:Hq.
  { injection H as <- <-. now split. }
  rewrite Hc in H.
  destruct (N.ltb_spec (N_of_ascii c) 32) as [Hlow | Hhigh]; [discriminate |].
  destruct (Json.parseStringBody s) as [[str' rest'] |]; [| discriminate].
  simpl in H. injection H as <- <-.
  destruct (IH str' eq_refl Hs) as [Hstr Hrest].
  split; [| exact Hrest].
  simpl. rewrite Hstr, andb_true_r. unfold plainChar.
  rewrite Hq, Hc. simpl. rewrite !andb_true_r. now apply N.leb_le.
Qed.

Lemma setProp_plain (k : string) (v : JSON) (acc : list (string * JSON)) :
  plainString k = true -> plain v = true ->
  plain (JObj acc) = true -> plain (JObj (Json.setProp k v acc)) = true.
Proof.
  intros Hk Hv. cbn [plain].
  induction acc as [| [k' v'] acc IH]; cbn [Json.setProp forallb].
  - intros _. now rewrite Hk, Hv.
  - intros H. apply andb_true_iff in H as [H1 H2].
    destruct (String.eqb k k'); cbn [forallb].
    + apply andb_true_iff in H1 as [Hk' _]. now rewrite Hk', Hv, H2.
    + now rewrite H1, IH.
Qed.

Lemma parse_plain (fuel : nat) :
  (forall s v rest,
      Json.parseValue fuel s = Some (v, rest) -> noBackslash s = true ->
      plain v = true /\ noBackslash rest = true)
  /\ (forall s acc v rest,
        Json.parseElements fuel s acc = Some (v, rest) ->
        noBackslash s = true -> plain (JArr acc) = true ->
        plain v = true /\ noBackslash rest = true)
  /\ (forall s acc v rest,
        Json.parseMembers fuel s acc = Some (v, rest) ->
        noBackslash s = true -> plain (JObj acc) = true ->
        plain v = true /\ noBackslash rest = true).
Proof.
  assert (Htail : forall c r, noBackslash (String c r) = true ->
                              noBackslash r = true).
  { unfold noBackslash. simpl. intros c r H.
    now apply andb_true_iff in H as [_ H]. }
  induction fuel as [| fuel (IHv & IHe & IHm)];
    [repeat split; discriminate |].
  split; [| split].
  - intros s v rest H Hs. rewrite parseValue_step in H.
    pose proof (skipWs_allChars _ s Hs) as Hskip. fold (noBackslash (Json.skipWs s)) in Hskip.
    destruct (Json.skipWs s) as [| c r]; [discriminate |].
    pose proof (Htail _ _ Hskip) as Hr.
    destruct (Ascii.eqb c "{").
    { pose proof (skipWs_allChars _ r Hr) as Hskip2.
      fold (noBackslash (Json.skipWs r)) in Hskip2.
      destruct (Json.skipWs r) as [| c' r']; [discriminate |].
      destruct (Ascii.eqb c' "}").
      - injection H as <- <-. split; [reflexivity | exact (Htail _ _ Hskip2)].
      - exact (IHm _ _ _ _ H Hr eq_refl). }
    destruct (Ascii.eqb c "[").
    { pose proof (skipWs_allChars _ r Hr) as Hskip2.
      fold (noBackslash (Json.skipWs r)) in Hskip2.
      destruct (Json.skipWs r) as [| c' r']; [discriminate |].
      destruct (Ascii.eqb c' "]").
      - injection H as <- <-. split; [reflexivity | exact (Htail _ _ Hskip2)].
      - exact (IHe _ _ _ _ H Hr eq_refl). }
    destruct (Ascii.eqb c dquote).
    { destruct (Json.parseStringBody r) as [[str rest'] |] eqn:E; [| discriminate].
      injection H as <- <-.
      exact (parseStringBody_plain_value _ _ _ E Hr). }
    exact (parseLiteral_plain _ _ _ H Hskip).
  - intros s acc v rest H Hs Hacc. rewrite parseElements_step in H.
    destruct (Json.parseValue fuel s) as [[x rest1] |] eqn:E; [| discriminate].
    destruct (IHv _ _ _ E Hs) as [Hx Hrest1].
    pose proof (skipWs_allChars _ rest1 Hrest1) as Hskip.
    fold (noBackslash (Json.skipWs rest1)) in Hskip.
    destruct (Json.skipWs rest1) as [| c rest2]; [discriminate |].
    assert (Hacc' : plain (JArr (acc ++ [x])) = true).
    { cbn [plain] in *. rewrite forallb_app, Hacc. simpl. now rewrite Hx. }
    destruct (Ascii.eqb c ",").
    + exact (IHe _ _ _ _ H (Htail _ _ Hskip) Hacc').
    + destruct (Ascii.eqb c "]"); [| discriminate].
      injection H as <- <-. split; [exact Hacc' | exact (Htail _ _ Hskip)].
  - intros s acc v rest H Hs Hacc. rewrite parseMembers_unfold in H.
    pose proof (skipWs_allChars _ s Hs) as Hskip.
    fold (noBackslash (Json.skipWs s)) in Hskip.
    destruct (Json.skipWs s) as [| q r]; [discriminate |].
    destruct (Ascii.eqb q dquote); [| discriminate].
    destruct (Json.parseStringBody r) as [[k rest1] |] eqn:Ek; [| discriminate].
    destruct (parseStringBody_plain_value _ _ _ Ek (Htail _ _ Hskip))
      as [Hk Hrest1].
    pose proof (skipWs_allChars _ rest1 Hrest1) as Hskip1.
    fold (noBackslash (Json.skipWs rest1)) in Hskip1.
    destruct (Json.skipWs rest1) as [| c rest2]; [discriminate |].
    destruct (Ascii.eqb c ":"); [| discriminate].
    destruct (Json.parseValue fuel rest2) as [[x rest3] |] eqn:Ex; [| discriminate].
    destruct (IHv _ _ _ Ex (Htail _ _ Hskip1)) as [Hx Hrest3].
    pose proof (skipWs_allChars _ rest3 Hrest3) as Hskip3.
    fold (noBackslash (Json.skipWs rest3)) in Hskip3.
    destruct (Json.skipWs rest3) as [| c2 rest4]; [discriminate |].
    pose proof (setProp_plain k x acc Hk Hx Hacc) as Hacc'.
    destruct (Ascii.eqb c2 ",").
    + exact (IHm _ _ _ _ H (Htail _ _ Hskip3) Hacc').
    + destruct (Ascii.eqb c2 "}"); [| discriminate].
      injection H as <- <-. split; [exact Hacc' | exact (Htail _ _ Hskip3)].
Qed.

Lemma decodeAttributes_plain (cell fileName : string) (attributes : JSON) :
  decodeAttributes cell fileName = inr attributes -> plain attributes = true.
Proof.
  unfold decodeAttributes, JSON_parse, Json.parse. intros H.
  pose proof (cleanAttributes_noBackslash cell) as Hclean.
  destruct (Json.parseValue _ (cleanAttributes cell)) as [[v rest] |] eqn:E;
    [| discriminate].
  destruct (proj1 (parse_plain _) _ _ _ E Hclean) as [Hv _].
  destruct (Js.isEmpty (Json.skipWs rest)); [| discriminate].
  rewrite bind_ret in H.
  destruct (validateMetadata v fileName) as [e | []]; [discriminate |].
  rewrite bind_ret in H. now injection H as <-.
Qed.

Lemma importRows_plain (lines : list string) :
  forall acc updates,
    importRows lines acc = inr updates ->
    Forall (fun update => plain (Update.attributes update) = true) acc ->
    Forall (fun update => plain (Update.attributes update) = true) updates.
Proof.
  induction lines as [| line lines IH]; intros acc updates H Hacc.
  - simpl in H. now injection H as <-.
  - cbn [importRows] in H.
    destruct (Js.isEmpty (Js.trim line) || Js.startsWith line "Instructions:");
      [exact (IH _ _ H Hacc) |].
    destruct (parseCSVLine line) as [| cell0 [| cell1 more]];
      try exact (IH _ _ H Hacc).
    destruct (Js.isEmpty (cleanFileName cell0)); [exact (IH _ _ H Hacc) |].
    destruct (decodeAttributes cell1 (cleanFileName cell0))
      as [error | attributes] eqn:Hdecode; [discriminate |].
    apply (IH _ _ H). apply Forall_app. split; [exact Hacc |].
    constructor; [| constructor].
    exact (decodeAttributes_plain _ _ _ Hdecode).
Qed.

(** X14 - the clean-up of the attributes cell leaves no backslash for
    [JSON.parse], so no escape is ever read: in every row the parse stage
    yields, no key and no string of the attributes, at any depth, holds a
    double quote, a backslash or a control character. *)
Theorem imported_attributes_plain (text : string) (updates : list Update.t) :
  parseImport text = inr updates ->
  Forall (fun update => plain (Update.attributes update) = true) updates.
Proof.
  unfold parseImport. intros H.
  destruct (importLines text) as [| first rest]; [discriminate |].
  destruct (checkHeader (parseCSVLine first)) as [e | []]; [discriminate |].
  rewrite bind_ret in H.
  destruct (importRows rest []) as [e | rows] eqn:Hrows; [discriminate |].
  rewrite bind_ret in H.
  destruct (List.length rows =? 0)%nat; [discriminate |].
  injection H as <-.
  exact (importRows_plain rest [] rows Hrows (Forall_nil _)).
Qed.

(** ** Deleting a file *)

(** X15 - [handleDeleteFile] does nothing at all when the question is
    not confirmed; otherwise it sends exactly one request, to the address
    of the file, and shows exactly one notification.  The page changes
    only after a response that is ok, and then no record with the file's
    id remains.  In every case the records with another id are kept, in
    their order, and the file being edited, the text of the dialog and
    the import summary stay as they are. *)
Theorem handleDeleteFile_outcome (fetchDelete : string -> FetchResult)
    (p : Page.t) (vectorStoreId : option string) (confirmed : bool)
    (fileId : string) :
  let run := handleDeleteFile fetchDelete p vectorStoreId confirmed fileId in
  let files' := Page.files (DeleteRun.page run) in
  let other := fun file => negb (String.eqb (File.id file) fileId) in
  (confirmed = false -> run = DeleteRun.mk p [] [])
  /\ (confirmed = true ->
      DeleteRun.requests run = [deleteUrl fileId vectorStoreId]
      /\ List.length (DeleteRun.toasts run) = 1)
  /\ (DeleteRun.page run <> p ->
      confirmed = true
      /\ fetchDelete (deleteUrl fileId vectorStoreId) = Response true)
  /\ (confirmed = true ->
      fetchDelete (deleteUrl fileId vectorStoreId) = Response true ->
      forall file, In file files' <-> In file (Page.files p) /\ File.id file <> fileId)
  /\ filter other files' = filter other (Page.files p)
  /\ (files' = Page.files p \/ files' = filter other (Page.files p))
  /\ Page.editingFile (DeleteRun.page run) = Page.editingFile p
  /\ Page.metadataInput (DeleteRun.page run) = Page.metadataInput p
  /\ Page.importSummary (DeleteRun.page run) = Page.importSummary p.
Proof.
  cbv zeta. unfold handleDeleteFile.
  assert (Hin : forall file,
             In file (filter (fun file => negb (String.eqb (File.id file) fileId))
                        (Page.files p))
             <-> In file (Page.files p) /\ File.id file <> fileId).
  { intros file. rewrite filter_In, negb_true_iff.
    destruct (String.eqb_spec (File.id file) fileId); split; intros [H1 H2];
      (split; [assumption |]); congruence. }
  assert (Hidem : forall l : list File.t,
             filter (fun file => negb (String.eqb (File.id file) fileId))
               (filter (fun file => negb (String.eqb (File.id file) fileId)) l)
             = filter (fun file => negb (String.eqb (File.id file) fileId)) l).
  { induction l as [| f l IH]; [reflexivity |]. simpl.
    destruct (negb (String.eqb (File.id f) fileId)) eqn:E; simpl;
      [rewrite E, IH; reflexivity | exact IH]. }
  destruct confirmed; simpl.
  - destruct (fetchDelete (deleteUrl fileId vectorStoreId)) as [[|] | reason];
      simpl; repeat split; try discriminate; try tauto; try congruence;
      try (intros H; exfalso; now apply H);
      try (now apply Hin); try (apply Hidem); auto.
  - repeat split; try discriminate; try tauto; auto.
Qed.

(** ** The file route *)

(** X16 - the file route asks the collaborator for at most one deletion,
    that of the file id of the URL, and for none exactly when the vector
    store id is absent or empty, which it answers with status 400.  The
    status is 200 exactly when the collaborator answered ok, and the
    payload is then the success flag; every other answer has status 500.
    The vector store id is only tested for presence: any two ids that
    are present give the same answer and the same deletion. *)
Theorem DELETE_outcome (routeErrorMessage : RouteError -> string)
    (collaboratorDelete : string -> DeleteReply)
    (fileId : string) (vectorStoreId : option string) :
  let route := DELETE routeErrorMessage collaboratorDelete fileId in
  let response := fst (route vectorStoreId) in
  let calls := snd (route vectorStoreId) in
  (calls = [] \/ calls = [fileId])
  /\ (calls = [] <-> status response = 400)
  /\ (status response = 400
      <-> vectorStoreId = None \/ vectorStoreId = Some EmptyString)
  /\ (status response = 200
      <-> calls = [fileId]
          /\ exists body, collaboratorDelete fileId = DeleteResolved true body)
  /\ (status response = 200 ->
      payload response = JObj [("success", JBool true)])
  /\ (status response = 200 \/ status response = 400 \/ status response = 500)
  /\ (forall id other,
        vectorStoreId = Some id -> Js.isEmpty id = false ->
        Js.isEmpty other = false ->
        route (Some other) = route vectorStoreId).
Proof.
  cbv zeta. unfold DELETE.
  destruct vectorStoreId as [[| c id] |]; simpl.
  - repeat split; try discriminate; try tauto; auto;
      try (intros [H _]; discriminate);
      try (intros id' other H Hid Ho; first [discriminate H | injection H as <-; first [discriminate Hid | now rewrite Ho]]).
  - destruct (collaboratorDelete fileId) as [[|] [reason | errorData] | reason];
      simpl; repeat split; try discriminate; try tauto; auto;
      try (intros [H | H]; discriminate);
      try (intros [_ [body H]]; discriminate);
      try (now eexists);
      try (intros id' other H Hid Ho; first [discriminate H | injection H as <-; first [discriminate Hid | now rewrite Ho]]).
  - repeat split; try discriminate; try tauto; auto;
      try (intros [H _]; discriminate);
      try (intros id' other H Hid Ho; first [discriminate H | injection H as <-; first [discriminate Hid | now rewrite Ho]]).
Qed.

(** ** The list route *)

Lemma collect_spec (collaboratorRetrieve : string -> option Details.t)
    (vectorStoreId : string) (delivered : list StoreFile.t) :
  forall allFiles retrieved,
    match collect collaboratorRetrieve vectorStoreId delivered allFiles retrieved with
    | (Some files, asked) =>
        asked = retrieved ++ map StoreFile.id delivered
        /\ exists listed,
             files = allFiles ++ listed
             /\ Forall2 (fun file record =>
                           exists fileDetails,
                             collaboratorRetrieve (StoreFile.id file)
                             = Some fileDetails
                             /\ record = listedFile vectorStoreId file fileDetails)
                  delivered listed
    | (None, asked) =>
        exists before file after,
          delivered = before ++ file :: after
          /\ asked = retrieved ++ map StoreFile.id (before ++ [file])
          /\ collaboratorRetrieve (StoreFile.id file) = None
          /\ Forall (fun f => collaboratorRetrieve (StoreFile.id f) <> None) before
    end.
Proof.
  induction delivered as [| file rest IH]; intros allFiles retrieved.
  - simpl. rewrite List.app_nil_r. split; [reflexivity |].
    exists []. rewrite List.app_nil_r. split; [reflexivity | constructor].
  - cbn [collect].
    destruct (collaboratorRetrieve (StoreFile.id file)) as [d |] eqn:E.
    + specialize (IH (allFiles ++ [listedFile vectorStoreId file d])
                     (retrieved ++ [StoreFile.id file])).
      destruct (collect collaboratorRetrieve vectorStoreId rest _ _)
        as [[files |] asked].
      * destruct IH as (Hasked & listed & Hfiles & Hall).
        split; [now rewrite Hasked, <- app_assoc |].
        exists (listedFile vectorStoreId file d :: listed).
        split; [now rewrite Hfiles, <- app_assoc |].
        constructor; [now exists d | exact Hall].
      * destruct IH as (before & f & after & Hd & Hasked & Hf & Hbefore).
        exists (file :: before), f, after.
        split; [now rewrite Hd |].
        split; [now rewrite Hasked, <- app_assoc |].
        split; [exact Hf |].
        constructor; [congruence | exact Hbefore].
    + exists [], file, rest. repeat split; [exact E | constructor].
Qed.

(** X17 - the list route answers with a list only when the listing ends
    and every retrieval succeeds: the list then has one record for each
    file delivered, in order, built from the file and its details, and
    the details were retrieved once for each file, in order.  In each
    record the name is the file name, the vector store id is the one of
    the request, and the attributes are never falsy (absent or null
    attributes become the empty object).  With no vector store id the
    answer is 400 and nothing is retrieved; in every other case the
    answer is 500 with the one fixed text, never a partial list, and the
    retrievals stop at the first that fails. *)
Theorem GET_outcome (collaboratorList : string -> list StoreFile.t * bool)
    (collaboratorRetrieve : string -> option Details.t)
    (vectorStoreId : option string) :
  match GET collaboratorList collaboratorRetrieve vectorStoreId with
  | (Listed files, retrieved) =>
      exists id delivered,
        vectorStoreId = Some id /\ Js.isEmpty id = false
        /\ collaboratorList id = (delivered, true)
        /\ retrieved = map StoreFile.id delivered
        /\ Forall2 (fun file record =>
                      exists fileDetails,
                        collaboratorRetrieve (StoreFile.id file) = Some fileDetails
                        /\ record = listedFile id file fileDetails)
             delivered files
        /\ Forall (fun record =>
                     File.name record = File.filename record
                     /\ File.vectorStoreId record = id
                     /\ Obj.falsy (Some (File.attributes record)) = false)
             files
  | (ListFailed code text, retrieved) =>
      (code = 400 /\ text = "Vector store ID is required" /\ retrieved = []
       /\ (vectorStoreId = None \/ vectorStoreId = Some EmptyString))
      \/ (code = 500 /\ text = "Failed to fetch files"
          /\ exists id,
               vectorStoreId = Some id /\ Js.isEmpty id = false
               /\ ((snd (collaboratorList id) = false
                    /\ retrieved = map StoreFile.id (fst (collaboratorList id)))
                   \/ exists before file after,
                        fst (collaboratorList id) = before ++ file :: after
                        /\ retrieved = map StoreFile.id (before ++ [file])
                        /\ collaboratorRetrieve (StoreFile.id file) = None
                        /\ Forall (fun f => collaboratorRetrieve (StoreFile.id f)
                                            <> None) before))
  end.
Proof.
  unfold GET. destruct vectorStoreId as [id |]; [| left; auto].
  destruct (Js.isEmpty id) eqn:Hid.
  { left. destruct id; [auto | discriminate]. }
  destruct (collaboratorList id) as [delivered completed] eqn:Hlist.
  pose proof (collect_spec collaboratorRetrieve id delivered [] []) as H.
  destruct (collect collaboratorRetrieve id delivered [] [])
    as [[files |] asked].
  - destruct H as (Hasked & listed & Hfiles & Hall). simpl in Hasked, Hfiles.
    subst listed asked.
    destruct completed.
    + exists id, delivered. repeat split; try assumption; try reflexivity.
      clear Hlist. induction Hall as [| file record ? ? (d & _ & ->) _ IH];
        constructor; [| exact IH].
      unfold listedFile. cbn [File.name File.filename File.vectorStoreId
                                File.attributes].
      repeat split.
      destruct (StoreFile.attributes file) as [a |]; [| reflexivity].
      destruct (Obj.falsy (Some a)) eqn:E; [reflexivity | exact E].
    + right. split; [reflexivity |]. split; [reflexivity |].
      exists id. split; [reflexivity |]. split; [assumption |].
      left. rewrite Hlist. simpl. now split.
  - right. split; [reflexivity |]. split; [reflexivity |].
    exists id. split; [reflexivity |]. split; [assumption |].
    right. rewrite Hlist. simpl. destruct H as (before & file & after & Hd & Hasked & Hf & Hbefore).
    exists before, file, after. now repeat split.
Qed.

(** ** Dragging a column border *)

Lemma widthOf_setWidth (column : string) (w : Width)
    (prev : list (string * Width)) :
  widthOf column (setWidth column w prev) = Some w.
Proof.
  induction prev as [| [k w'] prev IH]; simpl.
  - now rewrite String.eqb_refl.
  - destruct (String.eqb column k) eqn:E; simpl; now rewrite E.
Qed.

Lemma widthOf_setWidth_other (column other : string) (w : Width)
    (prev : list (string * Width)) :
  other <> column ->
  widthOf other (setWidth column w prev) = widthOf other prev.
Proof.
  intros Hne. induction prev as [| [k w'] prev IH]; simpl.
  - destruct (String.eqb_spec other column); [contradiction | reflexivity].
  - destruct (String.eqb_spec column k) as [-> | Hk]; simpl.
    + destruct (String.eqb_spec other k); [contradiction | reflexivity].
    + now rewrite IH.
Qed.

Lemma setWidth_keys (column : string) (w w0 : Width)
    (prev : list (string * Width)) :
  widthOf column prev = Some w0 ->
  map fst (setWidth column w prev) = map fst prev.
Proof.
  induction prev as [| [k w'] prev IH]; simpl; [discriminate |].
  destruct (String.eqb column k); simpl; [reflexivity |].
  intros H. now rewrite IH.
Qed.

Lemma setWidth_setWidth (column : string) (w1 w2 : Width)
    (prev : list (string * Width)) :
  setWidth column w2 (setWidth column w1 prev) = setWidth column w2 prev.
Proof.
  induction prev as [| [k w'] prev IH]; simpl.
  - now rewrite String.eqb_refl.
  - destruct (String.eqb column k) eqn:E; simpl; rewrite E;
      [reflexivity | now rewrite IH].
Qed.

Lemma setWidth_same (column : string) (w : Width)
    (prev : list (string * Width)) :
  widthOf column prev = Some w -> setWidth column w prev = prev.
Proof.
  induction prev as [| [k w'] prev IH]; simpl; [discriminate |].
  destruct (String.eqb column k).
  - intros H. now injection H as ->.
  - intros H. now rewrite IH.
Qed.

(** X18 - while the border of a column is dragged, the width of that
    column is its width at the start of the drag plus the distance of
    the pointer from where the drag started, and never less than 50; it
    depends on the last position of the pointer only.  No other column
    changes its width, the columns stay the same and in the same order,
    bringing the pointer back to the start restores a width that was at
    least 50, and after the end of the drag a move changes nothing. *)
Theorem resize_drag (columnWidths : list (string * Width)) (column : string)
    (w startX x1 x2 : Z) :
  widthOf column columnWidths = Some (Px w) ->
  Js.isEmpty column = false ->
  let resizing := handleResizeStart columnWidths column startX in
  let moved :=
    handleResizeMove resizing x2 (handleResizeMove resizing x1 columnWidths) in
  moved = handleResizeMove resizing x2 columnWidths
  /\ widthOf column moved = Some (Px (Z.max 50 (w + (x2 - startX))))
  /\ (forall other, other <> column ->
        widthOf other moved = widthOf other columnWidths)
  /\ map fst moved = map fst columnWidths
  /\ (50 <= w ->
      handleResizeMove resizing startX
        (handleResizeMove resizing x1 columnWidths) = columnWidths)%Z
  /\ handleResizeMove handleResizeEnd x2 moved = moved.
Proof.
  intros Hw Hcol. cbv zeta.
  unfold handleResizeMove, handleResizeStart. simpl.
  rewrite Hcol, Hw. simpl.
  rewrite !setWidth_setWidth.
  split; [reflexivity |].
  split; [apply widthOf_setWidth |].
  split; [intros other Ho; now apply widthOf_setWidth_other |].
  split; [now apply (setWidth_keys column _ (Px w)) |].
  split; [| reflexivity].
  intros Hmin. apply setWidth_same.
  rewrite Hw. do 2 f_equal. lia.
Qed.

(** ** What an import leaves on the page *)

(** X19 - an import with no file chosen does nothing.  With a file, the
    summary dialog is shown whatever happens, the file being edited and
    the text of the edit dialog stay as they are, and the file list is
    either the one before or the one the listing returned after the
    requests of this import; the listing is asked for exactly when the
    parse stage succeeds, and its failure is the only notification an
    import shows.  When the parse stage fails nothing is sent, the file
    list stays and the summary holds the single entry of the failure. *)
Theorem handleImportFiles_outcome (p : Page.t) (chosen : option string) :
  let run := handleImportFiles p chosen in
  let page := Run.page run in
  (chosen = None -> run = Run.mk p [] [])
  /\ (chosen <> None -> Summary.show (Page.importSummary page) = true)
  /\ Page.editingFile page = Page.editingFile p
  /\ Page.metadataInput page = Page.metadataInput p
  /\ (Page.files page = Page.files p
      \/ fetchList (Run.requests run) = Some (Page.files page))
  /\ (Run.toasts run = []
      \/ (Run.toasts run = [ToastError "Failed to load files"]
          /\ fetchList (Run.requests run) = None
          /\ Page.files page = Page.files p))
  /\ (forall text error,
        chosen = Some text -> parseImport text = inl error ->
        Run.requests run = [] /\ Run.toasts run = []
        /\ Page.files page = Page.files p
        /\ Page.importSummary page
           = Summary.mk true Summary.emptyTally
               (Summary.mkTally 1
                  [Summary.mkEntry "Import Process" (message error)])
               Summary.emptyTally).
Proof.
  cbv zeta. unfold handleImportFiles.
  destruct chosen as [text |]; [| simpl; repeat split; auto; discriminate].
  destruct (parseImport text) as [error | updates] eqn:Hparse.
  - simpl. split; [discriminate |]. do 5 (split; [auto |]).
    intros text' error' Ht He. injection Ht as <-.
    rewrite Hparse in He. injection He as <-. repeat split.
  - destruct (reconcile (Page.files p) updates Summary.initial [])
      as [summary sent].
    unfold fetchFiles.
    destruct (fetchList sent) as [listed |] eqn:Hlist; simpl;
      (split; [discriminate |]); (split; [reflexivity |]);
      (split; [reflexivity |]); (split; [reflexivity |]).
    + split; [right; exact Hlist |].
      split; [auto |]. intros text' error' Ht He. injection Ht as <-.
      rewrite Hparse in He. discriminate.
    + split; [left; reflexivity |].
      split; [right; auto |]. intros text' error' Ht He. injection Ht as <-.
      rewrite Hparse in He. discriminate.
Qed.

(** ** What the dialog accepts, the route accepts *)

Lemma setProp_keys (k : string) (v : JSON) (acc : list (string * JSON)) :
  map fst (Json.setProp k v acc)
  = if existsb (String.eqb k) (map fst acc) then map fst acc
    else map fst acc ++ [k].
Proof.
  induction acc as [| [k' v'] acc IH]; [reflexivity |].
  cbn [Json.setProp map fst existsb].
  destruct (String.eqb k k') eqn:E; cbn [orb map fst]; [reflexivity |].
  rewrite IH. now destruct (existsb (String.eqb k) (map fst acc)).
Qed.

Lemma distinct_snoc (keys : list string) (k : string) :
  distinct keys = true -> existsb (String.eqb k) keys = false ->
  distinct (keys ++ [k]) = true.
Proof.
  induction keys as [| k' keys IH]; [reflexivity |].
  simpl. intros H Hk.
  apply andb_true_iff in H as [Hfresh Hd].
  apply orb_false_iff in Hk as [Hkk' Hk].
  rewrite (IH Hd Hk), andb_true_r.
  apply negb_true_iff in Hfresh. apply negb_true_iff.
  rewrite existsb_app, Hfresh. simpl.
  rewrite String.eqb_sym, Hkk'. reflexivity.
Qed.

Lemma setProp_wf (k : string) (v : JSON) (acc : list (string * JSON)) :
  wf_json v = true -> wf_json (JObj acc) = true ->
  wf_json (JObj (Json.setProp k v acc)) = true.
Proof.
  intros Hv H. cbn [wf_json] in *. apply andb_true_iff in H as [Hd Hall].
  apply andb_true_iff. split.
  - rewrite setProp_keys.
    destruct (existsb (String.eqb k) (map fst acc)) eqn:E; [exact Hd |].
    now apply distinct_snoc.
  - clear Hd. induction acc as [| [k' v'] acc IH]; cbn [Json.setProp forallb].
    + now rewrite Hv.
    + cbn [forallb] in Hall. apply andb_true_iff in Hall as [H1 H2].
      destruct (String.eqb k k'); cbn [forallb].
      * now rewrite Hv, H2.
      * now rewrite H1, IH.
Qed.

Lemma parse_wf (fuel : nat) :
  (forall s v rest, Json.parseValue fuel s = Some (v, rest) -> wf_json v = true)
  /\ (forall s acc v rest,
        Json.parseElements fuel s acc = Some (v, rest) ->
        wf_json (JArr acc) = true -> wf_json v = true)
  /\ (forall s acc v rest,
        Json.parseMembers fuel s acc = Some (v, rest) ->
        wf_json (JObj acc) = true -> wf_json v = true).
Proof.
  induction fuel as [| fuel (IHv & IHe & IHm)];
    [repeat split; discriminate |].
  split; [| split].
  - intros s v rest H. rewrite parseValue_step in H.
    destruct (Json.skipWs s) as [| c r]; [discriminate |].
    destruct (Ascii.eqb c "{").
    { destruct (Json.skipWs r) as [| c' r']; [discriminate |].
      destruct (Ascii.eqb c' "}"); [now injection H as <- <- |].
      exact (IHm _ _ _ _ H eq_refl). }
    destruct (Ascii.eqb c "[").
    { destruct (Json.skipWs r) as [| c' r']; [discriminate |].
      destruct (Ascii.eqb c' "]"); [now injection H as <- <- |].
      exact (IHe _ _ _ _ H eq_refl). }
    destruct (Ascii.eqb c dquote).
    { destruct (Json.parseStringBody r) as [[str rest'] |]; [| discriminate].
      now injection H as <- <-. }
    unfold Json.parseLiteral in H.
    destruct (Json.dropPrefix "null" _); [now injection H as <- <- |].
    destruct (Json.dropPrefix "true" _); [now injection H as <- <- |].
    destruct (Json.dropPrefix "false" _); [now injection H as <- <- |].
    destruct (Json.parseNumber _) as [[z r'] |]; [| discriminate].
    simpl in H. now injection H as <- <-.
  - intros s acc v rest H Hacc. rewrite parseElements_step in H.
    destruct (Json.parseValue fuel s) as [[x rest1] |] eqn:E; [| discriminate].
    pose proof (IHv _ _ _ E) as Hx.
    destruct (Json.skipWs rest1) as [| c rest2]; [discriminate |].
    assert (Hacc' : wf_json (JArr (acc ++ [x])) = true).
    { cbn [wf_json] in *. rewrite forallb_app, Hacc. cbn [forallb].
      now rewrite Hx. }
    destruct (Ascii.eqb c ","); [exact (IHe _ _ _ _ H Hacc') |].
    destruct (Ascii.eqb c "]"); [| discriminate].
    now injection H as <- <-.
  - intros s acc v rest H Hacc. rewrite parseMembers_unfold in H.
    destruct (Json.skipWs s) as [| q r]; [discriminate |].
    destruct (Ascii.eqb q dquote); [| discriminate].
    destruct (Json.parseStringBody r) as [[k rest1] |]; [| discriminate].
    destruct (Json.skipWs rest1) as [| c rest2]; [discriminate |].
    destruct (Ascii.eqb c ":"); [| discriminate].
    destruct (Json.parseValue fuel rest2) as [[x rest3] |] eqn:Ex; [| discriminate].
    pose proof (IHv _ _ _ Ex) as Hx.
    destruct (Json.skipWs rest3) as [| c2 rest4]; [discriminate |].
    pose proof (setProp_wf k x acc Hx Hacc) as Hacc'.
    destruct (Ascii.eqb c2 ","); [exact (IHm _ _ _ _ H Hacc') |].
    destruct (Ascii.eqb c2 "}"); [| discriminate].
    now injection H as <- <-.
Qed.

Lemma parse_wf_json (text : string) (v : JSON) :
  Json.parse text = Some v -> wf_json v = true.
Proof.
  unfold Json.parse. intros H.
  destruct (Json.parseValue _ text) as [[x rest] |] eqn:E; [| discriminate].
  destruct (Js.isEmpty (Json.skipWs rest)); [| discriminate].
  injection H as <-. exact (proj1 (parse_wf _) _ _ _ E).
Qed.

Lemma requestJson_body (request : Patch.t) :
  wf_json (Patch.attributes request) = true ->
  requestJson request = Some (Patch.body request).
Proof.
  intros Hwf. unfold requestJson. rewrite <- (stringifyGap_compact EmptyString).
  apply parse_stringifyGap; [| reflexivity].
  unfold Patch.body. simpl. now rewrite Hwf.
Qed.

Lemma PATCH_within_limits (fileId : string) (a : JSON) (vs : string) :
  withinLimits a -> Js.isEmpty vs = false ->
  PATCH fileId
    (Some (JObj [("attributes", a); ("vectorStoreId", JStr vs)]))
  = match collaboratorUpdate (mkCall (JStr vs) fileId a) with
    | inr updatedFile => (mkResponse 200 updatedFile, [mkCall (JStr vs) fileId a])
    | inl apiMessage => (errorResponse 500 apiMessage, [mkCall (JStr vs) fileId a])
    end.
Proof.
  intros (keys & Hkeys & Hlen & Hall) Hvs.
  unfold PATCH. cbn [destructure Obj.get Json.lookup ret].
  change (String.eqb "attributes" "attributes") with true.
  change (String.eqb "vectorStoreId" "attributes") with false.
  change (String.eqb "vectorStoreId" "vectorStoreId") with true.
  cbv iota. cbn [Obj.falsy]. rewrite Hvs. cbn [keysOf]. rewrite Hkeys.
  destruct (Nat.ltb_spec 16 (List.length keys)) as [Hmany | _]; [lia |].
  assert (Hlong : hasLongKey keys = false).
  { unfold hasLongKey. apply not_true_is_false. intros H.
    apply existsb_exists in H as (key & Hin & Hkey).
    rewrite Forall_forall in Hall. specialize (Hall key Hin).
    apply Nat.ltb_lt in Hkey. lia. }
  now rewrite Hlong.
Qed.

(** X20 - what the edit dialog accepts, the route accepts: every request
    that [handleSaveMetadata] sends reaches the route with the attributes
    the dialog parsed, passes the route's own two limits and, when the
    edited record has a vector store id, leads to exactly one call of
    the collaborator with these attributes; the answer is then 200 or
    500, as the collaborator decides.  Only a record without a vector
    store id is refused, with status 400 and no call. *)
Theorem saved_request_served (p : Page.t) (request : Patch.t) :
  In request (Run.requests (handleSaveMetadata p)) ->
  let served := PATCH (Patch.fileId request) (requestJson request) in
  requestJson request = Some (Patch.body request)
  /\ (Js.isEmpty (Patch.vectorStoreId request) = false ->
      snd served
      = [mkCall (JStr (Patch.vectorStoreId request)) (Patch.fileId request)
           (Patch.attributes request)]
      /\ (status (fst served) = 200 \/ status (fst served) = 500))
  /\ (Js.isEmpty (Patch.vectorStoreId request) = true ->
      served = (errorResponse 400 "Vector store ID is required", [])).
Proof.
  intros Hin.
  assert (H : Json.parse (Page.metadataInput p) = Some (Patch.attributes request)
              /\ withinLimits (Patch.attributes request)).
  { unfold handleSaveMetadata in Hin.
    destruct (Page.editingFile p) as [editing |]; [| destruct Hin].
    destruct (parseAttributesInput (Page.metadataInput p)) as [e | parsed] eqn:Hp;
      [destruct Hin |].
    apply parseAttributesInput_accepts in Hp.
    destruct (fetchPatch [] (patchOf editing parsed)) as [[|] | [m |]];
      destruct Hin as [<- | []]; exact Hp. }
  destruct H as [Hparse Hlim].
  pose proof (parse_wf_json _ _ Hparse) as Hwf.
  pose proof (requestJson_body request Hwf) as Hjson.
  cbv zeta. rewrite Hjson. split; [reflexivity |]. split.
  - intros Hvs. unfold Patch.body.
    rewrite (PATCH_within_limits _ _ _ Hlim Hvs).
    destruct (collaboratorUpdate _); simpl; auto.
  - intros Hvs. unfold PATCH, Patch.body.
    cbn [destructure Obj.get Json.lookup ret].
    change (String.eqb "vectorStoreId" "attributes") with false.
    change (String.eqb "vectorStoreId" "vectorStoreId") with true.
    cbv iota. cbn [Obj.falsy]. now rewrite Hvs.
Qed.

(** ** The exported document *)



End App.

(** * The theorems at sample inputs *)

(** C1 at a sheet of three rows whose second row has no [status]. *)
Lemma schema_violation_aborts_import_witness :
  importLines noStatusSheet
  = "File Name,Attributes" :: [reportLine] ++ noStatusLine :: [reportLine]
  /\ importRows sampleEngineMessage [reportLine] [] = inr [reportRow]
  /\ parseCSVLine noStatusLine = ["manual"; Json.stringify sampleNoStatus]
  /\ JSON_parse (cleanAttributes (Json.stringify sampleNoStatus))
     = inr sampleNoStatus
  /\ violatesSchema sampleNoStatus = true
  /\ Run.requests
       (handleImportFiles sampleEngineMessage alwaysOk noListing samplePage
          (Some noStatusSheet)) = []
  /\ Page.importSummary
       (Run.page
          (handleImportFiles sampleEngineMessage alwaysOk noListing samplePage
             (Some noStatusSheet)))
     = Summary.failure
         ("Invalid JSON in attributes for file " ++ DQ ++ "manual" ++ DQ
          ++ ": File " ++ DQ ++ "manual" ++ DQ
          ++ " is missing required fields: status").
Proof.
  destruct (schema_violation_aborts_import sampleEngineMessage alwaysOk noListing
              samplePage noStatusSheet "File Name,Attributes" noStatusLine
              [reportLine] [reportLine] [reportRow]
              "manual" (Json.stringify sampleNoStatus) [] sampleNoStatus)
    as (violation & Hviolation & Hrun & Hrequests & _);
    try reflexivity.
  do 5 (split; [reflexivity |]).
  split; [exact Hrequests |].
  rewrite Hrun.
  assert (Hv : @inl Exn unit violation
               = inl (Error ("File " ++ DQ ++ "manual" ++ DQ
                             ++ " is missing required fields: status")))
    by (rewrite <- Hviolation; reflexivity).
  injection Hv as ->. reflexivity.
Defined.

(** C2, as first stated, fails: the file list of one record without
    attributes, as the listing route gives it ([file.attributes || {}]),
    is exported and remapped into a sheet that the parser rejects for its
    missing fields. *)
Lemma export_import_roundtrip_fails :
  wf_json (File.attributes reportFile) = true
  /\ plain (File.attributes reportFile) = true
  /\ exists text,
      remapExport sampleISOString [reportFile] = inr text
      /\ parseImport sampleEngineMessage text
         = inl (Error ("Invalid JSON in attributes for file " ++ DQ ++ "report.pdf"
                       ++ DQ ++ ": File " ++ DQ ++ "report.pdf" ++ DQ
                       ++ " is missing required fields: title, documentCategory, documentType, year, version, referenceCode, status, jurisdiction")).
Proof.
  split; [reflexivity |]. split; [reflexivity |].
  eexists. split; reflexivity.
Qed.

(** C2 at the file list of one record with complete attributes. *)
Lemma export_import_roundtrip_witness :
  [manualFile] <> []
  /\ forallb reimportable [manualFile] = true
  /\ exists text updates,
      remapExport sampleISOString [manualFile] = inr text
      /\ parseImport sampleEngineMessage text = inr updates
      /\ map Update.attributes updates = [sampleAttributes]
      /\ map Update.fileName updates = ["manual.pdf"].
Proof.
  split; [discriminate |]. split; [reflexivity |].
  destruct (export_import_roundtrip sampleEngineMessage sampleISOString
              [manualFile] ltac:(discriminate) eq_refl) as [Hproduced Hread].
  destruct (Hproduced eq_refl) as [text Htext].
  destruct (Hread text Htext) as (updates & Hparse & Hattributes & Hnames).
  exists text, updates. now repeat split.
Defined.

(** C5 at an object of seventeen keys. *)
Lemma oversized_attributes_rejected_witness :
  oversized seventeenProps
  /\ (exists text,
        handleSaveMetadata sampleEngineMessage alwaysOk
          (editingPage (Json.stringify seventeenKeys))
        = Run.mk (editingPage (Json.stringify seventeenKeys)) []
            [ToastError text])
  /\ routeFetch acceptingCollaborator (Patch.mk "file-2" seventeenKeys "vs_1")
     = (Response false, []).
Proof.
  assert (Hover : oversized seventeenProps) by (left; simpl; lia).
  destruct (oversized_attributes_rejected sampleEngineMessage alwaysOk
              acceptingCollaborator seventeenProps Hover)
    as (Hsave & _ & Hroute).
  split; [exact Hover |]. split.
  - exact (Hsave (editingPage (Json.stringify seventeenKeys)) manualFile
             eq_refl eq_refl).
  - exact (Hroute (Patch.mk "file-2" seventeenKeys "vs_1") eq_refl).
Defined.

(** C6, as first stated, fails: when the update of the first row is
    refused, the two rows give no success at all; the count of one needs
    the update to succeed. *)
Lemma import_two_rows_refused :
  parseImport sampleEngineMessage twoRowSheet = inr [reportRow; missingRow]
  /\ findFile (Page.files samplePage) (Update.fileName reportRow)
     = Some reportFile
  /\ findFile (Page.files samplePage) (Update.fileName missingRow) = None
  /\ Summary.count
       (Summary.success
          (Page.importSummary
             (Run.page
                (handleImportFiles sampleEngineMessage alwaysRefused noListing
                   samplePage (Some twoRowSheet))))) <> 1.
Proof. repeat split. discriminate. Qed.

(** C6 at the sheet of two rows, with updates that succeed. *)
Lemma import_two_rows_witness :
  parseImport sampleEngineMessage twoRowSheet = inr [reportRow; missingRow]
  /\ findFile (Page.files samplePage) (Update.fileName reportRow)
     = Some reportFile
  /\ findFile (Page.files samplePage) (Update.fileName missingRow) = None
  /\ Summary.notFound
       (Page.importSummary
          (Run.page
             (handleImportFiles sampleEngineMessage alwaysOk noListing
                samplePage (Some twoRowSheet))))
     = Summary.mkTally 1 ["missing"]
  /\ Run.requests
       (handleImportFiles sampleEngineMessage alwaysOk noListing
          samplePage (Some twoRowSheet))
     = [patchOf reportFile sampleAttributes]
  /\ Summary.success
       (Page.importSummary
          (Run.page
             (handleImportFiles sampleEngineMessage alwaysOk noListing
                samplePage (Some twoRowSheet))))
     = Summary.mkTally 1 ["report"].
Proof.
  destruct (import_two_rows sampleEngineMessage alwaysOk noListing samplePage
              twoRowSheet reportRow missingRow reportFile
              eq_refl eq_refl eq_refl)
    as (HnotFound & Hrequests & Hsuccess).
  do 3 (split; [reflexivity |]).
  split; [exact HnotFound |]. split; [exact Hrequests |].
  exact (proj1 (Hsuccess eq_refl)).
Defined.



(** C9 at the page of two records, the second being edited. *)
Lemma handleSaveMetadata_frame_witness :
  Page.editingFile (editingPage sampleAttributesText) = Some manualFile
  /\ parseAttributesInput (Page.metadataInput (editingPage sampleAttributesText))
     = inr sampleAttributes
  /\ alwaysOk [] (patchOf manualFile sampleAttributes) = Response true
  /\ List.length
       (Page.files
          (Run.page
             (handleSaveMetadata sampleEngineMessage alwaysOk
                (editingPage sampleAttributesText)))) = 2
  /\ exists file',
      nth_error
        (Page.files
           (Run.page
              (handleSaveMetadata sampleEngineMessage alwaysOk
                 (editingPage sampleAttributesText)))) 0 = Some file'
      /\ file' = reportFile.
Proof.
  destruct (handleSaveMetadata_frame sampleEngineMessage alwaysOk
              (editingPage sampleAttributesText) manualFile sampleAttributes
              eq_refl eq_refl eq_refl)
    as (Hlength & Hrecords).
  do 3 (split; [reflexivity |]).
  split; [exact Hlength |].
  destruct (Hrecords 0 reportFile eq_refl) as (file' & Hnth & Hother & _).
  exists file'. split; [exact Hnth |].
  apply Hother. discriminate.
Defined.

(** C10 at the sheet of two rows. *)
Lemma import_summary_partition_witness :
  parseImport sampleEngineMessage twoRowSheet = inr [reportRow; missingRow]
  /\ Summary.count
       (Summary.success
          (Page.importSummary
             (Run.page
                (handleImportFiles sampleEngineMessage alwaysOk noListing
                   samplePage (Some twoRowSheet)))))
     + Summary.count
         (Summary.notFound
            (Page.importSummary
               (Run.page
                  (handleImportFiles sampleEngineMessage alwaysOk noListing
                     samplePage (Some twoRowSheet)))))
     + Summary.count
         (Summary.errors
            (Page.importSummary
               (Run.page
                  (handleImportFiles sampleEngineMessage alwaysOk noListing
                     samplePage (Some twoRowSheet)))))
     = 2.
Proof.
  split; [reflexivity |].
  exact (proj1 (import_summary_partition sampleEngineMessage alwaysOk noListing
                  samplePage twoRowSheet [reportRow; missingRow] eq_refl)).
Defined.

(** A record that satisfies the schema but whose title holds a double
    quote does not survive either: the clean-up of the attributes cell
    removes the backslash of the escaped quote, and what is left is not
    JSON.  This is why the amended C2 asks for values without escapes. *)
Lemma export_import_escaped_value :
  violatesSchema (File.attributes quotedTitleFile) = false
  /\ wf_json (File.attributes quotedTitleFile) = true
  /\ plain (File.attributes quotedTitleFile) = false
  /\ Json.parse
       (cleanAttributes (Json.stringify (File.attributes quotedTitleFile)))
     = None
  /\ exists text,
      remapExport sampleISOString [quotedTitleFile] = inr text
      /\ parseImport sampleEngineMessage text
         = inl (rowError sampleEngineMessage "notes.pdf"
                  (Engine
                     (SyntaxError_JSON
                        (cleanAttributes
                           (Json.stringify (File.attributes quotedTitleFile)))))).
Proof.
  do 4 (split; [reflexivity |]).
  eexists. split; reflexivity.
Qed.


(** * The further properties at sample inputs *)

(** The line endings of the sheet of two rows. *)
Lemma import_line_endings_witness :
  Forall (fun x => noLineFeed x = true /\ lastIsCR x = false)
    ["File Name,Attributes"; reportLine; missingLine]
  /\ parseImport sampleEngineMessage
       (Js.join CRLF ["File Name,Attributes"; reportLine; missingLine])
     = inr [reportRow; missingRow].
Proof.
  assert (H : Forall (fun x => noLineFeed x = true /\ lastIsCR x = false)
                ["File Name,Attributes"; reportLine; missingLine])
    by (repeat constructor).
  split; [exact H |].
  destruct (import_line_endings sampleEngineMessage _ _ H) as (_ & _ & ->).
  reflexivity.
Defined.

(** The template offered for download, imported as it is: the row of
    the word Instructions has a name and an empty attributes cell. *)
Lemma blank_attributes_abort_witness :
  parseCSVLine (csvRow ["Instructions:"; EmptyString])
  = ["Instructions:"; EmptyString]
  /\ cleanAttributes EmptyString = EmptyString
  /\ handleImportFiles sampleEngineMessage alwaysOk noListing samplePage
       (Some handleDownloadTemplate)
     = Run.mk (setImportSummary
                 (Summary.failure
                    ("Invalid JSON in attributes for file " ++ DQ
                     ++ "Instructions:" ++ DQ ++ ": Unexpected token in JSON"))
                 samplePage)
         [] [].
Proof.
  split; [reflexivity |]. split; [reflexivity |].
  exact (blank_attributes_abort sampleEngineMessage alwaysOk noListing
           samplePage handleDownloadTemplate
           (csvRow ["File Name"; "Attributes"])
           (csvRow ["Instructions:"; EmptyString])
           (map csvRow (firstn 3 (skipn 1 template)))
           (map csvRow (skipn 5 template))
           (match importRows sampleEngineMessage
                    (map csvRow (firstn 3 (skipn 1 template))) [] with
            | inr rows => rows
            | inl _ => []
            end)
           "Instructions:" EmptyString []
           eq_refl eq_refl eq_refl eq_refl eq_refl eq_refl eq_refl).
Defined.

(** The rows of the sheet of two rows. *)
Lemma parseImport_rows_witness :
  parseImport sampleEngineMessage twoRowSheet = inr [reportRow; missingRow]
  /\ [reportRow; missingRow] <> []
  /\ List.length [reportRow; missingRow] < List.length (importLines twoRowSheet)
  /\ Forall goodRow [reportRow; missingRow].
Proof.
  split; [reflexivity |].
  exact (parseImport_rows sampleEngineMessage twoRowSheet
           [reportRow; missingRow] eq_refl).
Defined.

(** The requests of the sheet of two rows: one, for the row that finds
    a record. *)
Lemma import_requests_witness :
  parseImport sampleEngineMessage twoRowSheet = inr [reportRow; missingRow]
  /\ Run.requests
       (handleImportFiles sampleEngineMessage alwaysOk noListing samplePage
          (Some twoRowSheet))
     = [patchOf reportFile sampleAttributes]
  /\ matchedRows (Page.files samplePage) [reportRow; missingRow]
     = [(reportFile, reportRow)].
Proof.
  split; [reflexivity |].
  destruct (import_requests sampleEngineMessage alwaysOk noListing samplePage
              twoRowSheet [reportRow; missingRow] eq_refl) as (Hrequests & _ & _).
  split; [rewrite Hrequests |]; reflexivity.
Defined.

(** The dialog opened on the record whose title holds a double quote. *)
Lemma edit_then_save_witness :
  wf_json (File.attributes quotedTitleFile) = true
  /\ withinLimits (File.attributes quotedTitleFile)
  /\ parseAttributesInput
       (stringifyPretty (File.attributes quotedTitleFile))
     = inr (File.attributes quotedTitleFile)
  /\ Run.requests
       (handleSaveMetadata sampleEngineMessage alwaysOk
          (handleEditClick samplePage quotedTitleFile))
     = [patchOf quotedTitleFile (File.attributes quotedTitleFile)].
Proof.
  assert (Hlim : withinLimits (File.attributes quotedTitleFile)).
  { eexists. split; [reflexivity |]. split; [simpl; lia |].
    repeat constructor; simpl; lia. }
  split; [reflexivity |]. split; [exact Hlim |].
  destruct (edit_then_save sampleEngineMessage alwaysOk samplePage
              quotedTitleFile eq_refl Hlim) as (Hparse & Hrequests & _).
  split; [exact Hparse | exact Hrequests].
Defined.

(** The request for the record whose title holds a double quote. *)
Lemma route_reads_request_witness :
  wf_json (File.attributes quotedTitleFile) = true
  /\ withinLimits (File.attributes quotedTitleFile)
  /\ requestJson (patchOf quotedTitleFile (File.attributes quotedTitleFile))
     = Some (JObj [("attributes", File.attributes quotedTitleFile);
                   ("vectorStoreId", JStr "vs_1")])
  /\ snd (PATCH acceptingCollaborator "file-3"
            (requestJson
               (patchOf quotedTitleFile (File.attributes quotedTitleFile))))
     = [mkCall (JStr "vs_1") "file-3" (File.attributes quotedTitleFile)].
Proof.
  assert (Hlim : withinLimits (File.attributes quotedTitleFile)).
  { eexists. split; [reflexivity |]. split; [simpl; lia |].
    repeat constructor; simpl; lia. }
  split; [reflexivity |]. split; [exact Hlim |].
  destruct (route_reads_request acceptingCollaborator
              (patchOf quotedTitleFile (File.attributes quotedTitleFile))
              eq_refl) as (Hjson & _ & Hcall).
  split; [exact Hjson | exact (Hcall Hlim eq_refl)].
Defined.

(** The export of the page of two records. *)
Lemma export_lines_readback_witness :
  forallb (singleLine sampleISOString) [reportFile; manualFile] = true
  /\ exists text rows,
      handleExportFiles sampleISOString [reportFile; manualFile] = inr text
      /\ exportRows sampleISOString [reportFile; manualFile] = inr rows
      /\ map parseCSVLine (Js.splitLines text) = map (map Js.trim) rows
      /\ List.length (importLines text) = 3.
Proof.
  split; [reflexivity |].
  destruct (export_lines_readback sampleISOString [reportFile; manualFile]
              eq_refl) as [Hproduced Hread].
  destruct (Hproduced eq_refl) as [text Htext].
  destruct (Hread text Htext) as (rows & Hrows & Hlength & _ & Hlines & Hcells).
  exists text, rows. split; [exact Htext |]. split; [exact Hrows |].
  split; [exact Hcells |]. now rewrite Hlines, length_map, Hlength.
Defined.

(** The export of a page of one record with complete attributes,
    imported again. *)
Lemma exported_rows_requests_witness :
  forallb reimportable [manualFile] = true
  /\ cleanFileName (Js.trim (exportName manualFile)) = exportName manualFile
  /\ exists text,
      remapExport sampleISOString [manualFile] = inr text
      /\ Run.requests
           (handleImportFiles sampleEngineMessage alwaysOk noListing
              (Page.mk [manualFile] None EmptyString Summary.initial)
              (Some text))
         = [patchOf manualFile sampleAttributes].
Proof.
  split; [reflexivity |]. split; [reflexivity |].
  destruct (exported_rows_requests sampleEngineMessage sampleISOString
              alwaysOk noListing
              (Page.mk [manualFile] None EmptyString Summary.initial)
              ltac:(discriminate) eq_refl
              ltac:(repeat constructor)) as [Hproduced Hread].
  destruct (Hproduced eq_refl) as [text Htext].
  destruct (Hread text Htext) as (_ & _ & Hown).
  exists text. split; [exact Htext |].
  apply Hown. intros file other [<- | []] [<- | []] _. reflexivity.
Defined.

(** The rows of the sheet of two rows need no escape. *)
Lemma imported_attributes_plain_witness :
  parseImport sampleEngineMessage twoRowSheet = inr [reportRow; missingRow]
  /\ Forall (fun update => plain (Update.attributes update) = true)
       [reportRow; missingRow].
Proof.
  split; [reflexivity |].
  exact (imported_attributes_plain sampleEngineMessage twoRowSheet
           [reportRow; missingRow] eq_refl).
Defined.

(** The border of the Size column dragged far to the left. *)
Lemma resize_drag_witness :
  widthOf "Size" initialWidths = Some (Px 100)
  /\ widthOf "Size"
       (handleResizeMove (handleResizeStart initialWidths "Size" 300) 200
          (handleResizeMove (handleResizeStart initialWidths "Size" 300) 310
             initialWidths))
     = Some (Px 50)
  /\ handleResizeMove (handleResizeStart initialWidths "Size" 300) 300
       (handleResizeMove (handleResizeStart initialWidths "Size" 300) 310
          initialWidths)
     = initialWidths.
Proof.
  split; [reflexivity |].
  destruct (resize_drag initialWidths "Size" 100 300 310 200 eq_refl eq_refl)
    as (_ & Hwidth & _ & _ & Hback & _).
  split; [exact Hwidth | apply Hback; lia].
Defined.


(** The request of the dialog on the second record of the page. *)
Lemma saved_request_served_witness :
  In (patchOf manualFile sampleAttributes)
    (Run.requests
       (handleSaveMetadata sampleEngineMessage alwaysOk
          (editingPage sampleAttributesText)))
  /\ snd (PATCH acceptingCollaborator "file-2"
            (requestJson (patchOf manualFile sampleAttributes)))
     = [mkCall (JStr "vs_1") "file-2" sampleAttributes].
Proof.
  assert (Hin : In (patchOf manualFile sampleAttributes)
                  (Run.requests
                     (handleSaveMetadata sampleEngineMessage alwaysOk
                        (editingPage sampleAttributesText))))
    by (left; reflexivity).
  split; [exact Hin |].
  destruct (saved_request_served sampleEngineMessage alwaysOk
              acceptingCollaborator (editingPage sampleAttributesText)
              (patchOf manualFile sampleAttributes) Hin) as (_ & Hcall & _).
  exact (proj1 (Hcall eq_refl)).
Defined.
